(** * EDUFACE: recognition decision, attendance ledger and metrics

    A shallow embedding of [app/db.py] and of the attendance and metrics
    endpoints of [app/main.py], followed by the properties of the
    specification that are stated about them.

    Conventions of the embedding.
    - The two SQL tables are lists of rows, oldest row first.  A primary key
      [INTEGER PRIMARY KEY] of SQLite is allocated as one more than the largest
      key of the table.
    - The handlers that compute with Python floats are embedded twice: over
      exact rationals of [Q], for the properties of the ledger and of the
      order of distances, and over IEEE 754 doubles in [Binary64], for the
      properties that state which comparison, difference or rounded
      percentage the code computes.
    - A [date] is its proleptic Gregorian ordinal ([date.toordinal()]); a
      [datetime] is a date with hour, minute, second and microsecond.
    - A request handler is a function from the tables (and the clock it reads)
      to the new tables and a [result]: the value returned, an [HTTPException],
      or another uncaught exception. *)

From Stdlib Require Import ZArith QArith Qround List String Ascii Bool Lia.
From Stdlib Require Import DecimalString Sorted Permutation Floats.
Import ListNotations.

Open Scope string_scope.
Open Scope Z_scope.

(** ** Strings *)

Module PyStr.

Definition truthy (s : string) : bool :=
  match s with EmptyString => false | _ => true end.

(** [a or b] on strings. *)
Definition or_else (a b : string) : string := if truthy a then a else b.

Definition lower_ascii (c : ascii) : ascii :=
  let n := nat_of_ascii c in
  if ((65 <=? n) && (n <=? 90))%nat then ascii_of_nat (n + 32) else c.

Fixpoint lower (s : string) : string :=
  match s with
  | EmptyString => EmptyString
  | String c r => String (lower_ascii c) (lower r)
  end.

(** [sub in s]. *)
Fixpoint contains (sub s : string) : bool :=
  if prefix sub s then true
  else match s with
       | EmptyString => false
       | String _ r => contains sub r
       end.

(** [str.isspace] on a character below 128: the blank, [\t] to [\r], and the
    four separators 0x1C to 0x1F. *)
Definition is_space (c : ascii) : bool :=
  let n := nat_of_ascii c in
  ((n =? 32) || ((9 <=? n) && (n <=? 13)) || ((28 <=? n) && (n <=? 31)))%nat.

(** A string of characters below 128, on which [lower] and [strip] below are
    those of Python. *)
Fixpoint is_ascii (s : string) : bool :=
  match s with
  | EmptyString => true
  | String c r => (nat_of_ascii c <? 128)%nat && is_ascii r
  end.

Fixpoint lstrip (s : string) : string :=
  match s with
  | String c r => if is_space c then lstrip r else s
  | EmptyString => EmptyString
  end.

Fixpoint rstrip_by (p : ascii -> bool) (s : string) : string :=
  match s with
  | EmptyString => EmptyString
  | String c r =>
      match rstrip_by p r with
      | EmptyString => if p c then EmptyString else String c EmptyString
      | r' => String c r'
      end
  end.

Definition strip (s : string) : string := rstrip_by is_space (lstrip s).

(** [s.replace(a, b)] for single characters. *)
Fixpoint replace_char (a b : ascii) (s : string) : string :=
  match s with
  | EmptyString => EmptyString
  | String c r => String (if Ascii.eqb c a then b else c) (replace_char a b r)
  end.

Definition is_slash (c : ascii) : bool := Ascii.eqb c "/"%char.

Fixpoint all_slashes (s : string) : bool :=
  match s with
  | EmptyString => true
  | String c r => is_slash c && all_slashes r
  end.

(** [(p[:i], p[i:])] for [i = p.rfind('/') + 1]. *)
Fixpoint rsplit_slash (p : string) : string * string :=
  match p with
  | EmptyString => (EmptyString, EmptyString)
  | String c r =>
      let (h, t) := rsplit_slash r in
      if truthy h then (String c h, t)
      else if is_slash c then (String c EmptyString, r)
      else (EmptyString, String c t)
  end.

(** [os.path.basename] and [os.path.dirname] of [posixpath]. *)
Definition basename (p : string) : string := snd (rsplit_slash p).

Definition dirname (p : string) : string :=
  let head := fst (rsplit_slash p) in
  if truthy head && negb (all_slashes head)
  then rstrip_by is_slash head else head.

(** [str(n)] for an integer. *)
Definition of_int (n : Z) : string := NilZero.string_of_int (Z.to_int n).

Fixpoint zeros (n : nat) : string :=
  match n with O => EmptyString | S k => String "0"%char (zeros k) end.

(** ["%0<w>d" % n] for a natural [n]. *)
Definition zero_pad (w : nat) (n : Z) : string :=
  let d := of_int n in
  zeros (w - String.length d) ++ d.

End PyStr.

(** ** Calendar dates and times *)

Module PyDate.

(** A date is [d.toordinal()]: 0001-01-01 is day 1. *)
Definition date := Z.

Definition is_leap (y : Z) : bool :=
  (y mod 4 =? 0) && (negb (y mod 100 =? 0) || (y mod 400 =? 0)).

Definition days_before_year (y : Z) : Z :=
  let p := y - 1 in p * 365 + p / 4 - p / 100 + p / 400.

Definition days_in_month (y m : Z) : Z :=
  if m =? 2 then (if is_leap y then 29 else 28)
  else if (m =? 4) || (m =? 6) || (m =? 9) || (m =? 11) then 30 else 31.

Fixpoint days_before_month_aux (y : Z) (k : nat) : Z :=
  match k with
  | O => 0
  | S j => days_before_month_aux y j + days_in_month y (Z.of_nat k)
  end.

(** Days of year [y] that precede the first day of month [m]. *)
Definition days_before_month (y m : Z) : Z :=
  days_before_month_aux y (Z.to_nat (m - 1)).

(** [date(y, m, d).toordinal()]. *)
Definition ymd2ord (y m d : Z) : date :=
  days_before_year y + days_before_month y m + d.

(** [(d.year, d.month, d.day)], after CPython's [_ord2ymd]. *)
Definition ord2ymd (o : date) : Z * Z * Z :=
  let n := o - 1 in
  let n400 := n / 146097 in let n := n mod 146097 in
  let n100 := n / 36524 in let n := n mod 36524 in
  let n4 := n / 1461 in let n := n mod 1461 in
  let n1 := n / 365 in let n := n mod 365 in
  let year := n400 * 400 + 1 + n100 * 100 + n4 * 4 + n1 in
  if (n1 =? 4) || (n100 =? 4) then (year - 1, 12, 31)
  else
    let leapyear := (n1 =? 3) && (negb (n4 =? 24) || (n100 =? 3)) in
    let month := Z.shiftr (n + 50) 5 in
    let preceding :=
      days_before_month_aux 1 (Z.to_nat (month - 1))
      + (if (2 <? month) && leapyear then 1 else 0) in
    if n <? preceding then
      let month' := month - 1 in
      let preceding' :=
        preceding - (days_in_month 1 month'
                     + (if (month' =? 2) && leapyear then 1 else 0)) in
      (year, month', n - preceding' + 1)
    else (year, month, n - preceding + 1).

Definition year (d : date) : Z := fst (fst (ord2ymd d)).
Definition month (d : date) : Z := snd (fst (ord2ymd d)).
Definition day (d : date) : Z := snd (ord2ymd d).

(** [d.weekday()]: Monday is 0. *)
Definition weekday (d : date) : Z := (d + 6) mod 7.

(** [d.replace(day=1)]. *)
Definition replace_day1 (d : date) : date := ymd2ord (year d) (month d) 1.

(** [str(d)], that is [d.isoformat()]. *)
Definition str (d : date) : string :=
  PyStr.zero_pad 4 (year d) ++ "-" ++ PyStr.zero_pad 2 (month d)
    ++ "-" ++ PyStr.zero_pad 2 (day d).

(** A time of day, [datetime.time]. *)
Record time := mk_time { hour : Z; minute : Z; second : Z; microsecond : Z }.

(** Python orders times as the tuples (hour, minute, second, microsecond). *)
Definition time_ltb (a b : time) : bool :=
  (hour a <? hour b) || ((hour a =? hour b) &&
  ((minute a <? minute b) || ((minute a =? minute b) &&
  ((second a <? second b) || ((second a =? second b) &&
  (microsecond a <? microsecond b)))))).

Definition time_leb (a b : time) : bool := negb (time_ltb b a).

(** [datetime.strptime(s, '%H:%M').time()] at the hour and minute read. *)
Definition hm (h m : Z) : time := mk_time h m 0 0.

Record datetime := mk_datetime { dt_date : date; dt_time : time }.

(** [now.replace(hour=h, minute=m, second=s, microsecond=us)]. *)
Definition replace_time (now : datetime) (h m s us : Z) : datetime :=
  mk_datetime (dt_date now) (mk_time h m s us).

(** [a > b] on datetimes. *)
Definition datetime_gtb (a b : datetime) : bool :=
  (dt_date b <? dt_date a)
  || ((dt_date b =? dt_date a) && time_ltb (dt_time b) (dt_time a)).

(** [dt.isoformat()]. *)
Definition isoformat (dt : datetime) : string :=
  let t := dt_time dt in
  str (dt_date dt) ++ "T" ++ PyStr.zero_pad 2 (hour t) ++ ":"
    ++ PyStr.zero_pad 2 (minute t) ++ ":" ++ PyStr.zero_pad 2 (second t)
    ++ (if microsecond t =? 0 then ""
        else "." ++ PyStr.zero_pad 6 (microsecond t)).

End PyDate.

(** ** Floats as rationals

    The exact counterpart of the arithmetic of doubles; [Binary64] below has
    the doubles themselves. *)

Module PyFloat.

(** Nearest integer, ties to even. *)
Definition round_half_even (q : Q) : Z :=
  let f := Qfloor q in
  let r := (q - inject_Z f)%Q in
  match (r ?= 1 # 2)%Q with
  | Lt => f
  | Gt => f + 1
  | Eq => if Z.even f then f else f + 1
  end.

(** [round(x, 2)]. *)
Definition round2 (x : Q) : Q :=
  (inject_Z (round_half_even (x * 100)) / 100)%Q.

(** [a / b] on integers; [None] is [ZeroDivisionError]. *)
Definition truediv (a b : Z) : option Q :=
  if b =? 0 then None else Some (inject_Z a / inject_Z b)%Q.

End PyFloat.

(** ** The tables of [app/db.py] *)

Module DB.
Import PyDate.

(** A row of [students]. *)
Record Student := mk_student {
  st_id : Z;
  st_code : string;
  st_name : string;
  st_grade : option string;
  st_section : option string;
  st_gender : option string;
  st_registration_date : option date;
  st_photo_path : option string
}.

(** A row of [attendances]; [at_status] is ['Puntual'] or ['Tarde']. *)
Record Attendance := mk_attendance {
  at_id : Z;
  at_student_id : Z;
  at_date : date;
  at_time : datetime;
  at_status : string
}.

Record t := mk_db { students : list Student; attendances : list Attendance }.

(** The tables after [init_db()] on a fresh file. *)
Definition empty : t := mk_db [] [].

(** The key given to a new row of a table with the keys [ids]. *)
Definition next_id (ids : list Z) : Z := 1 + fold_right Z.max 0 ids.

(** [db.add(Student(...)); db.commit(); db.refresh(st)]: the row with its
    key, and the tables with it. *)
Definition add_student (db : t)
    (code name : string) (grade section gender : option string)
    (registration_date : option date) (photo_path : option string)
  : t * Student :=
  let st := mk_student (next_id (map st_id (students db))) code name grade
              section gender registration_date photo_path in
  (mk_db (students db ++ [st]) (attendances db), st).

(** [db.add(Attendance(...)); db.commit(); db.refresh(att)]. *)
Definition add_attendance (db : t) (student_id : Z) (d : date)
    (tm : datetime) (status : string) : t * Attendance :=
  let att := mk_attendance (next_id (map at_id (attendances db))) student_id
               d tm status in
  (mk_db (students db) (attendances db ++ [att]), att).

(** The keys that an [INTEGER] column of SQLite holds; the driver raises
    [OverflowError] when it is given another. *)
Definition int64 (k : Z) : Prop := - 2 ^ 63 <= k < 2 ^ 63.

(** [db.get(Student, student_id)] for a key that is an [int64]. *)
Definition get_student (db : t) (student_id : Z) : option Student :=
  find (fun st => st_id st =? student_id) (students db).

(** The constraint [uq_attendance_student_date] of [Attendance]. *)
Definition uq_attendance_student_date (db : t) : Prop :=
  NoDup (map (fun a => (at_student_id a, at_date a)) (attendances db)).

(** The primary keys and the [unique=True] of [Student.code]. *)
Definition pk_students (db : t) : Prop := NoDup (map st_id (students db)).
Definition pk_attendances (db : t) : Prop := NoDup (map at_id (attendances db)).
Definition uq_student_code (db : t) : Prop := NoDup (map st_code (students db)).

End DB.

(** ** Results of a request handler *)

Inductive result (A : Type) : Type :=
| Ok (a : A)
| HTTPException (status_code : Z) (detail : string)
| Raised (exn : string).
Arguments Ok {A} a.
Arguments HTTPException {A} status_code detail.
Arguments Raised {A} exn.

(** [Query.one_or_none()] on the rows matched: [None] is
    [MultipleResultsFound]. *)
Definition one_or_none {A : Type} (rows : list A) : option (option A) :=
  match rows with
  | [] => Some None
  | [x] => Some (Some x)
  | _ :: _ :: _ => None
  end.

(** The JSON bodies that [attendance_mark] returns. *)
#[warnings="-register-all"] Inductive json : Type :=
| JStr (s : string)
| JNum (x : Q)
| JObj (fields : list (string * json)).

Definition json_get (k : string) (j : json) : option json :=
  match j with
  | JObj fields =>
      match find (fun kv => String.eqb (fst kv) k) fields with
      | Some kv => Some (snd kv)
      | None => None
      end
  | _ => None
  end.

(** ** Recognition and marking: [POST /attendance/mark] *)

Definition Qltb (a b : Q) : bool := negb (Qle_bool b a).

(** [_defaults_for_model]. *)
Definition _defaults_for_model (model_name : string) : string * Q :=
  let name := PyStr.lower model_name in
  if PyStr.contains "arc" name then ("euclidean_l2", 120 # 100)%Q
  else if PyStr.contains "facenet" name then ("cosine", 30 # 100)%Q
  else ("cosine", 30 # 100)%Q.

(** A row of the frame that [DeepFace.find] returns. *)
Record candidate := mk_candidate { identity : string; distance : Q }.

Definition dataframe := list candidate.

(** [df.sort_values('distance')]: ascending; rows of equal distance keep
    their order. *)
Fixpoint sort_insert (c : candidate) (l : dataframe) : dataframe :=
  match l with
  | [] => [c]
  | x :: r => if Qle_bool (distance c) (distance x) then c :: l
              else x :: sort_insert c r
  end.

Fixpoint sort_values (df : dataframe) : dataframe :=
  match df with
  | [] => []
  | c :: r => sort_insert c (sort_values r)
  end.

(** The form fields of the request that the decision reads. *)
Record mark_form := mk_mark_form {
  detector_backend : string;
  model_name : string;
  max_distance : option Q;
  min_margin : Q
}.

(** The two readings of the clock of one request: [date.today()] and
    [datetime.now()]. *)
Record clock := mk_clock { clk_today : PyDate.date; clk_now : PyDate.datetime }.

(** [eff_max_distance]; [env_max] is the environment's [FACE_MAX_DISTANCE],
    [None] when unset or empty. *)
Definition eff_max_distance (env_max : option Q) (form : mark_form) : Q :=
  match max_distance form with
  | Some m => m
  | None => match env_max with
            | Some e => e
            | None => snd (_defaults_for_model (model_name form))
            end
  end.

Definition unknown_body : json := JObj [("status", JStr "unknown")].

Definition above_threshold_body (best_dist : Q) : json :=
  JObj [("status", JStr "unknown"); ("reason", JStr "above_threshold");
        ("distance", JNum best_dist)].

Definition low_margin_body (best_dist second_dist : Q) : json :=
  JObj [("status", JStr "unknown"); ("reason", JStr "low_margin");
        ("distance", JNum best_dist);
        ("margin", JNum (second_dist - best_dist)%Q)].

Definition attendance_body (att : DB.Attendance) : json :=
  JObj [("date", JStr (PyDate.str (DB.at_date att)));
        ("time", JStr (PyDate.isoformat (DB.at_time att)));
        ("status", JStr (DB.at_status att))].

Definition marked_body (student : DB.Student) (att : DB.Attendance)
    (best_dist : Q) (form : mark_form) : json :=
  JObj [("status", JStr "marked"); ("student", JStr (DB.st_code student));
        ("attendance", attendance_body att); ("distance", JNum best_dist);
        ("model", JStr (model_name form));
        ("detector", JStr (detector_backend form))].

(** ['Tarde' if now > cutoff else 'Puntual'] with the cutoff at 07:30:00 of
    the day of [now]. *)
Definition punctuality (now : PyDate.datetime) : string :=
  let cutoff := PyDate.replace_time now 7 30 0 0 in
  if PyDate.datetime_gtb now cutoff then "Tarde" else "Puntual".

(** The ledger part of [attendance_mark], entered once the best candidate is
    accepted: find or create the student of [code], then find or create the
    attendance of today. *)
Definition mark_student (clk : clock) (code : string) (db : DB.t)
  : DB.t * result (DB.Student * DB.Attendance) :=
  match one_or_none
          (filter (fun st => String.eqb (DB.st_code st) code) (DB.students db))
  with
  | None => (db, Raised "MultipleResultsFound")
  | Some found =>
      let (db1, student) :=
        match found with
        | Some st => (db, st)
        | None => DB.add_student db code code None None None None None
        end in
      let today := clk_today clk in
      match one_or_none
              (filter (fun a => (DB.at_student_id a =? DB.st_id student)
                                && (DB.at_date a =? today))
                      (DB.attendances db1))
      with
      | None => (db1, Raised "MultipleResultsFound")
      | Some (Some att) => (db1, Ok (student, att))
      | Some None =>
          let now := clk_now clk in
          let status := punctuality now in
          let (db2, att) :=
            DB.add_attendance db1 (DB.st_id student) today now status in
          (db2, Ok (student, att))
      end
  end.

(** [attendance_mark]; [df] is the frame taken from [DeepFace.find], [None]
    when there is none. *)
Definition attendance_mark (env_max : option Q) (clk : clock)
    (form : mark_form) (df : option dataframe) (db : DB.t)
  : DB.t * result json :=
  let eff_max := eff_max_distance env_max form in
  match df with
  | None => (db, Ok unknown_body)
  | Some [] => (db, Ok unknown_body)
  | Some rows =>
      match sort_values rows with
      | [] => (db, Raised "IndexError")
      | best :: rest =>
          let best_dist := distance best in
          let second_dist :=
            match rest with
            | second :: _ => Some (distance second)
            | [] => None
            end in
          let accepted :=
            let code := PyStr.basename (PyStr.dirname (identity best)) in
            match mark_student clk code db with
            | (db', Ok (student, att)) =>
                (db', Ok (marked_body student att best_dist form))
            | (db', HTTPException c d) => (db', HTTPException c d)
            | (db', Raised e) => (db', Raised e)
            end in
          if Qltb eff_max best_dist then
            (db, Ok (above_threshold_body best_dist))
          else
            match second_dist with
            | Some sd =>
                if Qltb (sd - best_dist) (min_margin form)
                then (db, Ok (low_margin_body best_dist sd))
                else accepted
            | None => accepted
            end
      end
  end.

(** ** Clearing attendances: [/admin/attendance/clear-*] *)

(** [admin_clear_today]; the value is the number of rows deleted. *)
Definition admin_clear_today (today : PyDate.date) (db : DB.t)
  : DB.t * result Z :=
  let gone := filter (fun a => DB.at_date a =? today) (DB.attendances db) in
  let kept := filter (fun a => negb (DB.at_date a =? today)) (DB.attendances db) in
  (DB.mk_db (DB.students db) kept, Ok (Z.of_nat (List.length gone))).

(** [admin_clear_all]. *)
Definition admin_clear_all (db : DB.t) : DB.t * result Z :=
  (DB.mk_db (DB.students db) [], Ok (Z.of_nat (List.length (DB.attendances db)))).

(** [admin_clear_date]; [target] is the date parsed from the form field,
    [None] when [strptime] rejects it. *)
Definition admin_clear_date (target : option PyDate.date) (db : DB.t)
  : DB.t * result Z :=
  match target with
  | None => (db, HTTPException 400 "Fecha inválida, use YYYY-MM-DD")
  | Some d => admin_clear_today d db
  end.

(** ** Students: [/students] and [/admin/students/clear-all] *)

Record StudentCreate := mk_student_create {
  sc_code : string;
  sc_name : string;
  sc_grade : option string;
  sc_section : option string;
  sc_gender : option string;
  sc_registration_date : option PyDate.date;
  sc_photo_path : option string
}.

(** A field of [StudentUpdate] is unset ([None]) or set to a value, which may
    be [None] ([payload.dict(exclude_unset=True)]). *)
Record StudentUpdate := mk_student_update {
  su_name : option (option string);
  su_grade : option (option string);
  su_section : option (option string);
  su_gender : option (option string);
  su_registration_date : option (option PyDate.date);
  su_photo_path : option (option string)
}.

Definition code_taken (code : string) (db : DB.t) : option (option DB.Student) :=
  one_or_none (filter (fun st => String.eqb (DB.st_code st) code) (DB.students db)).

(** [create_student]. *)
Definition create_student (payload : StudentCreate) (db : DB.t)
  : DB.t * result DB.Student :=
  match code_taken (sc_code payload) db with
  | None => (db, Raised "MultipleResultsFound")
  | Some (Some _) => (db, HTTPException 400 "Código ya existe")
  | Some None =>
      let (db', st) :=
        DB.add_student db (sc_code payload) (sc_name payload) (sc_grade payload)
          (sc_section payload) (sc_gender payload)
          (sc_registration_date payload) (sc_photo_path payload) in
      (db', Ok st)
  end.

(** The row [st] written back in place of the row of its key. *)
Definition put_student (st : DB.Student) (db : DB.t) : DB.t :=
  DB.mk_db
    (map (fun x => if DB.st_id x =? DB.st_id st then st else x) (DB.students db))
    (DB.attendances db).

Definition set_or {A : Type} (field : option A) (old : A) : A :=
  match field with Some v => v | None => old end.

(** [update_student]: a name set to [None] breaks [nullable=False] at the
    commit, which writes nothing. *)
Definition update_student (student_id : Z) (payload : StudentUpdate) (db : DB.t)
  : DB.t * result DB.Student :=
  match DB.get_student db student_id with
  | None => (db, HTTPException 404 "No encontrado")
  | Some st =>
      match su_name payload with
      | Some None => (db, Raised "IntegrityError")
      | _ =>
          let st' :=
            DB.mk_student (DB.st_id st) (DB.st_code st)
              (match su_name payload with
               | Some (Some n) => n
               | _ => DB.st_name st
               end)
              (set_or (su_grade payload) (DB.st_grade st))
              (set_or (su_section payload) (DB.st_section st))
              (set_or (su_gender payload) (DB.st_gender st))
              (set_or (su_registration_date payload) (DB.st_registration_date st))
              (set_or (su_photo_path payload) (DB.st_photo_path st)) in
          (put_student st' db, Ok st')
      end
  end.

(** [delete_student]: [db.delete(st)] also deletes [st.attendances], by the
    [cascade='all,delete'] of the relationship. *)
Definition delete_student (student_id : Z) (db : DB.t) : DB.t * result bool :=
  match DB.get_student db student_id with
  | None => (db, HTTPException 404 "No encontrado")
  | Some st =>
      (DB.mk_db
         (filter (fun x => negb (DB.st_id x =? DB.st_id st)) (DB.students db))
         (filter (fun a => negb (DB.at_student_id a =? DB.st_id st))
                 (DB.attendances db)),
       Ok true)
  end.

(** The fields of the multipart form of [create_student_form].  Of the
    upload only [sf_photo_ext] is kept, [splitext(photo.filename)[1] or '.jpg']
    when a file with a name came; [sf_registration_date] is the date parsed,
    [None] when absent or not a date; [sf_timestamp] is
    [int(datetime.now().timestamp())]. *)
Record StudentForm := mk_student_form {
  sf_name : string;
  sf_grade : option string;
  sf_section : option string;
  sf_gender : option string;
  sf_registration_date : option PyDate.date;
  sf_code : option string;
  sf_photo_ext : option string;
  sf_timestamp : Z
}.

Definition form_code (f : StudentForm) : string :=
  let given := match sf_code f with Some c => c | None => "" end in
  let raw :=
    PyStr.or_else given
      (PyStr.or_else (sf_name f)
         ("alumno_" ++ PyStr.of_int (sf_timestamp f))) in
  PyStr.replace_char " "%char "_"%char (PyStr.lower (PyStr.strip raw)).

Definition media_path (code ext : string) : string :=
  "/media/students/" ++ PyStr.basename (code ++ ext).

(** [create_student_form].  When a photo comes it is written to the folder
    of the students before the row is added; the handler is embedded for a
    write that succeeds. *)
Definition create_student_form (f : StudentForm) (db : DB.t)
  : DB.t * result DB.Student :=
  let code := form_code f in
  match code_taken code db with
  | None => (db, Raised "MultipleResultsFound")
  | Some (Some _) => (db, HTTPException 400 "Código ya existe")
  | Some None =>
      let photo_path := option_map (media_path code) (sf_photo_ext f) in
      let (db', st) :=
        DB.add_student db code (sf_name f) (sf_grade f) (sf_section f)
          (sf_gender f) (sf_registration_date f) photo_path in
      (db', Ok st)
  end.

(** The fields of the form of [update_student_form]. *)
Record StudentUpdateForm := mk_student_update_form {
  uf_name : option string;
  uf_grade : option string;
  uf_section : option string;
  uf_gender : option string;
  uf_registration_date : option PyDate.date;
  uf_photo_ext : option string
}.

(** [update_student_form], for a key that is an [int64] and, when a photo
    comes, a write of it that succeeds. *)
Definition update_student_form (student_id : Z) (f : StudentUpdateForm)
    (db : DB.t) : DB.t * result DB.Student :=
  match DB.get_student db student_id with
  | None => (db, HTTPException 404 "No encontrado")
  | Some st =>
      let st' :=
        DB.mk_student (DB.st_id st) (DB.st_code st)
          (set_or (uf_name f) (DB.st_name st))
          (match uf_grade f with Some g => Some g | None => DB.st_grade st end)
          (match uf_section f with Some x => Some x | None => DB.st_section st end)
          (match uf_gender f with Some g => Some g | None => DB.st_gender st end)
          (match uf_registration_date f with
           | Some d => Some d
           | None => DB.st_registration_date st
           end)
          (match uf_photo_ext f with
           | Some ext => Some (media_path (DB.st_code st) ext)
           | None => DB.st_photo_path st
           end) in
      (put_student st' db, Ok st')
  end.

(** [admin_clear_students_all]: [db.query(Student).delete()] is one
    [DELETE FROM students]; it does not go through the relationship, and the
    rows of [attendances] stay. *)
Definition admin_clear_students_all (db : DB.t) : DB.t * result Z :=
  (DB.mk_db [] (DB.attendances db), Ok (Z.of_nat (List.length (DB.students db)))).

(** ** The system as a transition system *)

(** The requests that write to the tables. *)
Inductive request : Type :=
| AttendanceMark (env_max : option Q) (clk : clock) (form : mark_form)
                 (df : option dataframe)
| AdminClearToday (today : PyDate.date)
| AdminClearAll
| AdminClearDate (target : option PyDate.date)
| CreateStudent (payload : StudentCreate)
| UpdateStudent (student_id : Z) (payload : StudentUpdate)
| DeleteStudent (student_id : Z)
| CreateStudentForm (f : StudentForm)
| UpdateStudentForm (student_id : Z) (f : StudentUpdateForm)
| AdminClearStudentsAll.

(** The tables after a request is served. *)
Definition step (db : DB.t) (r : request) : DB.t :=
  match r with
  | AttendanceMark env_max clk form df => fst (attendance_mark env_max clk form df db)
  | AdminClearToday today => fst (admin_clear_today today db)
  | AdminClearAll => fst (admin_clear_all db)
  | AdminClearDate target => fst (admin_clear_date target db)
  | CreateStudent payload => fst (create_student payload db)
  | UpdateStudent i payload => fst (update_student i payload db)
  | DeleteStudent i => fst (delete_student i db)
  | CreateStudentForm f => fst (create_student_form f db)
  | UpdateStudentForm i f => fst (update_student_form i f db)
  | AdminClearStudentsAll => fst (admin_clear_students_all db)
  end.

Definition run (rs : list request) : DB.t := fold_left step rs DB.empty.

(** The states of the tables that the requests can produce from the empty
    tables. *)
Inductive reachable : DB.t -> Prop :=
| reachable_empty : reachable DB.empty
| reachable_step db r : reachable db -> reachable (step db r).

(** ** Metrics: [/metrics/today], [/metrics/summary], [/metrics/detailed] *)

Definition count {A : Type} (rows : list A) : Z := Z.of_nat (List.length rows).

Definition status_is (s : string) (a : DB.Attendance) : bool :=
  String.eqb (DB.at_status a) s.

Record today_metrics := mk_today_metrics {
  total_today : Z;
  punctual_today : Z;
  late_today : Z;
  absent_today : Z
}.

(** [metrics_today]. *)
Definition metrics_today (today : PyDate.date) (db : DB.t) : today_metrics :=
  let total_students := count (DB.students db) in
  let q := filter (fun a => DB.at_date a =? today) (DB.attendances db) in
  let total_today := count q in
  let punctual := count (filter (status_is "Puntual") q) in
  let late := count (filter (status_is "Tarde") q) in
  let absent := Z.max (total_students - total_today) 0 in
  mk_today_metrics total_today punctual late absent.

(** [query(Attendance).join(Student, Student.id == Attendance.student_id)]:
    the pairs of an attendance and the student of its [student_id]. *)
Definition join_student (db : DB.t) : list (DB.Attendance * DB.Student) :=
  flat_map
    (fun a =>
       map (fun st => (a, st))
           (filter (fun st => DB.st_id st =? DB.at_student_id a) (DB.students db)))
    (DB.attendances db).

(** [if start: q = q.filter(Attendance.date >= start)]; a date is always
    truthy. *)
Definition from_start (start : option PyDate.date) (a : DB.Attendance) : bool :=
  match start with Some d => d <=? DB.at_date a | None => true end.

Definition to_end (end_ : option PyDate.date) (a : DB.Attendance) : bool :=
  match end_ with Some d => DB.at_date a <=? d | None => true end.

(** [if v: q = q.filter(column == v)]: no filter for [None] and for the empty
    string; a NULL column equals no value. *)
Definition column_is (v : option string) (column : option string) : bool :=
  match v with
  | Some x =>
      if PyStr.truthy x
      then match column with Some y => String.eqb y x | None => false end
      else true
  | None => true
  end.

Definition in_group (grade section : option string) (st : DB.Student) : bool :=
  column_is grade (DB.st_grade st) && column_is section (DB.st_section st).

(** [.distinct().count()] of a query of one integer column. *)
Definition distinct_count (ids : list Z) : Z := count (nodup Z.eq_dec ids).

(** The range of a named period, [None] for a name that is none of the
    three. *)
Definition period_range (period : string) (today : PyDate.date)
  : option PyDate.date * option PyDate.date :=
  if String.eqb period "day" then (Some today, Some today)
  else if String.eqb period "week" then
    let days_since_monday := PyDate.weekday today in
    let start := today - days_since_monday in
    (Some start, Some (start + 6))
  else if String.eqb period "month" then
    let start := PyDate.replace_day1 today in
    let end_ :=
      if PyDate.month today =? 12
      then PyDate.ymd2ord (PyDate.year today + 1) 1 1 - 1
      else PyDate.ymd2ord (PyDate.year today) (PyDate.month today + 1) 1 - 1 in
    (Some start, Some end_)
  else (None, None).

Record summary := mk_summary {
  students_total : Z;
  records_total : Z;
  punctuality_pct : Q;
  late_pct : Q;
  absent_pct : Q
}.

(** [(part / whole * 100.0) if whole else 0.0]; [None] is
    [ZeroDivisionError]. *)
Definition pct_if (part whole : Z) : option Q :=
  if negb (whole =? 0)
  then option_map (fun x => (x * 100)%Q) (PyFloat.truediv part whole)
  else Some 0%Q.

Definition opt_bind {A B : Type} (o : option A) (k : A -> option B) : option B :=
  match o with Some a => k a | None => None end.

Notation "x <- o ;; k" := (opt_bind o (fun x => k))
  (at level 61, o at next level, right associativity).

(** [metrics_summary]; [None] is an uncaught [ZeroDivisionError]. *)
Definition metrics_summary (period grade section : option string)
    (start end_ : option PyDate.date) (today : PyDate.date) (db : DB.t)
  : option summary :=
  let '(start, end_) :=
    match period, start, end_ with
    | Some p, None, None =>
        if PyStr.truthy p then period_range p today else (start, end_)
    | _, _, _ => (start, end_)
    end in
  let q :=
    filter (fun r => from_start start (fst r) && to_end end_ (fst r)
                     && in_group grade section (snd r))
           (join_student db) in
  let total := count q in
  let punctual := count (filter (fun r => status_is "Puntual" (fst r)) q) in
  let late := count (filter (fun r => status_is "Tarde" (fst r)) q) in
  let students_total := count (filter (in_group grade section) (DB.students db)) in
  punctuality <- pct_if punctual total ;;
  late_pct <- pct_if late total ;;
  absent_pct <-
    match start, end_ with
    | Some _, Some _ =>
        let unique_students_with_attendance :=
          filter (fun r => from_start start (fst r) && to_end end_ (fst r)
                           && in_group grade section (snd r))
                 (join_student db) in
        let students_with_attendance :=
          distinct_count
            (map (fun r => DB.at_student_id (fst r)) unique_students_with_attendance) in
        let absent_students := students_total - students_with_attendance in
        pct_if absent_students students_total
    | _, _ =>
        let students_with_any_attendance :=
          filter (fun r => in_group grade section (snd r)) (join_student db) in
        let students_with_attendance :=
          distinct_count
            (map (fun r => DB.at_student_id (fst r)) students_with_any_attendance) in
        let absent_students := students_total - students_with_attendance in
        pct_if absent_students students_total
    end ;;
  Some (mk_summary students_total total (PyFloat.round2 punctuality)
          (PyFloat.round2 late_pct) (PyFloat.round2 absent_pct)).

(** A Python [dict] from strings to counters, in insertion order. *)
Definition dict := list (string * Z).

Fixpoint dict_get (d : dict) (k : string) (default : Z) : Z :=
  match d with
  | [] => default
  | (k', v) :: r => if String.eqb k' k then v else dict_get r k default
  end.

Fixpoint dict_set (d : dict) (k : string) (v : Z) : dict :=
  match d with
  | [] => [(k, v)]
  | (k', v') :: r =>
      if String.eqb k' k then (k', v) :: r else (k', v') :: dict_set r k v
  end.

(** [d[k] = d.get(k, 0) + 1]; on a key present it is [d[k] += 1]. *)
Definition dict_incr (d : dict) (k : string) : dict :=
  dict_set d k (dict_get d k 0 + 1).

(** The label of the bucket that the [if]/[elif] chain of [metrics_detailed]
    increments for the time of day [t]. *)
Definition arrival_bucket (t : PyDate.time) : string :=
  if PyDate.time_leb (PyDate.hm 7 30) t && PyDate.time_ltb t (PyDate.hm 7 45)
  then "7:30-7:45"
  else if PyDate.time_ltb t (PyDate.hm 8 0) then "7:45-8:00"
  else if PyDate.time_ltb t (PyDate.hm 8 15) then "8:00-8:15"
  else if PyDate.time_ltb t (PyDate.hm 8 30) then "8:15-8:30"
  else "8:30+".

Definition empty_buckets : dict :=
  [("7:30-7:45", 0); ("7:45-8:00", 0); ("8:00-8:15", 0); ("8:15-8:30", 0);
   ("8:30+", 0)].

Record detailed := mk_detailed {
  gender_distribution : dict;
  arrival_buckets : dict;
  detailed_count : Z
}.

(** One turn of the loop over the rows. *)
Definition detailed_row (acc : dict * dict) (r : DB.Attendance * DB.Student)
  : dict * dict :=
  let (gender_counts, buckets) := acc in
  let g := match DB.st_gender (snd r) with
           | Some x => PyStr.or_else x "-"
           | None => "-"
           end in
  let t := PyDate.dt_time (DB.at_time (fst r)) in
  (dict_incr gender_counts g, dict_incr buckets (arrival_bucket t)).

(** The rows that [metrics_detailed] reads. *)
Definition detailed_rows (start end_ : option PyDate.date)
    (grade section : option string) (db : DB.t)
  : list (DB.Attendance * DB.Student) :=
  filter (fun r => from_start start (fst r) && to_end end_ (fst r)
                   && in_group grade section (snd r))
         (join_student db).

(** [metrics_detailed]. *)
Definition metrics_detailed (start end_ : option PyDate.date)
    (grade section : option string) (db : DB.t) : detailed :=
  let rows := detailed_rows start end_ grade section db in
  let (gender_counts, buckets) := fold_left detailed_row rows ([], empty_buckets) in
  mk_detailed gender_counts buckets (count rows).

(** ** The vocabulary of the specification *)

(** The decision of the Identity Resolver, as a caller of [attendance_mark]
    reads it off the body: an unknown status without a reason is the outcome
    for no candidates, and a marked status is an accepted identity. *)
Inductive Decision : Type :=
| Unknown_NoCandidates
| Unknown_AboveThreshold (best : Q)
| Unknown_LowMargin (best margin : Q)
| Accepted (code : string) (best : Q).

Definition decision_of (r : result json) : option Decision :=
  match r with
  | Ok body =>
      match json_get "status" body with
      | Some (JStr s) =>
          if String.eqb s "unknown" then
            match json_get "reason" body, json_get "distance" body,
                  json_get "margin" body with
            | None, None, None => Some Unknown_NoCandidates
            | Some (JStr why), Some (JNum d), None =>
                if String.eqb why "above_threshold"
                then Some (Unknown_AboveThreshold d) else None
            | Some (JStr why), Some (JNum d), Some (JNum m) =>
                if String.eqb why "low_margin"
                then Some (Unknown_LowMargin d m) else None
            | _, _, _ => None
            end
          else if String.eqb s "marked" then
            match json_get "student" body, json_get "distance" body with
            | Some (JStr code), Some (JNum d) => Some (Accepted code d)
            | _, _ => None
            end
          else None
      | _ => None
      end
  | _ => None
  end.

(** Ascending order of the rows of a frame. *)
Definition by_distance (a b : candidate) : Prop := (distance a <= distance b)%Q.

(** The attendances of the student [student_id] on the date [d]. *)
Definition records_of (student_id : Z) (d : PyDate.date) (db : DB.t)
  : list DB.Attendance :=
  filter (fun a => (DB.at_student_id a =? student_id) && (DB.at_date a =? d))
         (DB.attendances db).

(** The students of the group that have an attendance dated within
    [start .. end_], in the words of the specification. *)
Definition present_students (start end_ : PyDate.date)
    (grade section : option string) (db : DB.t) : list DB.Student :=
  filter
    (fun st =>
       in_group grade section st
       && existsb (fun a => (DB.at_student_id a =? DB.st_id st)
                            && (start <=? DB.at_date a) && (DB.at_date a <=? end_))
                  (DB.attendances db))
    (DB.students db).

(** The half-open interval of clock time of each bucket of the histogram;
    the last one has no upper end. *)
Definition bucket_interval (label : string)
  : option (PyDate.time * option PyDate.time) :=
  if String.eqb label "7:30-7:45" then Some (PyDate.hm 7 30, Some (PyDate.hm 7 45))
  else if String.eqb label "7:45-8:00" then Some (PyDate.hm 7 45, Some (PyDate.hm 8 0))
  else if String.eqb label "8:00-8:15" then Some (PyDate.hm 8 0, Some (PyDate.hm 8 15))
  else if String.eqb label "8:15-8:30" then Some (PyDate.hm 8 15, Some (PyDate.hm 8 30))
  else if String.eqb label "8:30+" then Some (PyDate.hm 8 30, None)
  else None.

Definition in_bucket (label : string) (t : PyDate.time) : bool :=
  match bucket_interval label with
  | Some (lo, Some hi) => PyDate.time_leb lo t && PyDate.time_ltb t hi
  | Some (lo, None) => PyDate.time_leb lo t
  | None => false
  end.

(** The invariant of the tables: the keys and the two UNIQUE constraints. *)
Record Inv (db : DB.t) : Prop := mk_inv {
  inv_pk_students : DB.pk_students db;
  inv_pk_attendances : DB.pk_attendances db;
  inv_uq_code : DB.uq_student_code db;
  inv_uq_attendance : DB.uq_attendance_student_date db
}.

(** ** Listings and counts: [/attendance/today], [/attendance/recent],
    [/admin/attendance/counts], [/students/{id}], [/students/{id}/attendance] *)

(** [a >= b] on datetimes. *)
Definition datetime_geb (a b : PyDate.datetime) : bool :=
  negb (PyDate.datetime_gtb b a).

(** [.order_by(key.desc())]: latest first; rows of equal time keep their
    order. *)
Fixpoint insert_desc {A : Type} (key : A -> PyDate.datetime) (x : A)
    (l : list A) : list A :=
  match l with
  | [] => [x]
  | y :: r => if datetime_geb (key x) (key y) then x :: l
              else y :: insert_desc key x r
  end.

Fixpoint order_by_desc {A : Type} (key : A -> PyDate.datetime) (l : list A)
  : list A :=
  match l with
  | [] => []
  | x :: r => insert_desc key x (order_by_desc key r)
  end.

(** [.limit(n)], for the limits that the route admits ([ge=1]). *)
Definition limit_rows {A : Type} (n : Z) (l : list A) : list A :=
  firstn (Z.to_nat n) l.

(** [dt.strftime('%H:%M:%S')]. *)
Definition strftime_HMS (dt : PyDate.datetime) : string :=
  let t := PyDate.dt_time dt in
  PyStr.zero_pad 2 (PyDate.hour t) ++ ":" ++ PyStr.zero_pad 2 (PyDate.minute t)
    ++ ":" ++ PyStr.zero_pad 2 (PyDate.second t).

(** [d.strftime('%a')], with the names of the C locale. *)
Definition strftime_a (d : PyDate.date) : string :=
  let w := PyDate.weekday d in
  if w =? 0 then "Mon" else if w =? 1 then "Tue" else if w =? 2 then "Wed"
  else if w =? 3 then "Thu" else if w =? 4 then "Fri"
  else if w =? 5 then "Sat" else "Sun".

(** An item of the list of [attendance_today]. *)
Record today_row := mk_today_row {
  tr_student_id : Z;
  tr_code : string;
  tr_name : string;
  tr_grade : option string;
  tr_section : option string;
  tr_gender : option string;
  tr_date : string;
  tr_time : string;
  tr_status : string
}.

Definition today_row_of (r : DB.Attendance * DB.Student) : today_row :=
  let (att, st) := r in
  mk_today_row (DB.st_id st) (DB.st_code st) (DB.st_name st) (DB.st_grade st)
    (DB.st_section st) (DB.st_gender st) (PyDate.str (DB.at_date att))
    (strftime_HMS (DB.at_time att)) (DB.at_status att).

(** [attendance_today]. *)
Definition attendance_today (today : PyDate.date) (db : DB.t) : list today_row :=
  let rows :=
    order_by_desc (fun r => DB.at_time (fst r))
      (filter (fun r => DB.at_date (fst r) =? today) (join_student db)) in
  map today_row_of rows.

(** An item of the list of [attendance_recent]. *)
Record recent_row := mk_recent_row {
  rr_name : string;
  rr_grade : option string;
  rr_section : option string;
  rr_date : string;
  rr_time : string;
  rr_status : string
}.

Definition recent_row_of (r : DB.Attendance * DB.Student) : recent_row :=
  let (att, st) := r in
  mk_recent_row (DB.st_name st) (DB.st_grade st) (DB.st_section st)
    (PyDate.str (DB.at_date att)) (strftime_HMS (DB.at_time att))
    (DB.at_status att).

(** [attendance_recent], for a [limit] that the route admits. *)
Definition attendance_recent (limit : Z) (db : DB.t) : list recent_row :=
  let rows :=
    limit_rows limit
      (order_by_desc (fun r => DB.at_time (fst r)) (join_student db)) in
  map recent_row_of rows.

Record counts := mk_counts {
  counts_total : Z;
  counts_today : Z;
  counts_date : string
}.

(** [admin_counts]. *)
Definition admin_counts (today : PyDate.date) (db : DB.t) : counts :=
  let total := count (DB.attendances db) in
  let today_count :=
    count (filter (fun a => DB.at_date a =? today) (DB.attendances db)) in
  mk_counts total today_count (PyDate.str today).

(** The body of [get_student], which the route enters for a key from 1
    ([ge=1]) that is an [int64]. *)
Definition get_student (student_id : Z) (db : DB.t) : result DB.Student :=
  match DB.get_student db student_id with
  | None => HTTPException 404 "No encontrado"
  | Some st => Ok st
  end.

(** An item of the list of [student_attendance_history]. *)
Record history_row := mk_history_row {
  hr_date : string;
  hr_time : string;
  hr_status : string
}.

Definition history_row_of (r : DB.Attendance) : history_row :=
  mk_history_row (PyDate.str (DB.at_date r)) (strftime_HMS (DB.at_time r))
    (DB.at_status r).

(** The rows that [student_attendance_history] reads. *)
Definition history_rows (student_id limit : Z) (db : DB.t) : list DB.Attendance :=
  limit_rows limit
    (order_by_desc DB.at_time
       (filter (fun a => DB.at_student_id a =? student_id) (DB.attendances db))).

(** The body of [student_attendance_history], which the route enters for a
    key from 1 that is an [int64] and a [limit] from 1 to 500. *)
Definition student_attendance_history (student_id limit : Z) (db : DB.t)
  : result (list history_row) :=
  match DB.get_student db student_id with
  | None => HTTPException 404 "No encontrado"
  | Some st => Ok (map history_row_of (history_rows student_id limit db))
  end.

(** ** Metrics: [/metrics/weekly], [/metrics/by-grade] *)

Record weekly := mk_weekly { labels : list string; attendance_pct : list Q }.

(** The turns of the loop of [metrics_weekly] for the offsets [offsets]. *)
Fixpoint weekly_loop (offsets : list Z) (today : PyDate.date)
    (total_students : Z) (db : DB.t) : option weekly :=
  match offsets with
  | [] => Some (mk_weekly [] [])
  | i :: rest =>
      let d := today - i in
      let total :=
        count (filter (fun a => DB.at_date a =? d) (DB.attendances db)) in
      pct <- pct_if total total_students ;;
      w <- weekly_loop rest today total_students db ;;
      Some (mk_weekly (strftime_a d :: labels w)
              (PyFloat.round2 pct :: attendance_pct w))
  end.

(** [metrics_weekly]; [None] is an uncaught [ZeroDivisionError]. *)
Definition metrics_weekly (today : PyDate.date) (db : DB.t) : option weekly :=
  let total_students := count (DB.students db) in
  weekly_loop [6; 5; 4; 3; 2; 1; 0] today total_students db.

(** [st.grade or 'Sin grado']. *)
Definition grade_key (st : DB.Student) : string :=
  match DB.st_grade st with
  | Some g => PyStr.or_else g "Sin grado"
  | None => "Sin grado"
  end.

(** The rows that [metrics_by_grade] reads. *)
Definition by_grade_rows (today : PyDate.date) (db : DB.t)
  : list (DB.Attendance * DB.Student) :=
  filter (fun r => DB.at_date (fst r) =? today) (join_student db).

(** [metrics_by_grade]. *)
Definition metrics_by_grade (today : PyDate.date) (db : DB.t) : dict :=
  fold_left (fun agg r => dict_incr agg (grade_key (snd r)))
    (by_grade_rows today db) [].

(** The sum of the counters of a dict. *)
Definition dict_total (d : dict) : Z := fold_right Z.add 0 (map snd d).

(** ** More vocabulary *)

(** Every attendance is of a student of the tables: the foreign key
    [attendances.student_id], which SQLite does not enforce here. *)
Definition fk_attendance_student (db : DB.t) : Prop :=
  forall a, In a (DB.attendances db) ->
  exists st, In st (DB.students db) /\ DB.st_id st = DB.at_student_id a.

(** The requests other than [/admin/students/clear-all]. *)
Definition keeps_students (r : request) : bool :=
  match r with AdminClearStudentsAll => false | _ => true end.

(** Latest first. *)
Definition latest_first {A : Type} (key : A -> PyDate.datetime) (x y : A) : Prop :=
  datetime_geb (key x) (key y) = true.

(** A string without the character [c]. *)
Fixpoint no_char (c : ascii) (s : string) : bool :=
  match s with
  | EmptyString => true
  | String x r => negb (Ascii.eqb x c) && no_char c r
  end.

(** ** A school morning

    Concrete requests on which the properties are exercised. *)

Module Sample.

(** Monday 2025-03-10. *)
Definition monday : PyDate.date := PyDate.ymd2ord 2025 3 10.

Definition at_time (h m s : Z) : clock :=
  mk_clock monday (PyDate.mk_datetime monday (PyDate.mk_time h m s 0)).

(** The defaults of the form: [FACE_DETECTOR], [FACE_MODEL], no
    [max_distance], [FACE_MIN_MARGIN]. *)
Definition form : mark_form := mk_mark_form "opencv" "ArcFace" None (4 # 100).

(** A frame whose nearest image is Ana's, well apart from the next. *)
Definition sees_ana : dataframe :=
  [mk_candidate "db/luis/profile.jpg" (95 # 100);
   mk_candidate "db/ana/profile.jpg" (40 # 100)].

Definition sees_luis : dataframe :=
  [mk_candidate "db/luis/profile.jpg" (35 # 100)].

(** Nearest image too far. *)
Definition sees_stranger : dataframe :=
  [mk_candidate "db/ana/profile.jpg" (130 # 100);
   mk_candidate "db/luis/profile.jpg" (150 # 100)].

(** Two images nearly as near. *)
Definition sees_twins : dataframe :=
  [mk_candidate "db/ana/profile.jpg" (40 # 100);
   mk_candidate "db/eva/profile.jpg" (42 # 100)].

Definition mark (clk : clock) (df : dataframe) : request :=
  AttendanceMark None clk form (Some df).

Definition enroll (code name : string) : request :=
  CreateStudent (mk_student_create code name (Some "5") (Some "A") None None None).

(** Ana arrives at 07:10:00, is seen again at 07:50:00; Luis arrives at
    07:40:00. *)
Definition morning : list request :=
  [mark (at_time 7 10 0) sees_ana; mark (at_time 7 50 0) sees_ana;
   mark (at_time 7 40 0) sees_luis].

(** Three students enrolled, of whom one arrives. *)
Definition class_of_three : list request :=
  [enroll "ana" "Ana"; enroll "luis" "Luis"; enroll "eva" "Eva";
   mark (at_time 7 10 0) sees_ana].

(** Five students enrolled, of whom two arrive. *)
Definition class_of_five : list request :=
  [enroll "ana" "Ana"; enroll "luis" "Luis"; enroll "eva" "Eva";
   enroll "ines" "Ines"; enroll "omar" "Omar";
   mark (at_time 7 10 0) sees_ana; mark (at_time 7 40 0) sees_luis].

(** Ana arrives, then the students are cleared. *)
Definition cleared : list request :=
  [mark (at_time 7 10 0) sees_ana; AdminClearStudentsAll].

(** The tables and the body after Ana is marked at 07:30:00 on empty
    tables. *)
Definition ana_marked : DB.t * result json :=
  Eval vm_compute in
    attendance_mark None (at_time 7 30 0) form (Some sees_ana) DB.empty.

Definition ana_tables : DB.t := Eval vm_compute in fst ana_marked.

Definition ana_body : json :=
  Eval vm_compute in match snd ana_marked with Ok b => b | _ => JObj [] end.

(** The tables of the morning once Ana's row is deleted. *)
Definition morning_without_ana : DB.t :=
  Eval vm_compute in fst (delete_student 1 (run morning)).

(** The record of Luis in the morning. *)
Definition luis_record : DB.Attendance :=
  DB.mk_attendance 2 2 monday
    (PyDate.mk_datetime monday (PyDate.mk_time 7 40 0 0)) "Tarde".

End Sample.

(** ** The school office

    Concrete requests on the students. *)

Module Office.

Definition eva : StudentCreate :=
  mk_student_create "eva" "Eva" (Some "5") None None None None.

(** The form typed with a name in capitals and blanks, and no code. *)
Definition ana_form : StudentForm :=
  mk_student_form " Ana Maria " (Some "5") (Some "A") None None None None 0.

Definition ana_enrolled : DB.t * result DB.Student :=
  Eval vm_compute in create_student_form ana_form DB.empty.

Definition ana_tables : DB.t := Eval vm_compute in fst ana_enrolled.

Definition ana_row : DB.Student :=
  Eval vm_compute in
    match snd ana_enrolled with
    | Ok st => st
    | _ => DB.mk_student 0 "" "" None None None None None
    end.

(** Moving the first student of the morning to grade 6, leaving the rest. *)
Definition to_grade_6 : StudentUpdate :=
  mk_student_update None (Some (Some "6")) None None None None.

Definition promoted : DB.t * result DB.Student :=
  Eval vm_compute in update_student 1 to_grade_6 (run Sample.morning).

Definition promoted_tables : DB.t := Eval vm_compute in fst promoted.

Definition promoted_row : DB.Student :=
  Eval vm_compute in
    match snd promoted with
    | Ok st => st
    | _ => DB.mk_student 0 "" "" None None None None None
    end.

End Office.

(** ** Doubles

    The handlers that compute with Python floats, over IEEE 754 binary64:
    the distances and the two thresholds of [attendance_mark], and the
    percentages of [metrics_summary] and [metrics_weekly].  The ledger part
    [mark_student] and the queries are those above. *)

Set Warnings "-inexact-float".

Module Binary64.

(** [float(n)] of an integer; exact below 2^53, which every count of rows
    is. *)
Definition of_int (n : Z) : float :=
  if n <? 0 then PrimFloat.opp (PrimFloat.of_uint63 (Uint63.of_Z (- n)))
  else PrimFloat.of_uint63 (Uint63.of_Z n).

(** The rational that a finite double is. *)
Definition exact (x : float) : option Q :=
  match Prim2SF x with
  | S754_zero _ => Some 0%Q
  | S754_finite s m e =>
      let v := (inject_Z (Z.pos m)
                * (if 0 <=? e then inject_Z (2 ^ e) else / inject_Z (2 ^ (- e))))%Q in
      Some (if s then (- v)%Q else v)
  | _ => None
  end.

(** [round(x, 2)]: the double nearest to the value of [x] rounded to
    hundredths, ties to even; a NaN or an infinity is returned as it is, and
    the sign of [x] is kept.  The hundredths are counted by an integer below
    2^53 as long as [x] is below 2^46 in absolute value, as a percentage
    is. *)
Definition round2 (x : float) : float :=
  match Prim2SF x, exact x with
  | S754_finite s _ _, Some q =>
      let k := PyFloat.round_half_even (q * 100) in
      if s then PrimFloat.opp (PrimFloat.div (of_int (- k)) 100)
      else PrimFloat.div (of_int k) 100
  | _, _ => x
  end.

(** [a / b] on counts of rows, which [float] holds exactly: the quotient
    rounded once; [None] is [ZeroDivisionError]. *)
Definition truediv (a b : Z) : option float :=
  if b =? 0 then None else Some (PrimFloat.div (of_int a) (of_int b)).

(** [(part / whole * 100.0) if whole else 0.0]. *)
Definition pct_if (part whole : Z) : option float :=
  if negb (whole =? 0)
  then option_map (fun x => PrimFloat.mul x 100) (truediv part whole)
  else Some 0%float.

(** *** [POST /attendance/mark] *)

#[warnings="-register-all"] Inductive json : Type :=
| JStr (s : string)
| JNum (x : float)
| JObj (fields : list (string * json)).

Definition json_get (k : string) (j : json) : option json :=
  match j with
  | JObj fields =>
      match find (fun kv => String.eqb (fst kv) k) fields with
      | Some kv => Some (snd kv)
      | None => None
      end
  | _ => None
  end.

(** [_defaults_for_model]. *)
Definition _defaults_for_model (model_name : string) : string * float :=
  let name := PyStr.lower model_name in
  if PyStr.contains "arc" name then ("euclidean_l2", 1.20%float)
  else if PyStr.contains "facenet" name then ("cosine", 0.30%float)
  else ("cosine", 0.30%float).

(** A row of the frame that [DeepFace.find] returns. *)
Record candidate := mk_candidate { identity : string; distance : float }.

Definition dataframe := list candidate.

(** [df.sort_values('distance')]: ascending, the rows without a distance
    (NaN) last.  Rows of equal distance keep their order here; pandas does
    not fix the order among them, on which the first two distances do not
    depend. *)
Definition before (c x : candidate) : bool :=
  PrimFloat.is_nan (distance x)
  || (negb (PrimFloat.is_nan (distance c))
      && PrimFloat.leb (distance c) (distance x)).

Fixpoint sort_insert (c : candidate) (l : dataframe) : dataframe :=
  match l with
  | [] => [c]
  | x :: r => if before c x then c :: l else x :: sort_insert c r
  end.

Fixpoint sort_values (df : dataframe) : dataframe :=
  match df with
  | [] => []
  | c :: r => sort_insert c (sort_values r)
  end.

(** The form fields of the request that the decision reads. *)
Record mark_form := mk_mark_form {
  detector_backend : string;
  model_name : string;
  max_distance : option float;
  min_margin : float
}.

(** The environment's [FACE_MAX_DISTANCE] as line 845 reads it: unset or
    empty, a text that [float()] parses, or one that it refuses. *)
Inductive face_max_distance : Type :=
| EnvUnset
| EnvFloat (x : float)
| EnvNotFloat.

(** [eff_max_distance]; [None] is the [ValueError] of [float()]. *)
Definition eff_max_distance (env_max : face_max_distance) (form : mark_form)
  : option float :=
  match max_distance form with
  | Some m => Some m
  | None => match env_max with
            | EnvFloat e => Some e
            | EnvNotFloat => None
            | EnvUnset => Some (snd (_defaults_for_model (model_name form)))
            end
  end.

(** What [DeepFace.find] does: it raises, or returns a list of frames, or
    one frame; a frame is [None] or has rows. *)
Inductive found : Type :=
| FindRaises (exn : string)
| FindList (dfs : list (option dataframe))
| FindFrame (df : option dataframe).

Definition unknown_body : json := JObj [("status", JStr "unknown")].

Definition above_threshold_body (best_dist : float) : json :=
  JObj [("status", JStr "unknown"); ("reason", JStr "above_threshold");
        ("distance", JNum best_dist)].

Definition low_margin_body (best_dist second_dist : float) : json :=
  JObj [("status", JStr "unknown"); ("reason", JStr "low_margin");
        ("distance", JNum best_dist);
        ("margin", JNum (PrimFloat.sub second_dist best_dist))].

Definition attendance_body (att : DB.Attendance) : json :=
  JObj [("date", JStr (PyDate.str (DB.at_date att)));
        ("time", JStr (PyDate.isoformat (DB.at_time att)));
        ("status", JStr (DB.at_status att))].

Definition marked_body (student : DB.Student) (att : DB.Attendance)
    (best_dist : float) (form : mark_form) : json :=
  JObj [("status", JStr "marked"); ("student", JStr (DB.st_code student));
        ("attendance", attendance_body att); ("distance", JNum best_dist);
        ("model", JStr (model_name form));
        ("detector", JStr (detector_backend form))].

(** Lines 853 to 887 of [attendance_mark]: the decision on the frame [df]
    with the threshold [eff_max], and the marking. *)
Definition decide (eff_max : float) (clk : clock) (form : mark_form)
    (df : option dataframe) (db : DB.t) : DB.t * result json :=
  match df with
  | None => (db, Ok unknown_body)
  | Some [] => (db, Ok unknown_body)
  | Some rows =>
      match sort_values rows with
      | [] => (db, Raised "IndexError")
      | best :: rest =>
          let best_dist := distance best in
          let second_dist :=
            match rest with
            | second :: _ => Some (distance second)
            | [] => None
            end in
          let accepted :=
            let code := PyStr.basename (PyStr.dirname (identity best)) in
            match mark_student clk code db with
            | (db', Ok (student, att)) =>
                (db', Ok (marked_body student att best_dist form))
            | (db', HTTPException c d) => (db', HTTPException c d)
            | (db', Raised e) => (db', Raised e)
            end in
          if PrimFloat.ltb eff_max best_dist then
            (db, Ok (above_threshold_body best_dist))
          else
            match second_dist with
            | Some sd =>
                if PrimFloat.ltb (PrimFloat.sub sd best_dist) (min_margin form)
                then (db, Ok (low_margin_body best_dist sd))
                else accepted
            | None => accepted
            end
      end
  end.

(** [dfs[0] if isinstance(dfs, list) else dfs] after the call of the engine:
    the frame, or the exception raised, which for an empty list is the
    [IndexError] of [dfs[0]]. *)
Definition frame (engine : found) : string + option dataframe :=
  match engine with
  | FindRaises exn => inl exn
  | FindList [] => inl "IndexError"
  | FindList (df :: _) => inr df
  | FindFrame df => inr df
  end.

(** [attendance_mark]: the threshold, the call of the engine and its frame,
    then the decision.  There is no [except] clause: what is raised leaves
    the handler. *)
Definition attendance_mark (env_max : face_max_distance) (clk : clock)
    (form : mark_form) (engine : found) (db : DB.t) : DB.t * result json :=
  match eff_max_distance env_max form with
  | None => (db, Raised "ValueError")
  | Some eff_max =>
      match frame engine with
      | inl exn => (db, Raised exn)
      | inr df => decide eff_max clk form df db
      end
  end.

(** The decision of the Identity Resolver, read off the body. *)
Inductive Decision : Type :=
| Unknown_NoCandidates
| Unknown_AboveThreshold (best : float)
| Unknown_LowMargin (best margin : float)
| Accepted (code : string) (best : float).

Definition decision_of (r : result json) : option Decision :=
  match r with
  | Ok body =>
      match json_get "status" body with
      | Some (JStr s) =>
          if String.eqb s "unknown" then
            match json_get "reason" body, json_get "distance" body,
                  json_get "margin" body with
            | None, None, None => Some Unknown_NoCandidates
            | Some (JStr why), Some (JNum d), None =>
                if String.eqb why "above_threshold"
                then Some (Unknown_AboveThreshold d) else None
            | Some (JStr why), Some (JNum d), Some (JNum m) =>
                if String.eqb why "low_margin"
                then Some (Unknown_LowMargin d m) else None
            | _, _, _ => None
            end
          else if String.eqb s "marked" then
            match json_get "student" body, json_get "distance" body with
            | Some (JStr code), Some (JNum d) => Some (Accepted code d)
            | _, _ => None
            end
          else None
      | _ => None
      end
  | _ => None
  end.

(** A frame in which every row has a distance. *)
Definition no_nan (rows : dataframe) : Prop :=
  forall c, In c rows -> PrimFloat.is_nan (distance c) = false.

(** Ascending order of two rows. *)
Definition by_distance (a b : candidate) : Prop :=
  PrimFloat.leb (distance a) (distance b) = true.

(** *** [/metrics/summary] and [/metrics/weekly] *)

Record summary := mk_summary {
  students_total : Z;
  records_total : Z;
  punctuality_pct : float;
  late_pct : float;
  absent_pct : float
}.

(** [metrics_summary]; [None] is an uncaught [ZeroDivisionError]. *)
Definition metrics_summary (period grade section : option string)
    (start end_ : option PyDate.date) (today : PyDate.date) (db : DB.t)
  : option summary :=
  let '(start, end_) :=
    match period, start, end_ with
    | Some p, None, None =>
        if PyStr.truthy p then period_range p today else (start, end_)
    | _, _, _ => (start, end_)
    end in
  let q :=
    filter (fun r => from_start start (fst r) && to_end end_ (fst r)
                     && in_group grade section (snd r))
           (join_student db) in
  let total := count q in
  let punctual := count (filter (fun r => status_is "Puntual" (fst r)) q) in
  let late := count (filter (fun r => status_is "Tarde" (fst r)) q) in
  let students_total := count (filter (in_group grade section) (DB.students db)) in
  punctuality <- pct_if punctual total ;;
  late_pct <- pct_if late total ;;
  absent_pct <-
    match start, end_ with
    | Some _, Some _ =>
        let unique_students_with_attendance :=
          filter (fun r => from_start start (fst r) && to_end end_ (fst r)
                           && in_group grade section (snd r))
                 (join_student db) in
        let students_with_attendance :=
          distinct_count
            (map (fun r => DB.at_student_id (fst r)) unique_students_with_attendance) in
        let absent_students := students_total - students_with_attendance in
        pct_if absent_students students_total
    | _, _ =>
        let students_with_any_attendance :=
          filter (fun r => in_group grade section (snd r)) (join_student db) in
        let students_with_attendance :=
          distinct_count
            (map (fun r => DB.at_student_id (fst r)) students_with_any_attendance) in
        let absent_students := students_total - students_with_attendance in
        pct_if absent_students students_total
    end ;;
  Some (mk_summary students_total total (round2 punctuality)
          (round2 late_pct) (round2 absent_pct)).

Record weekly := mk_weekly { labels : list string; attendance_pct : list float }.

(** The turns of the loop of [metrics_weekly] for the offsets [offsets]. *)
Fixpoint weekly_loop (offsets : list Z) (today : PyDate.date)
    (total_students : Z) (db : DB.t) : option weekly :=
  match offsets with
  | [] => Some (mk_weekly [] [])
  | i :: rest =>
      let d := today - i in
      let total :=
        count (filter (fun a => DB.at_date a =? d) (DB.attendances db)) in
      pct <- pct_if total total_students ;;
      w <- weekly_loop rest today total_students db ;;
      Some (mk_weekly (strftime_a d :: labels w)
              (round2 pct :: attendance_pct w))
  end.

(** [metrics_weekly]; [None] is an uncaught [ZeroDivisionError]. *)
Definition metrics_weekly (today : PyDate.date) (db : DB.t) : option weekly :=
  let total_students := count (DB.students db) in
  weekly_loop [6; 5; 4; 3; 2; 1; 0] today total_students db.

(** [round(part / whole * 100.0, 2)], the percentage that both endpoints
    report for a [whole] that is not 0. *)
Definition pct2 (part whole : Z) : float :=
  round2 (PrimFloat.mul (PrimFloat.div (of_int part) (of_int whole)) 100).

(** *** Frames and a school of 160 *)

Module Sample.

Definition form : mark_form := mk_mark_form "opencv" "ArcFace" None 0.04%float.

(** A frame whose nearest image is Ana's, well apart from the next. *)
Definition sees_ana : dataframe :=
  [mk_candidate "db/luis/profile.jpg" 0.95%float;
   mk_candidate "db/ana/profile.jpg" 0.40%float].

(** Nearest image too far. *)
Definition sees_stranger : dataframe :=
  [mk_candidate "db/ana/profile.jpg" 1.30%float;
   mk_candidate "db/luis/profile.jpg" 1.50%float].

(** Two images nearly as near. *)
Definition sees_twins : dataframe :=
  [mk_candidate "db/ana/profile.jpg" 0.40%float;
   mk_candidate "db/eva/profile.jpg" 0.42%float].

(** Two images whose distances the doubles separate by no less than the
    margin 0.04, which the decimals written are apart by. *)
Definition sees_cousins : dataframe :=
  [mk_candidate "db/ana/profile.jpg" 0.005%float;
   mk_candidate "db/eva/profile.jpg" 0.045%float].

End Sample.

End Binary64.

(** * Properties *)

Example basename_dirname_ex :
  PyStr.basename (PyStr.dirname "db/ana/profile.jpg") = "ana".
Proof. reflexivity. Qed.

Example ord_ex : PyDate.ymd2ord 2024 1 1 = 738886
  /\ PyDate.ord2ymd 738886 = (2024, 1, 1)
  /\ PyDate.ord2ymd (PyDate.ymd2ord 2024 2 29) = (2024, 2, 29)
  /\ PyDate.ord2ymd (PyDate.ymd2ord 2023 12 31) = (2023, 12, 31)
  /\ PyDate.str (PyDate.ymd2ord 2025 3 7) = "2025-03-07"
  /\ PyDate.weekday (PyDate.ymd2ord 2026 11 3) = 1.
Proof. vm_compute. repeat split. Qed.

Example round2_ex :
  (PyFloat.round2 (200 # 3) == 6667 # 100)%Q /\ (PyFloat.round2 60 == 60)%Q
  /\ (PyFloat.round2 (3125 # 1000) == 312 # 100)%Q.
Proof. vm_compute. repeat split. Qed.

(** ** Lists and keys *)

Section ListFacts.
Context {A B : Type}.
Variable f : A -> B.

Lemma NoDup_map_filter (p : A -> bool) (l : list A) :
  NoDup (map f l) -> NoDup (map f (filter p l)).
Proof.
  induction l as [|x l IH]; simpl; intros H; [constructor|].
  inversion H as [|? ? Hx Hl]; subst.
  destruct (p x); simpl; auto.
  constructor; auto.
  intros Hin. apply Hx.
  apply in_map_iff in Hin. destruct Hin as [y [Hy Hin]].
  apply filter_In in Hin. apply in_map_iff. exists y. tauto.
Qed.

Lemma NoDup_map_snoc (l : list A) (x : A) :
  NoDup (map f l) -> ~ In (f x) (map f l) -> NoDup (map f (l ++ [x])).
Proof.
  intros Hl Hx. rewrite map_app. simpl.
  apply NoDup_app; auto.
  - repeat constructor. simpl. tauto.
  - intros b Hb [Hc|[]]. subst. auto.
Qed.

Lemma NoDup_map_inj (l : list A) (x y : A) :
  NoDup (map f l) -> In x l -> In y l -> f x = f y -> x = y.
Proof.
  induction l as [|z l IH]; simpl; [tauto|].
  intros H Hx Hy E. inversion H as [|? ? Hz Hl]; subst.
  destruct Hx as [->|Hx], Hy as [->|Hy]; auto.
  - exfalso. apply Hz. rewrite E. now apply in_map.
  - exfalso. apply Hz. rewrite <- E. now apply in_map.
Qed.

Lemma filter_nil_forall (p : A -> bool) (l : list A) :
  filter p l = [] -> forall x, In x l -> p x = false.
Proof.
  intros E x Hx. destruct (p x) eqn:Hp; auto.
  assert (In x (filter p l)) by (apply filter_In; auto).
  rewrite E in H. destruct H.
Qed.

(** At most one row of a table has a given value of a UNIQUE column. *)
Lemma NoDup_map_filter_le_1 (eqb : B -> B -> bool) (k : B) (l : list A) :
  (forall b, eqb b k = true <-> b = k) ->
  NoDup (map f l) ->
  (List.length (filter (fun x => eqb (f x) k) l) <= 1)%nat.
Proof.
  intros Heq. induction l as [|x l IH]; simpl; intros H; [lia|].
  inversion H as [|? ? Hx Hl]; subst.
  destruct (eqb (f x) k) eqn:E; auto.
  apply Heq in E.
  assert (filter (fun x => eqb (f x) k) l = []) as ->.
  { destruct (filter (fun x => eqb (f x) k) l) as [|y r] eqn:F; auto.
    exfalso. apply Hx.
    assert (In y (filter (fun x => eqb (f x) k) l)) as Hy
      by (rewrite F; now left).
    apply filter_In in Hy. destruct Hy as [Hy Ey]. apply Heq in Ey.
    rewrite E, <- Ey. now apply in_map. }
  simpl. lia.
Qed.

End ListFacts.

Lemma one_or_none_some {A : Type} (rows : list A) (x : A) :
  one_or_none rows = Some (Some x) -> rows = [x].
Proof. destruct rows as [|a [|b r]]; simpl; congruence. Qed.

Lemma one_or_none_none {A : Type} (rows : list A) :
  one_or_none rows = Some None -> rows = [].
Proof. destruct rows as [|a [|b r]]; simpl; congruence. Qed.

Lemma one_or_none_le_1 {A : Type} (rows : list A) :
  (List.length rows <= 1)%nat -> one_or_none rows <> None.
Proof. destruct rows as [|a [|b r]]; simpl; try congruence; lia. Qed.

Lemma le_fold_max (ids : list Z) (x : Z) :
  In x ids -> x <= fold_right Z.max 0 ids.
Proof.
  induction ids as [|y ids IH]; simpl; [tauto|].
  intros [->|H]; [lia|]. specialize (IH H). lia.
Qed.

Lemma next_id_fresh (ids : list Z) : ~ In (DB.next_id ids) ids.
Proof.
  intros H. apply le_fold_max in H. unfold DB.next_id in H. lia.
Qed.

Lemma pair_eqb_spec (a b c d : Z) :
  (a =? c) && (b =? d) = true <-> (a, b) = (c, d).
Proof.
  rewrite andb_true_iff, !Z.eqb_eq. split; [intros [-> ->]; auto|].
  intros E. inversion E. auto.
Qed.

(** ** The invariant of the tables *)

Lemma Inv_empty : Inv DB.empty.
Proof. split; unfold DB.pk_students, DB.pk_attendances, DB.uq_student_code,
  DB.uq_attendance_student_date; simpl; constructor. Qed.

Lemma add_student_Inv db code name g s ge rd pp :
  Inv db ->
  filter (fun st => String.eqb (DB.st_code st) code) (DB.students db) = [] ->
  Inv (fst (DB.add_student db code name g s ge rd pp)).
Proof.
  intros [H1 H2 H3 H4] Hnew. split; simpl; auto.
  - apply NoDup_map_snoc; auto. simpl. apply next_id_fresh.
  - apply NoDup_map_snoc; auto. simpl. intros Hin.
    apply in_map_iff in Hin. destruct Hin as [st [E Hin]].
    pose proof (filter_nil_forall _ _ Hnew st Hin) as F. simpl in F.
    rewrite E, String.eqb_refl in F. discriminate.
Qed.

Lemma add_attendance_Inv db sid d tm status :
  Inv db ->
  records_of sid d db = [] ->
  Inv (fst (DB.add_attendance db sid d tm status)).
Proof.
  intros [H1 H2 H3 H4] Hnew. split; simpl; auto.
  - apply NoDup_map_snoc; auto. simpl. apply next_id_fresh.
  - apply NoDup_map_snoc; auto. simpl. intros Hin.
    apply in_map_iff in Hin. destruct Hin as [a [E Hin]].
    pose proof (filter_nil_forall _ _ Hnew a Hin) as F. simpl in F.
    inversion E as [[E1 E2]]. rewrite E1, E2, !Z.eqb_refl in F. discriminate.
Qed.

Lemma keep_attendances_Inv db (p : DB.Attendance -> bool) :
  Inv db -> Inv (DB.mk_db (DB.students db) (filter p (DB.attendances db))).
Proof.
  intros [H1 H2 H3 H4]. split; auto.
  - apply NoDup_map_filter; auto.
  - apply (NoDup_map_filter (fun a => (DB.at_student_id a, DB.at_date a))); auto.
Qed.

Lemma keep_students_Inv db (p : DB.Student -> bool) (q : DB.Attendance -> bool) :
  Inv db ->
  Inv (DB.mk_db (filter p (DB.students db)) (filter q (DB.attendances db))).
Proof.
  intros [H1 H2 H3 H4]. split.
  - apply NoDup_map_filter; auto.
  - apply NoDup_map_filter; auto.
  - apply NoDup_map_filter; auto.
  - apply (NoDup_map_filter (fun a => (DB.at_student_id a, DB.at_date a))); auto.
Qed.

Lemma get_student_In db i st :
  DB.get_student db i = Some st -> In st (DB.students db) /\ DB.st_id st = i.
Proof.
  unfold DB.get_student. intros H. apply find_some in H.
  destruct H as [H E]. apply Z.eqb_eq in E. auto.
Qed.

(** Writing back a row that kept its key and its code changes neither column. *)
Lemma put_student_columns db st st' :
  DB.pk_students db -> In st (DB.students db) ->
  DB.st_id st' = DB.st_id st -> DB.st_code st' = DB.st_code st ->
  map DB.st_id (DB.students (put_student st' db)) = map DB.st_id (DB.students db)
  /\ map DB.st_code (DB.students (put_student st' db))
     = map DB.st_code (DB.students db).
Proof.
  intros Hpk Hin Eid Ecode. unfold put_student. simpl.
  rewrite !map_map. split; apply map_ext_in; intros x Hx;
    destruct (DB.st_id x =? DB.st_id st') eqn:E; auto;
    apply Z.eqb_eq in E; rewrite Eid in E;
    rewrite (NoDup_map_inj DB.st_id _ x st Hpk Hx Hin E); auto.
Qed.

Lemma put_student_Inv db st st' :
  Inv db -> In st (DB.students db) ->
  DB.st_id st' = DB.st_id st -> DB.st_code st' = DB.st_code st ->
  Inv (put_student st' db).
Proof.
  intros [H1 H2 H3 H4] Hin Eid Ecode.
  destruct (put_student_columns db st st' H1 Hin Eid Ecode) as [Ea Eb].
  split; unfold DB.pk_students, DB.uq_student_code; try rewrite Ea;
    try rewrite Eb; auto.
Qed.

Lemma records_of_le_1 db sid d :
  DB.uq_attendance_student_date db ->
  (List.length (records_of sid d db) <= 1)%nat.
Proof.
  intros H. unfold records_of.
  apply (NoDup_map_filter_le_1 (fun a => (DB.at_student_id a, DB.at_date a))
           (fun x y => (fst x =? fst y) && (snd x =? snd y)) (sid, d)); auto.
  intros [a b]. simpl. apply pair_eqb_spec.
Qed.

Lemma code_taken_le_1 db code :
  DB.uq_student_code db ->
  (List.length (filter (fun st => String.eqb (DB.st_code st) code) (DB.students db))
   <= 1)%nat.
Proof.
  intros H. apply (NoDup_map_filter_le_1 DB.st_code String.eqb code); auto.
  intros b. apply String.eqb_eq.
Qed.

Lemma length_le_1_In {A : Type} (l : list A) (x : A) :
  (List.length l <= 1)%nat -> In x l -> l = [x].
Proof.
  destruct l as [|a [|b r]]; simpl; intros H Hin; try lia.
  destruct Hin as [->|[]]. reflexivity.
Qed.

Lemma code_filter_unique db st :
  DB.uq_student_code db -> In st (DB.students db) ->
  filter (fun x => String.eqb (DB.st_code x) (DB.st_code st)) (DB.students db)
  = [st].
Proof.
  intros H Hin. apply length_le_1_In.
  - now apply code_taken_le_1.
  - apply filter_In. split; auto. apply String.eqb_refl.
Qed.

(** ** Marking *)

(** What the ledger part of [attendance_mark] does on tables that satisfy the
    invariant: it returns a student of the code and the one attendance of
    that student today, which either was there or is appended now. *)
Lemma mark_student_post clk code db :
  Inv db ->
  exists db' st att,
    mark_student clk code db = (db', Ok (st, att))
    /\ Inv db' /\ DB.st_code st = code /\ In st (DB.students db')
    /\ records_of (DB.st_id st) (clk_today clk) db' = [att]
    /\ ((DB.attendances db' = DB.attendances db /\ In att (DB.attendances db))
        \/ (DB.attendances db' = (DB.attendances db ++ [att])%list
            /\ records_of (DB.st_id st) (clk_today clk) db = []
            /\ att = DB.mk_attendance (DB.next_id (map DB.at_id (DB.attendances db)))
                       (DB.st_id st) (clk_today clk) (clk_now clk)
                       (punctuality (clk_now clk)))).
Proof.
  intros HI. unfold mark_student.
  pose proof (code_taken_le_1 db code (inv_uq_code _ HI)) as Hle.
  destruct (one_or_none (filter _ (DB.students db))) as [found|] eqn:E1;
    [|now apply one_or_none_le_1 in Hle].
  set (p := match found with
            | Some st => (db, st)
            | None => DB.add_student db code code None None None None None
            end).
  assert (Inv (fst p) /\ DB.st_code (snd p) = code /\ In (snd p) (DB.students (fst p))
          /\ DB.attendances (fst p) = DB.attendances db) as (HI1 & Hc & Hin & Hat).
  { subst p. destruct found as [st|].
    - apply one_or_none_some in E1. simpl.
      assert (In st (filter (fun st => String.eqb (DB.st_code st) code)
                            (DB.students db))) as Hst by (rewrite E1; now left).
      apply filter_In in Hst. destruct Hst as [Hst Ec].
      apply String.eqb_eq in Ec. auto.
    - apply one_or_none_none in E1.
      split; [now apply add_student_Inv|]. split; [reflexivity|].
      split; [|reflexivity]. simpl. apply in_or_app. right. now left. }
  destruct p as [db1 student]. simpl in HI1, Hc, Hin, Hat.
  pose proof (records_of_le_1 db1 (DB.st_id student) (clk_today clk)
                (inv_uq_attendance _ HI1)) as Hle2.
  unfold records_of in Hle2.
  destruct (one_or_none (filter _ (DB.attendances db1))) as [[att|]|] eqn:E2;
    [| |now apply one_or_none_le_1 in Hle2].
  - apply one_or_none_some in E2.
    exists db1, student, att.
    split; [reflexivity|]. split; [|split; [|split; [|split]]]; auto.
    left. split; auto. rewrite <- Hat.
    assert (In att (filter (fun a => (DB.at_student_id a =? DB.st_id student)
                                     && (DB.at_date a =? clk_today clk))
                           (DB.attendances db1))) as Ha by (rewrite E2; now left).
    apply filter_In in Ha. tauto.
  - apply one_or_none_none in E2. simpl.
    eexists _, student, _. split; [reflexivity|].
    split; [|split; [|split; [|split]]]; auto.
    + apply (add_attendance_Inv db1 _ _ (clk_now clk) (punctuality (clk_now clk)))
        in E2; auto.
    + unfold records_of. simpl. rewrite filter_app, E2. simpl.
      rewrite !Z.eqb_refl. reflexivity.
    + right. simpl. rewrite Hat. repeat split; auto.
      unfold records_of. rewrite <- Hat. exact E2.
Qed.

Lemma sort_insert_cons c l : exists x r, sort_insert c l = x :: r.
Proof.
  destruct l as [|y l]; simpl; [eauto|].
  destruct (Qle_bool (distance c) (distance y)); eauto.
Qed.

Lemma sort_values_cons c l : exists x r, sort_values (c :: l) = x :: r.
Proof. simpl. apply sort_insert_cons. Qed.

Lemma Qltb_lt (a b : Q) : Qltb a b = true <-> (a < b)%Q.
Proof.
  unfold Qltb. rewrite negb_true_iff. split.
  - intros H. apply Qnot_le_lt. intros L. apply Qle_bool_iff in L. congruence.
  - intros H. destruct (Qle_bool b a) eqn:E; auto.
    apply Qle_bool_iff in E. exfalso. now apply (Qlt_not_le a b).
Qed.

Lemma Qltb_ge (a b : Q) : Qltb a b = false <-> (b <= a)%Q.
Proof.
  unfold Qltb. rewrite negb_false_iff. apply Qle_bool_iff.
Qed.

(** The tables after [attendance_mark] are the tables before, or those that
    its ledger part leaves for some code. *)
Lemma attendance_mark_tables env clk form df db :
  fst (attendance_mark env clk form df db) = db
  \/ exists code, fst (attendance_mark env clk form df db)
                  = fst (mark_student clk code db).
Proof.
  unfold attendance_mark.
  destruct df as [[|c rows]|]; auto.
  destruct (sort_values (c :: rows)) as [|best rest]; auto.
  destruct (Qltb _ (distance best)); auto.
  assert (exists code,
    fst (let code := PyStr.basename (PyStr.dirname (identity best)) in
         match mark_student clk code db with
         | (db', Ok (student, att)) =>
             (db', Ok (marked_body student att (distance best) form))
         | (db', HTTPException c d) => (db', HTTPException c d)
         | (db', Raised e) => (db', Raised e)
         end) = fst (mark_student clk code db)) as Hacc.
  { exists (PyStr.basename (PyStr.dirname (identity best))). cbv zeta.
    destruct (mark_student clk _ db) as [db' [[st att]| |]]; reflexivity. }
  destruct rest as [|second rest']; auto.
  destruct (Qltb _ (min_margin form)); auto.
Qed.

Lemma mark_student_Inv clk code db : Inv db -> Inv (fst (mark_student clk code db)).
Proof.
  intros HI. destruct (mark_student_post clk code db HI) as (db' & st & att & E & HI' & _).
  rewrite E. exact HI'.
Qed.

Lemma step_Inv db r : Inv db -> Inv (step db r).
Proof.
  intros HI. destruct r; simpl.
  - destruct (attendance_mark_tables env_max clk form df db) as [->|[code ->]]; auto.
    now apply mark_student_Inv.
  - now apply keep_attendances_Inv.
  - destruct HI. split; auto; constructor.
  - destruct target; simpl; auto. now apply keep_attendances_Inv.
  - unfold create_student, code_taken.
    destruct (one_or_none _) as [[st|]|] eqn:E; simpl; auto.
    apply one_or_none_none in E.
    now apply add_student_Inv.
  - unfold update_student.
    destruct (DB.get_student db student_id) as [st|] eqn:G; simpl; auto.
    apply get_student_In in G. destruct G as [G _].
    destruct (su_name payload) as [[n|]|]; simpl; auto;
      now apply (put_student_Inv db st).
  - unfold delete_student.
    destruct (DB.get_student db student_id) as [st|]; simpl; auto.
    now apply keep_students_Inv.
  - unfold create_student_form, code_taken.
    destruct (one_or_none _) as [[st|]|] eqn:E; simpl; auto.
    apply one_or_none_none in E.
    now apply add_student_Inv.
  - unfold update_student_form.
    destruct (DB.get_student db student_id) as [st|] eqn:G; simpl; auto.
    apply get_student_In in G. destruct G as [G _].
    now apply (put_student_Inv db st).
  - destruct HI. split; auto; constructor.
Qed.

Lemma reachable_Inv db : reachable db -> Inv db.
Proof.
  induction 1 as [|db r _ IH]; [apply Inv_empty | now apply step_Inv].
Qed.

Lemma reachable_run_from db rs : reachable db -> reachable (fold_left step rs db).
Proof.
  revert db. induction rs as [|r rs IH]; simpl; intros db H; auto.
  apply IH. now constructor.
Qed.

Lemma reachable_run rs : reachable (run rs).
Proof. apply reachable_run_from. constructor. Qed.

(** ** The ledger *)



Example morning_ex :
  map DB.st_code (DB.students (run Sample.morning)) = ["ana"; "luis"]
  /\ map (fun a => (DB.at_student_id a, PyDate.isoformat (DB.at_time a), DB.at_status a))
         (DB.attendances (run Sample.morning))
     = [(1, "2025-03-10T07:10:00", "Puntual"); (2, "2025-03-10T07:40:00", "Tarde")].
Proof. vm_compute. split; reflexivity. Qed.

Example decisions_ex :
  decision_of (snd (attendance_mark None (Sample.at_time 7 0 0) Sample.form
                      (Some Sample.sees_stranger) DB.empty))
  = Some (Unknown_AboveThreshold (130 # 100))
  /\ decision_of (snd (attendance_mark None (Sample.at_time 7 0 0) Sample.form
                         (Some Sample.sees_twins) DB.empty))
     = Some (Unknown_LowMargin (40 # 100) ((42 # 100) - (40 # 100)))
  /\ decision_of (snd (attendance_mark None (Sample.at_time 7 0 0) Sample.form
                         (Some Sample.sees_ana) DB.empty))
     = Some (Accepted "ana" (40 # 100)).
Proof. vm_compute. repeat split. Qed.

(** A marked body comes from the ledger part, run for the code of the
    nearest row. *)
Lemma attendance_mark_marked env clk form df db db' body :
  attendance_mark env clk form df db = (db', Ok body) ->
  json_get "status" body = Some (JStr "marked") ->
  exists rows best rest st att,
    df = Some rows /\ sort_values rows = best :: rest
    /\ mark_student clk (PyStr.basename (PyStr.dirname (identity best))) db
       = (db', Ok (st, att))
    /\ body = marked_body st att (distance best) form.
Proof.
  unfold attendance_mark. intros E Hs.
  destruct df as [[|c rows]|];
    try (inversion E; subst; simpl in Hs; discriminate).
  destruct (sort_values (c :: rows)) as [|best rest] eqn:Es; [discriminate|].
  assert (forall r : DB.t * result json,
            r = (let code := PyStr.basename (PyStr.dirname (identity best)) in
                 match mark_student clk code db with
                 | (db', Ok (student, att)) =>
                     (db', Ok (marked_body student att (distance best) form))
                 | (db', HTTPException c d) => (db', HTTPException c d)
                 | (db', Raised e) => (db', Raised e)
                 end) ->
            r = (db', Ok body) ->
            exists st att,
              mark_student clk (PyStr.basename (PyStr.dirname (identity best))) db
              = (db', Ok (st, att))
              /\ body = marked_body st att (distance best) form) as Hacc.
  { intros r -> Er. cbv zeta in Er.
    destruct (mark_student clk _ db) as [db1 [[st att]| |]]; try discriminate.
    inversion Er; subst. eauto. }
  destruct (Qltb _ (distance best));
    [inversion E; subst; simpl in Hs; discriminate|].
  destruct rest as [|second rest'].
  - destruct (Hacc _ eq_refl E) as (st & att & ? & ?).
    exists (c :: rows), best, [], st, att. auto.
  - destruct (Qltb _ (min_margin form));
      [inversion E; subst; simpl in Hs; discriminate|].
    destruct (Hacc _ eq_refl E) as (st & att & ? & ?).
    exists (c :: rows), best, (second :: rest'), st, att. auto.
Qed.

(** A student that is in the tables with an attendance today is marked
    again without a write. *)
Lemma mark_student_again clk db st att :
  Inv db -> In st (DB.students db) ->
  records_of (DB.st_id st) (clk_today clk) db = [att] ->
  mark_student clk (DB.st_code st) db = (db, Ok (st, att)).
Proof.
  intros HI Hin Hrec. unfold mark_student.
  rewrite (code_filter_unique db st (inv_uq_code _ HI) Hin). simpl.
  unfold records_of in Hrec. rewrite Hrec. reflexivity.
Qed.

(** C2, as the code has it. Two accepted recognitions of a code on the same
    date leave one attendance of that student on that date; the second call
    writes nothing and returns the record that the first returned, with its
    date, time and status. The body has no field that tells a record made
    now from one found. *)
Theorem mark_twice_one_record
    (env1 env2 : option Q) (clk1 clk2 : clock) (form1 form2 : mark_form)
    (df1 df2 : option dataframe) (db db1 db2 : DB.t) (body1 body2 : json)
    (code : string) (d1 d2 : Q) :
  reachable db ->
  clk_today clk1 = clk_today clk2 ->
  attendance_mark env1 clk1 form1 df1 db = (db1, Ok body1) ->
  decision_of (Ok body1) = Some (Accepted code d1) ->
  attendance_mark env2 clk2 form2 df2 db1 = (db2, Ok body2) ->
  decision_of (Ok body2) = Some (Accepted code d2) ->
  db2 = db1
  /\ json_get "attendance" body2 = json_get "attendance" body1
  /\ exists st att,
       In st (DB.students db2) /\ DB.st_code st = code
       /\ records_of (DB.st_id st) (clk_today clk1) db2 = [att]
       /\ json_get "attendance" body2 = Some (attendance_body att).
Proof.
  intros Hr Hday E1 D1 E2 D2.
  assert (forall body c d, decision_of (Ok body) = Some (Accepted c d) ->
            json_get "status" body = Some (JStr "marked")) as Hmarked.
  { intros body c d. unfold decision_of.
    destruct (json_get "status" body) as [[s| |]|]; try discriminate.
    destruct (String.eqb s "unknown") eqn:Eu.
    - destruct (json_get "reason" body) as [[?| |]|],
        (json_get "distance" body) as [[?| |]|],
        (json_get "margin" body) as [[?| |]|]; intros H; try discriminate;
        destruct (String.eqb _ _) in H; discriminate.
    - destruct (String.eqb s "marked") eqn:Em; [|discriminate].
      apply String.eqb_eq in Em. now subst. }
  pose proof (reachable_Inv db Hr) as HI.
  destruct (attendance_mark_marked _ _ _ _ _ _ _ E1 (Hmarked _ _ _ D1))
    as (rows1 & best1 & rest1 & st & att & _ & _ & M1 & ->).
  destruct (attendance_mark_marked _ _ _ _ _ _ _ E2 (Hmarked _ _ _ D2))
    as (rows2 & best2 & rest2 & st2 & att2 & _ & _ & M2 & ->).
  destruct (mark_student_post clk1
              (PyStr.basename (PyStr.dirname (identity best1))) db HI)
    as (db' & st' & att' & M1' & HI1 & Hcode & Hin & Hrec & _).
  rewrite M1 in M1'. inversion M1'; subst db' st' att'. clear M1'.
  destruct (mark_student_post clk2
              (PyStr.basename (PyStr.dirname (identity best2))) db1 HI1)
    as (db' & st' & att' & M2' & _ & Hcode2 & _).
  rewrite M2 in M2'. inversion M2'; subst db' st' att'. clear M2'.
  simpl in D1, D2. inversion D1 as [[Ec1 Ed1]]. inversion D2 as [[Ec2 Ed2]].
  assert (mark_student clk2 (PyStr.basename (PyStr.dirname (identity best2))) db1
          = (db1, Ok (st, att))) as M2''.
  { rewrite <- Hcode2, Ec2, <- Ec1. apply mark_student_again; auto.
    now rewrite <- Hday. }
  rewrite M2 in M2''. inversion M2''; subst db2 st2 att2.
  split; [reflexivity|]. split; [reflexivity|].
  exists st, att. auto.
Qed.

(** The second call of a morning returns the body of the first, which made
    the record: nothing in the result says whether the record is new. *)
Lemma mark_twice_no_was_new_flag :
  let first := attendance_mark None (Sample.at_time 7 10 0) Sample.form
                 (Some Sample.sees_ana) DB.empty in
  let second := attendance_mark None (Sample.at_time 7 50 0) Sample.form
                  (Some Sample.sees_ana) (fst first) in
  List.length (DB.attendances DB.empty) = 0%nat
  /\ List.length (DB.attendances (fst first)) = 1%nat
  /\ fst second = fst first
  /\ snd second = snd first
  /\ json_get "wasNew" (match snd second with Ok b => b | _ => JObj [] end) = None
  /\ ~ (exists was_new : result json -> bool,
          was_new (snd first) = true /\ was_new (snd second) = false).
Proof.
  cbv zeta.
  assert (snd (attendance_mark None (Sample.at_time 7 50 0) Sample.form
                 (Some Sample.sees_ana)
                 (fst (attendance_mark None (Sample.at_time 7 10 0) Sample.form
                         (Some Sample.sees_ana) DB.empty)))
          = snd (attendance_mark None (Sample.at_time 7 10 0) Sample.form
                   (Some Sample.sees_ana) DB.empty)) as Esame
    by (vm_compute; reflexivity).
  repeat split; try (vm_compute; reflexivity).
  intros [was_new [H1 H2]]. rewrite Esame in H2. congruence.
Qed.

(** ** The decision *)

Lemma sort_insert_perm c l : Permutation (c :: l) (sort_insert c l).
Proof.
  induction l as [|x l IH]; simpl; auto.
  destruct (Qle_bool (distance c) (distance x)); auto.
  rewrite perm_swap. now constructor.
Qed.

Lemma sort_values_perm df : Permutation df (sort_values df).
Proof.
  induction df as [|c df IH]; simpl; auto.
  rewrite <- sort_insert_perm. now constructor.
Qed.

Lemma sort_insert_sorted c l :
  StronglySorted by_distance l -> StronglySorted by_distance (sort_insert c l).
Proof.
  induction 1 as [|x l Hs IH Hx]; simpl.
  - repeat constructor.
  - destruct (Qle_bool (distance c) (distance x)) eqn:E.
    + apply Qle_bool_iff in E. constructor; [now constructor|].
      constructor; auto.
      rewrite Forall_forall in *. intros y Hy.
      unfold by_distance in *. eapply Qle_trans; eauto.
    + constructor; auto.
      rewrite Forall_forall in *. intros y Hy.
      apply (Permutation_in _ (Permutation_sym (sort_insert_perm c l))) in Hy.
      destruct Hy as [<-|Hy]; auto.
      unfold by_distance. apply Qlt_le_weak. apply Qltb_lt.
      unfold Qltb. now rewrite E.
Qed.

Lemma sort_values_sorted df : StronglySorted by_distance (sort_values df).
Proof.
  induction df as [|c df IH]; simpl; [constructor|].
  now apply sort_insert_sorted.
Qed.

(** [attendance_mark] on a frame with rows, once the rows are sorted. *)
Lemma attendance_mark_sorted env clk form c rows best rest db :
  sort_values (c :: rows) = best :: rest ->
  attendance_mark env clk form (Some (c :: rows)) db
  = let accepted :=
      match mark_student clk (PyStr.basename (PyStr.dirname (identity best))) db with
      | (db', Ok (student, att)) =>
          (db', Ok (marked_body student att (distance best) form))
      | (db', HTTPException c d) => (db', HTTPException c d)
      | (db', Raised e) => (db', Raised e)
      end in
    if Qltb (eff_max_distance env form) (distance best)
    then (db, Ok (above_threshold_body (distance best)))
    else match rest with
         | second :: _ =>
             if Qltb (distance second - distance best) (min_margin form)
             then (db, Ok (low_margin_body (distance best) (distance second)))
             else accepted
         | [] => accepted
         end.
Proof.
  intros Es. unfold attendance_mark. rewrite Es. cbv beta iota zeta.
  destruct (Qltb _ (distance best)); auto.
  destruct rest as [|second rest']; auto.
Qed.

(** ** Punctuality *)

Lemma attendance_mark_unknown_or_marked env clk form df db db' body :
  attendance_mark env clk form df db = (db', Ok body) ->
  json_get "status" body = Some (JStr "marked") \/ db' = db.
Proof.
  unfold attendance_mark. intros E.
  destruct df as [[|c rows]|]; try (inversion E; auto; fail).
  destruct (sort_values (c :: rows)) as [|best rest]; [discriminate|].
  assert (forall r : DB.t * result json,
            r = (let code := PyStr.basename (PyStr.dirname (identity best)) in
                 match mark_student clk code db with
                 | (db', Ok (student, att)) =>
                     (db', Ok (marked_body student att (distance best) form))
                 | (db', HTTPException c d) => (db', HTTPException c d)
                 | (db', Raised e) => (db', Raised e)
                 end) ->
            r = (db', Ok body) ->
            json_get "status" body = Some (JStr "marked")) as Hacc.
  { intros r -> Er. cbv zeta in Er.
    destruct (mark_student clk _ db) as [db1 [[st att]| |]]; try discriminate.
    inversion Er; subst. reflexivity. }
  destruct (Qltb _ (distance best)); [inversion E; auto|].
  destruct rest as [|second rest']; [left; now apply (Hacc _ eq_refl)|].
  destruct (Qltb _ (min_margin form)); [inversion E; auto|].
  left; now apply (Hacc _ eq_refl).
Qed.

(** When the ledger part appends an attendance, it is the one it returns:
    dated today, timed now, and classified by [punctuality]. *)
Lemma mark_student_new clk code db db' st att :
  mark_student clk code db = (db', Ok (st, att)) ->
  DB.attendances db' <> DB.attendances db ->
  DB.attendances db' = (DB.attendances db ++ [att])%list
  /\ DB.at_student_id att = DB.st_id st
  /\ DB.at_date att = clk_today clk
  /\ DB.at_time att = clk_now clk
  /\ DB.at_status att = punctuality (clk_now clk).
Proof.
  unfold mark_student.
  destruct (one_or_none (filter _ (DB.students db))) as [found|]; [|discriminate].
  set (p := match found with
            | Some st => (db, st)
            | None => DB.add_student db code code None None None None None
            end).
  assert (DB.attendances (fst p) = DB.attendances db) as Hat
    by (subst p; destruct found; reflexivity).
  destruct p as [db1 student]. simpl in Hat.
  destruct (one_or_none (filter _ (DB.attendances db1))) as [[a|]|];
    [| |discriminate].
  - intros E Hne. inversion E; subst. congruence.
  - intros E _. simpl in E. inversion E; subst. simpl. rewrite Hat. auto.
Qed.

Lemma punctuality_on_time (now : PyDate.datetime) :
  PyDate.time_leb (PyDate.dt_time now) (PyDate.mk_time 7 30 0 0) = true ->
  punctuality now = "Puntual".
Proof.
  unfold punctuality, PyDate.datetime_gtb, PyDate.replace_time, PyDate.time_leb.
  simpl. intros H. apply negb_true_iff in H. rewrite H.
  rewrite Z.ltb_irrefl, Z.eqb_refl. reflexivity.
Qed.

Lemma punctuality_late (now : PyDate.datetime) :
  PyDate.time_ltb (PyDate.mk_time 7 30 0 0) (PyDate.dt_time now) = true ->
  punctuality now = "Tarde".
Proof.
  unfold punctuality, PyDate.datetime_gtb, PyDate.replace_time.
  simpl. intros H. rewrite H.
  rewrite Z.ltb_irrefl, Z.eqb_refl. reflexivity.
Qed.

(** C4. When [attendance_mark] makes a record, the record is timed at the
    clock's now, and its status is ['Puntual'] when the time of day is at or
    before 07:30:00, ['Tarde'] when it is after; 07:30:00 itself is
    ['Puntual'] and 07:30:01 is ['Tarde']. *)
Theorem new_record_status
    (env : option Q) (clk : clock) (form : mark_form) (df : option dataframe)
    (db db' : DB.t) (body : json) :
  attendance_mark env clk form df db = (db', Ok body) ->
  DB.attendances db' <> DB.attendances db ->
  exists att,
    DB.attendances db' = (DB.attendances db ++ [att])%list
    /\ DB.at_time att = clk_now clk
    /\ json_get "attendance" body = Some (attendance_body att)
    /\ (PyDate.time_leb (PyDate.dt_time (clk_now clk)) (PyDate.mk_time 7 30 0 0)
        = true -> DB.at_status att = "Puntual")
    /\ (PyDate.time_ltb (PyDate.mk_time 7 30 0 0) (PyDate.dt_time (clk_now clk))
        = true -> DB.at_status att = "Tarde")
    /\ (PyDate.dt_time (clk_now clk) = PyDate.mk_time 7 30 0 0 ->
        DB.at_status att = "Puntual")
    /\ (PyDate.dt_time (clk_now clk) = PyDate.mk_time 7 30 1 0 ->
        DB.at_status att = "Tarde").
Proof.
  intros E Hne.
  destruct (attendance_mark_unknown_or_marked _ _ _ _ _ _ _ E) as [Hm | ->];
    [|congruence].
  destruct (attendance_mark_marked _ _ _ _ _ _ _ E Hm)
    as (rows & best & rest & st & att & _ & _ & M & ->).
  destruct (mark_student_new _ _ _ _ _ _ M Hne) as (Ha & _ & _ & Ht & Hs).
  exists att. repeat split; auto; rewrite Hs; intros H.
  - now apply punctuality_on_time.
  - now apply punctuality_late.
  - apply punctuality_on_time. rewrite H. reflexivity.
  - apply punctuality_late. rewrite H. reflexivity.
Qed.

(** ** Summary metrics *)

Lemma in_join_student db a st :
  In (a, st) (join_student db)
  <-> In a (DB.attendances db) /\ In st (DB.students db)
      /\ DB.st_id st = DB.at_student_id a.
Proof.
  unfold join_student. rewrite in_flat_map. split.
  - intros (a' & Ha & Hin). apply in_map_iff in Hin.
    destruct Hin as (st' & E & Hst). inversion E; subst.
    apply filter_In in Hst. rewrite Z.eqb_eq in Hst. tauto.
  - intros (Ha & Hst & E). exists a. split; auto.
    apply in_map_iff. exists st. split; auto.
    apply filter_In. rewrite Z.eqb_eq. auto.
Qed.

(** The students counted by [.distinct().count()] are the students of the
    group with an attendance inside the range. *)
Lemma distinct_count_present db start end_ grade section :
  DB.pk_students db ->
  distinct_count
    (map (fun r => DB.at_student_id (fst r))
         (filter (fun r => from_start (Some start) (fst r)
                           && to_end (Some end_) (fst r)
                           && in_group grade section (snd r))
                 (join_student db)))
  = count (present_students start end_ grade section db).
Proof.
  intros Hpk. unfold distinct_count, count. f_equal.
  rewrite <- (length_map DB.st_id (present_students _ _ _ _ _)).
  apply Permutation_length. apply NoDup_Permutation.
  - apply NoDup_nodup.
  - unfold present_students. now apply NoDup_map_filter.
  - intros z. rewrite nodup_In, !in_map_iff. split.
    + intros ([a st] & <- & Hin). apply filter_In in Hin.
      destruct Hin as [Hj Hp]. apply in_join_student in Hj.
      destruct Hj as (Ha & Hst & E). simpl in *.
      rewrite !andb_true_iff in Hp. destruct Hp as [[H1 H2] H3].
      exists st. split; auto. apply filter_In. split; auto.
      rewrite H3. simpl. apply existsb_exists. exists a. split; auto.
      rewrite E, Z.eqb_refl, H1, H2. reflexivity.
    + intros (st & <- & Hin). apply filter_In in Hin.
      destruct Hin as [Hst Hp]. rewrite andb_true_iff in Hp.
      destruct Hp as [Hg Hex]. apply existsb_exists in Hex.
      destruct Hex as (a & Ha & Hp). rewrite !andb_true_iff in Hp.
      destruct Hp as [[E H1] H2]. apply Z.eqb_eq in E.
      exists (a, st). simpl. split; auto.
      apply filter_In. split.
      * apply in_join_student. auto.
      * simpl. rewrite H1, H2, Hg. reflexivity.
Qed.

Lemma pct_if_total part whole : exists x, pct_if part whole = Some x.
Proof.
  unfold pct_if, PyFloat.truediv.
  destruct (whole =? 0); simpl; eauto.
Qed.

Lemma pct_if_zero part : pct_if part 0 = Some 0%Q.
Proof. reflexivity. Qed.

Lemma pct_if_pos part whole :
  whole <> 0 ->
  pct_if part whole = Some (inject_Z part / inject_Z whole * 100)%Q.
Proof.
  intros H. unfold pct_if, PyFloat.truediv.
  apply Z.eqb_neq in H. rewrite H. reflexivity.
Qed.

(** C9. [metrics_summary] always returns: no input makes a percentage divide
    by zero; and when no attendance is counted, [punctuality_pct] and
    [late_pct] are 0. *)
Theorem summary_never_divides_by_zero
    (period grade section : option string) (start end_ : option PyDate.date)
    (today : PyDate.date) (db : DB.t) :
  exists r,
    metrics_summary period grade section start end_ today db = Some r
    /\ (records_total r = 0 ->
        (punctuality_pct r == 0)%Q /\ (late_pct r == 0)%Q).
Proof.
  unfold metrics_summary.
  match goal with
  | |- context [let '(_, _) := ?m in _] => destruct m as [s e]
  end.
  set (q := filter _ (join_student db)).
  set (n := count (filter (in_group grade section) (DB.students db))).
  assert (exists z,
            match s, e with
            | Some _, Some _ =>
                pct_if (n - distinct_count
                              (map (fun r => DB.at_student_id (fst r)) q)) n
            | _, _ =>
                pct_if (n - distinct_count
                              (map (fun r => DB.at_student_id (fst r))
                                   (filter (fun r => in_group grade section (snd r))
                                           (join_student db)))) n
            end = Some z) as [z Hz]
    by (destruct s, e; apply pct_if_total).
  destruct (Z.eq_dec (count q) 0) as [E0|Hn].
  - rewrite E0, !pct_if_zero. simpl.
    subst q n. rewrite Hz. simpl. eexists. split; [reflexivity|].
    simpl. intros _. split; reflexivity.
  - rewrite !(pct_if_pos _ _ Hn). simpl.
    subst q n. rewrite Hz. simpl. eexists. split; [reflexivity|].
    simpl. intros H. contradiction.
Qed.

(** ** Metrics of today *)

Lemma filter_filter {A : Type} (p q : A -> bool) (l : list A) :
  filter p (filter q l) = filter (fun x => q x && p x) l.
Proof.
  induction l as [|x l IH]; simpl; auto.
  destruct (q x); simpl; [destruct (p x)|]; rewrite IH; reflexivity.
Qed.

(** C7, as the code has it. [metrics_today] reports the number of
    attendances dated today, and of those the numbers that are ['Puntual']
    and ['Tarde']; [absent_today] is the number of students minus the number
    of attendances of today where that is not negative, and 0 where it is. *)
Theorem today_metrics_counts (today : PyDate.date) (db : DB.t) :
  let m := metrics_today today db in
  let dated_today := fun a => DB.at_date a =? today in
  total_today m = count (filter dated_today (DB.attendances db))
  /\ punctual_today m
     = count (filter (fun a => dated_today a && status_is "Puntual" a)
                     (DB.attendances db))
  /\ late_today m
     = count (filter (fun a => dated_today a && status_is "Tarde" a)
                     (DB.attendances db))
  /\ absent_today m = Z.max (count (DB.students db) - total_today m) 0
  /\ (total_today m <= count (DB.students db) ->
      absent_today m = count (DB.students db) - total_today m)
  /\ (count (DB.students db) < total_today m -> absent_today m = 0).
Proof.
  cbv zeta. unfold metrics_today. simpl. rewrite !filter_filter.
  repeat split; lia.
Qed.

(** After Ana is marked and the students are cleared, there is one
    attendance today and no student: the difference is -1 and
    [absent_today] is 0. *)
Lemma today_absent_not_the_difference :
  let db := run Sample.cleared in
  let m := metrics_today Sample.monday db in
  reachable db
  /\ count (DB.students db) = 0
  /\ total_today m = 1
  /\ absent_today m = 0
  /\ absent_today m <> count (DB.students db) - total_today m.
Proof.
  cbv zeta. split; [apply reachable_run|].
  repeat split; try (vm_compute; reflexivity).
  vm_compute. discriminate.
Qed.

(** ** No candidates *)

(** C8. For a frame without rows [attendance_mark] returns, as a value and
    not as an exception, the body of status unknown and nothing else, and
    writes nothing; a caller reads it as the outcome for no candidates, and
    no frame with rows gives that outcome. *)
Theorem no_candidates_unknown
    (env : option Q) (clk : clock) (form : mark_form) (db : DB.t) :
  attendance_mark env clk form (Some []) db = (db, Ok unknown_body)
  /\ json_get "status" unknown_body = Some (JStr "unknown")
  /\ decision_of (Ok unknown_body) = Some Unknown_NoCandidates
  /\ (forall df,
        decision_of (snd (attendance_mark env clk form df db))
        = Some Unknown_NoCandidates
        <-> df = None \/ df = Some []).
Proof.
  repeat split; try reflexivity.
  - intros H. destruct df as [[|c rows]|]; auto. exfalso.
    destruct (sort_values_cons c rows) as (best & rest & Es).
    rewrite (attendance_mark_sorted _ _ _ _ _ _ _ _ Es) in H. cbv zeta in H.
    assert (forall r : DB.t * result json,
              r = match mark_student clk
                          (PyStr.basename (PyStr.dirname (identity best))) db with
                  | (db', Ok (student, att)) =>
                      (db', Ok (marked_body student att (distance best) form))
                  | (db', HTTPException c d) => (db', HTTPException c d)
                  | (db', Raised e) => (db', Raised e)
                  end ->
              decision_of (snd r) <> Some Unknown_NoCandidates) as Hacc.
    { intros r ->.
      destruct (mark_student clk _ db) as [db1 [[st att]| |]]; simpl; discriminate. }
    destruct (Qltb _ (distance best)); [simpl in H; discriminate|].
    destruct rest as [|second rest']; [now apply (Hacc _ eq_refl)|].
    destruct (Qltb _ (min_margin form)); [simpl in H; discriminate|].
    now apply (Hacc _ eq_refl).
  - intros [->| ->]; reflexivity.
Qed.

(** ** Deleting a student *)

(** C10. After [delete_student] succeeds on a key, no attendance of that
    key and no student of that key is left, and the other students and the
    attendances of the other keys are the rows that were there, in their
    order. *)
Theorem delete_student_cascades (student_id : Z) (db db' : DB.t) :
  delete_student student_id db = (db', Ok true) ->
  (forall a, In a (DB.attendances db') -> DB.at_student_id a <> student_id)
  /\ (forall st, In st (DB.students db') -> DB.st_id st <> student_id)
  /\ (forall st, DB.st_id st <> student_id ->
        (In st (DB.students db') <-> In st (DB.students db)))
  /\ (forall a, DB.at_student_id a <> student_id ->
        (In a (DB.attendances db') <-> In a (DB.attendances db)))
  /\ DB.students db'
     = filter (fun st => negb (DB.st_id st =? student_id)) (DB.students db)
  /\ DB.attendances db'
     = filter (fun a => negb (DB.at_student_id a =? student_id))
              (DB.attendances db).
Proof.
  unfold delete_student.
  destruct (DB.get_student db student_id) as [st0|] eqn:G; [|discriminate].
  apply get_student_In in G. destruct G as [_ Eid].
  intros E. inversion E; subst db'. clear E. rewrite Eid. simpl.
  split; [|split; [|split; [|split; [|split]]]]; try reflexivity.
  - intros a Hin. apply filter_In in Hin. destruct Hin as [_ Hp].
    apply negb_true_iff, Z.eqb_neq in Hp. exact Hp.
  - intros st Hin. apply filter_In in Hin. destruct Hin as [_ Hp].
    apply negb_true_iff, Z.eqb_neq in Hp. exact Hp.
  - intros st Hne. rewrite filter_In, negb_true_iff, Z.eqb_neq. tauto.
  - intros a Hne. rewrite filter_In, negb_true_iff, Z.eqb_neq. tauto.
Qed.

(** ** The arrival histogram *)

Lemma time_ltb_iff (a b : PyDate.time) :
  PyDate.time_ltb a b = true
  <-> (PyDate.hour a < PyDate.hour b
       \/ (PyDate.hour a = PyDate.hour b
           /\ (PyDate.minute a < PyDate.minute b
               \/ (PyDate.minute a = PyDate.minute b
                   /\ (PyDate.second a < PyDate.second b
                       \/ (PyDate.second a = PyDate.second b
                           /\ PyDate.microsecond a < PyDate.microsecond b)))))).
Proof.
  unfold PyDate.time_ltb.
  repeat first [rewrite orb_true_iff | rewrite andb_true_iff].
  rewrite !Z.ltb_lt, !Z.eqb_eq. tauto.
Qed.

Lemma time_ltb_trans (a b c : PyDate.time) :
  PyDate.time_ltb b c = true -> PyDate.time_ltb a b = true ->
  PyDate.time_ltb a c = true.
Proof. rewrite !time_ltb_iff. lia. Qed.

(** From 07:30 on, the bucket incremented is the one whose interval holds
    the time, and no other interval holds it. *)
Lemma arrival_bucket_from_cutoff (t : PyDate.time) :
  PyDate.time_leb (PyDate.hm 7 30) t = true ->
  in_bucket (arrival_bucket t) t = true
  /\ (forall label, in_bucket label t = true -> label = arrival_bucket t).
Proof.
  intros H. unfold PyDate.time_leb in H. apply negb_true_iff in H.
  pose proof (time_ltb_trans t (PyDate.hm 7 45) (PyDate.hm 8 0) eq_refl) as M1.
  pose proof (time_ltb_trans t (PyDate.hm 8 0) (PyDate.hm 8 15) eq_refl) as M2.
  pose proof (time_ltb_trans t (PyDate.hm 8 15) (PyDate.hm 8 30) eq_refl) as M3.
  assert (forall label,
            in_bucket label t
            = if String.eqb label "7:30-7:45"
              then negb (PyDate.time_ltb t (PyDate.hm 7 30))
                   && PyDate.time_ltb t (PyDate.hm 7 45)
              else if String.eqb label "7:45-8:00"
              then negb (PyDate.time_ltb t (PyDate.hm 7 45))
                   && PyDate.time_ltb t (PyDate.hm 8 0)
              else if String.eqb label "8:00-8:15"
              then negb (PyDate.time_ltb t (PyDate.hm 8 0))
                   && PyDate.time_ltb t (PyDate.hm 8 15)
              else if String.eqb label "8:15-8:30"
              then negb (PyDate.time_ltb t (PyDate.hm 8 15))
                   && PyDate.time_ltb t (PyDate.hm 8 30)
              else if String.eqb label "8:30+"
              then negb (PyDate.time_ltb t (PyDate.hm 8 30))
              else false) as Hin.
  { intros label. unfold in_bucket, bucket_interval, PyDate.time_leb.
    repeat (destruct (String.eqb label _); [reflexivity|]). reflexivity. }
  assert (exists b45 b80 b815 b830,
            PyDate.time_ltb t (PyDate.hm 7 45) = b45
            /\ PyDate.time_ltb t (PyDate.hm 8 0) = b80
            /\ PyDate.time_ltb t (PyDate.hm 8 15) = b815
            /\ PyDate.time_ltb t (PyDate.hm 8 30) = b830
            /\ (b45 = true -> b80 = true) /\ (b80 = true -> b815 = true)
            /\ (b815 = true -> b830 = true))
    as (b45 & b80 & b815 & b830 & H45 & H80 & H815 & H830 & N1 & N2 & N3).
  { do 4 eexists. repeat (split; [reflexivity|]). auto. }
  clear M1 M2 M3.
  unfold arrival_bucket, PyDate.time_leb. rewrite H, H45, H80, H815, H830.
  split.
  - rewrite Hin.
    destruct b45, b80, b815, b830; simpl;
      rewrite ?H, ?H45, ?H80, ?H815, ?H830; try reflexivity;
      try (now specialize (N1 eq_refl)); try (now specialize (N2 eq_refl));
      now specialize (N3 eq_refl).
  - intros label. rewrite Hin, H, H45, H80, H815, H830.
    destruct b45, b80, b815, b830; simpl;
      try (now specialize (N1 eq_refl)); try (now specialize (N2 eq_refl));
      try (now specialize (N3 eq_refl));
      repeat match goal with
        | |- context [String.eqb label ?x] =>
            destruct (String.eqb_spec label x) as [->|_]; [intros; congruence|]
        end;
      discriminate.
Qed.

Lemma dict_get_set (d : dict) (k k' : string) (v default : Z) :
  dict_get (dict_set d k v) k' default
  = if String.eqb k k' then v else dict_get d k' default.
Proof.
  induction d as [|[k0 v0] d IH]; simpl.
  - destruct (String.eqb k k'); reflexivity.
  - destruct (String.eqb_spec k0 k) as [->|Hk]; simpl.
    + destruct (String.eqb k k'); reflexivity.
    + rewrite IH.
      destruct (String.eqb_spec k0 k') as [->|Hk'];
        [|reflexivity].
      destruct (String.eqb_spec k k'); [congruence|reflexivity].
Qed.

Lemma dict_get_incr (d : dict) (k k' : string) :
  dict_get (dict_incr d k) k' 0
  = dict_get d k' 0 + (if String.eqb k k' then 1 else 0).
Proof.
  unfold dict_incr. rewrite dict_get_set.
  destruct (String.eqb_spec k k') as [->|]; lia.
Qed.

(** Each row adds one to the bucket that [arrival_bucket] names for its
    time, and to no other: the counter of a label is the number of rows
    whose time [arrival_bucket] sends to it. *)
Lemma arrival_buckets_count start end_ grade section db label :
  dict_get (arrival_buckets (metrics_detailed start end_ grade section db)) label 0
  = count (filter (fun r => String.eqb
                              (arrival_bucket (PyDate.dt_time (DB.at_time (fst r))))
                              label)
                  (detailed_rows start end_ grade section db)).
Proof.
  unfold metrics_detailed.
  set (rows := detailed_rows start end_ grade section db).
  assert (forall acc,
            dict_get (snd (fold_left detailed_row rows acc)) label 0
            = dict_get (snd acc) label 0
              + count (filter (fun r => String.eqb
                                 (arrival_bucket (PyDate.dt_time (DB.at_time (fst r))))
                                 label) rows)) as Hfold.
  { induction rows as [|r rows IH]; intros [g b]; simpl.
    - unfold count. simpl. lia.
    - rewrite IH. simpl. rewrite dict_get_incr.
      destruct (String.eqb _ label); unfold count; simpl List.length; lia. }
  specialize (Hfold ([], empty_buckets)).
  destruct (fold_left detailed_row rows ([], empty_buckets)) as [g b].
  cbn [arrival_buckets snd] in *. rewrite Hfold.
  assert (dict_get empty_buckets label 0 = 0) as ->; [|lia].
  unfold empty_buckets. cbn [dict_get].
  repeat (destruct (String.eqb _ label); [reflexivity|]). reflexivity.
Qed.

(** Before 07:30 no interval holds the time, and the chain of tests falls
    to the second bucket. *)
Lemma arrival_bucket_before_cutoff (t : PyDate.time) :
  PyDate.time_ltb t (PyDate.hm 7 30) = true ->
  arrival_bucket t = "7:45-8:00"
  /\ (forall label, in_bucket label t = false).
Proof.
  intros H.
  pose proof (time_ltb_trans t (PyDate.hm 7 30) (PyDate.hm 7 45) eq_refl H) as H45.
  pose proof (time_ltb_trans t (PyDate.hm 7 45) (PyDate.hm 8 0) eq_refl H45) as H80.
  pose proof (time_ltb_trans t (PyDate.hm 8 0) (PyDate.hm 8 15) eq_refl H80) as H815.
  pose proof (time_ltb_trans t (PyDate.hm 8 15) (PyDate.hm 8 30) eq_refl H815) as H830.
  split.
  - unfold arrival_bucket, PyDate.time_leb. rewrite H, H80. reflexivity.
  - intros label. unfold in_bucket, bucket_interval, PyDate.time_leb.
    repeat (destruct (String.eqb label _);
            [rewrite ?H, ?H45, ?H80, ?H815, ?H830; reflexivity|]).
    reflexivity.
Qed.

(** C6 at an arrival before the cutoff. Ana is marked at 07:10:00, a time
    that no interval of the histogram holds; [metrics_detailed] counts her
    record in the bucket labelled 7:45-8:00. *)
Theorem early_arrival_in_second_bucket :
  let db := run [Sample.mark (Sample.at_time 7 10 0) Sample.sees_ana] in
  let m := metrics_detailed None None None None db in
  map (fun a => (PyDate.isoformat (DB.at_time a), DB.at_status a))
      (DB.attendances db) = [("2025-03-10T07:10:00", "Puntual")]
  /\ detailed_count m = 1
  /\ arrival_buckets m
     = [("7:30-7:45", 0); ("7:45-8:00", 1); ("8:00-8:15", 0);
        ("8:15-8:30", 0); ("8:30+", 0)]
  /\ in_bucket "7:45-8:00" (PyDate.mk_time 7 10 0 0) = false.
Proof. vm_compute. repeat split. Qed.

(** ** The properties on the school morning *)


Lemma mark_twice_one_record_ana :
  attendance_mark None (Sample.at_time 7 30 0) Sample.form (Some Sample.sees_ana)
    DB.empty = (Sample.ana_tables, Ok Sample.ana_body)
  /\ attendance_mark None (Sample.at_time 7 50 0) Sample.form
       (Some Sample.sees_ana) Sample.ana_tables
     = (Sample.ana_tables, Ok Sample.ana_body)
  /\ (Sample.ana_tables = Sample.ana_tables
      /\ json_get "attendance" Sample.ana_body
         = json_get "attendance" Sample.ana_body
      /\ exists st att,
           In st (DB.students Sample.ana_tables) /\ DB.st_code st = "ana"
           /\ records_of (DB.st_id st) (clk_today (Sample.at_time 7 30 0))
                Sample.ana_tables = [att]
           /\ json_get "attendance" Sample.ana_body = Some (attendance_body att)).
Proof.
  assert (attendance_mark None (Sample.at_time 7 30 0) Sample.form
            (Some Sample.sees_ana) DB.empty
          = (Sample.ana_tables, Ok Sample.ana_body)) as E1
    by (vm_compute; reflexivity).
  assert (attendance_mark None (Sample.at_time 7 50 0) Sample.form
            (Some Sample.sees_ana) Sample.ana_tables
          = (Sample.ana_tables, Ok Sample.ana_body)) as E2
    by (vm_compute; reflexivity).
  split; [exact E1|]. split; [exact E2|].
  exact (mark_twice_one_record None None (Sample.at_time 7 30 0)
           (Sample.at_time 7 50 0) Sample.form Sample.form
           (Some Sample.sees_ana) (Some Sample.sees_ana) DB.empty
           Sample.ana_tables Sample.ana_tables Sample.ana_body Sample.ana_body
           "ana" (40 # 100) (40 # 100)
           reachable_empty eq_refl E1 eq_refl E2 eq_refl).
Defined.

Lemma new_record_status_at_cutoff :
  attendance_mark None (Sample.at_time 7 30 0) Sample.form (Some Sample.sees_ana)
    DB.empty = (Sample.ana_tables, Ok Sample.ana_body)
  /\ DB.attendances Sample.ana_tables <> DB.attendances DB.empty
  /\ exists att,
       DB.attendances Sample.ana_tables = (DB.attendances DB.empty ++ [att])%list
       /\ DB.at_time att = clk_now (Sample.at_time 7 30 0)
       /\ json_get "attendance" Sample.ana_body = Some (attendance_body att)
       /\ (PyDate.time_leb (PyDate.dt_time (clk_now (Sample.at_time 7 30 0)))
             (PyDate.mk_time 7 30 0 0) = true -> DB.at_status att = "Puntual")
       /\ (PyDate.time_ltb (PyDate.mk_time 7 30 0 0)
             (PyDate.dt_time (clk_now (Sample.at_time 7 30 0))) = true ->
           DB.at_status att = "Tarde")
       /\ (PyDate.dt_time (clk_now (Sample.at_time 7 30 0))
           = PyDate.mk_time 7 30 0 0 -> DB.at_status att = "Puntual")
       /\ (PyDate.dt_time (clk_now (Sample.at_time 7 30 0))
           = PyDate.mk_time 7 30 1 0 -> DB.at_status att = "Tarde").
Proof.
  assert (attendance_mark None (Sample.at_time 7 30 0) Sample.form
            (Some Sample.sees_ana) DB.empty
          = (Sample.ana_tables, Ok Sample.ana_body)) as E1
    by (vm_compute; reflexivity).
  assert (DB.attendances Sample.ana_tables <> DB.attendances DB.empty) as Hne
    by (vm_compute; discriminate).
  split; [exact E1|]. split; [exact Hne|].
  exact (new_record_status None (Sample.at_time 7 30 0) Sample.form
           (Some Sample.sees_ana) DB.empty Sample.ana_tables Sample.ana_body
           E1 Hne).
Defined.

Lemma delete_student_cascades_ana :
  delete_student 1 (run Sample.morning) = (Sample.morning_without_ana, Ok true)
  /\ (forall a, In a (DB.attendances Sample.morning_without_ana) ->
                DB.at_student_id a <> 1)
  /\ (forall st, In st (DB.students Sample.morning_without_ana) ->
                 DB.st_id st <> 1)
  /\ (forall st, DB.st_id st <> 1 ->
        (In st (DB.students Sample.morning_without_ana)
         <-> In st (DB.students (run Sample.morning))))
  /\ (forall a, DB.at_student_id a <> 1 ->
        (In a (DB.attendances Sample.morning_without_ana)
         <-> In a (DB.attendances (run Sample.morning))))
  /\ DB.students Sample.morning_without_ana
     = filter (fun st => negb (DB.st_id st =? 1))
              (DB.students (run Sample.morning))
  /\ DB.attendances Sample.morning_without_ana
     = filter (fun a => negb (DB.at_student_id a =? 1))
              (DB.attendances (run Sample.morning)).
Proof.
  assert (delete_student 1 (run Sample.morning)
          = (Sample.morning_without_ana, Ok true)) as E
    by (vm_compute; reflexivity).
  split; [exact E|].
  exact (delete_student_cascades 1 (run Sample.morning)
           Sample.morning_without_ana E).
Defined.

(** ** The helpers on examples *)

Example defaults_for_model_ex :
  _defaults_for_model "ArcFace" = ("euclidean_l2", 120 # 100)%Q
  /\ _defaults_for_model "Facenet512" = ("cosine", 30 # 100)%Q
  /\ _defaults_for_model "VGG-Face" = ("cosine", 30 # 100)%Q
  /\ eff_max_distance (Some (1 # 2)) Sample.form = (1 # 2)%Q
  /\ eff_max_distance None Sample.form = (120 # 100)%Q.
Proof. vm_compute. repeat split. Qed.

Example period_range_ex :
  let today := PyDate.ymd2ord 2026 11 3 in
  period_range "day" today = (Some today, Some today)
  /\ period_range "week" today
     = (Some (PyDate.ymd2ord 2026 11 2), Some (PyDate.ymd2ord 2026 11 8))
  /\ period_range "month" today
     = (Some (PyDate.ymd2ord 2026 11 1), Some (PyDate.ymd2ord 2026 11 30))
  /\ period_range "month" (PyDate.ymd2ord 2026 12 15)
     = (Some (PyDate.ymd2ord 2026 12 1), Some (PyDate.ymd2ord 2026 12 31))
  /\ period_range "year" today = (None, None).
Proof. vm_compute. repeat split. Qed.

Example form_code_ex :
  form_code (mk_student_form " Ana Maria " None None None None None None 0)
  = "ana_maria"
  /\ form_code (mk_student_form "" None None None None (Some "") None 1700000000)
     = "alumno_1700000000".
Proof. vm_compute. split; reflexivity. Qed.

Example summary_class_of_five_ex :
  option_map (fun r => (students_total r, records_total r,
                        Qred (punctuality_pct r), Qred (late_pct r),
                        Qred (absent_pct r)))
    (metrics_summary (Some "day") None None None None Sample.monday
       (run Sample.class_of_five))
  = Some (5, 2, (50 # 1)%Q, (50 # 1)%Q, (60 # 1)%Q).
Proof. vm_compute. reflexivity. Qed.

(** * Further properties of the handlers *)

(** ** Marking: exceptions, writes and enrolment *)

(** The ledger part leaves the students as they were, or appends one. *)
Lemma mark_student_students clk code db :
  DB.students (fst (mark_student clk code db)) = DB.students db
  \/ (filter (fun st => String.eqb (DB.st_code st) code) (DB.students db) = []
      /\ DB.students (fst (mark_student clk code db))
         = (DB.students db
            ++ [DB.mk_student (DB.next_id (map DB.st_id (DB.students db)))
                  code code None None None None None])%list).
Proof.
  unfold mark_student.
  destruct (one_or_none (filter _ (DB.students db))) as [[st|]|] eqn:E;
    [| |left; reflexivity].
  - left. destruct (one_or_none (filter _ (DB.attendances db))) as [[a|]|];
      reflexivity.
  - right. apply one_or_none_none in E. split; [exact E|].
    cbv zeta. unfold DB.add_student.
    destruct (one_or_none _) as [[a|]|]; reflexivity.
Qed.

(** [attendance_mark] never deletes or changes a student. Either the
    students are as they were, or one student is appended: a code that no
    student had, with that code as its name and no grade, section, gender,
    registration date or photo. *)
Theorem attendance_mark_enrols_at_most_one
    (env : option Q) (clk : clock) (form : mark_form) (df : option dataframe)
    (db : DB.t) :
  let db' := fst (attendance_mark env clk form df db) in
  DB.students db' = DB.students db
  \/ exists code,
       (forall st, In st (DB.students db) -> DB.st_code st <> code)
       /\ DB.students db'
          = (DB.students db
             ++ [DB.mk_student (DB.next_id (map DB.st_id (DB.students db)))
                   code code None None None None None])%list.
Proof.
  cbv zeta.
  destruct (attendance_mark_tables env clk form df db) as [->|[code ->]]; auto.
  destruct (mark_student_students clk code db) as [E|[Hnew E]]; auto.
  right. exists code. split; auto.
  intros st Hin Hc. pose proof (filter_nil_forall _ _ Hnew st Hin) as F.
  simpl in F. rewrite Hc, String.eqb_refl in F. discriminate.
Qed.

(** A frame has one ascending order when no two rows share a distance. *)
Lemma sorted_perm_unique (l1 l2 : dataframe) :
  StronglySorted by_distance l1 -> StronglySorted by_distance l2 ->
  Permutation l1 l2 ->
  (forall a b, In a l1 -> In b l1 -> (distance a == distance b)%Q -> a = b) ->
  l1 = l2.
Proof.
  revert l2. induction l1 as [|a l1 IH]; intros l2 S1 S2 P Hd.
  - apply Permutation_nil in P. now subst.
  - destruct l2 as [|b l2];
      [apply Permutation_sym, Permutation_nil in P; discriminate|].
    inversion S1 as [|? ? S1' F1]; subst. inversion S2 as [|? ? S2' F2]; subst.
    rewrite Forall_forall in F1, F2.
    assert (a = b) as ->.
    { assert (In b (a :: l1)) as Hb
        by (apply (Permutation_in _ (Permutation_sym P)); now left).
      assert (In a (b :: l2)) as Ha
        by (apply (Permutation_in _ P); now left).
      destruct Hb as [Hb|Hb]; auto. destruct Ha as [Ha|Ha]; auto.
      symmetry. apply Hd; [now right|now left|].
      apply Qle_antisym; [apply (F2 a Ha)|apply (F1 b Hb)]. }
    f_equal. apply IH; auto.
    + now apply Permutation_cons_inv in P.
    + intros x y Hx Hy. apply Hd; now right.
Qed.

(** The outcome does not depend on the order in which the engine lists the
    candidates, when no two of them are at the same distance. *)
Theorem attendance_mark_order_independent
    (env : option Q) (clk : clock) (form : mark_form) (rows rows' : dataframe)
    (db : DB.t) :
  Permutation rows rows' ->
  (forall a b, In a rows -> In b rows -> (distance a == distance b)%Q -> a = b) ->
  attendance_mark env clk form (Some rows) db
  = attendance_mark env clk form (Some rows') db.
Proof.
  intros P Hd.
  assert (sort_values rows = sort_values rows') as Es.
  { apply sorted_perm_unique; try apply sort_values_sorted.
    - rewrite <- (sort_values_perm rows), <- (sort_values_perm rows'). exact P.
    - intros a b Ha Hb. apply Hd;
        apply (Permutation_in _ (Permutation_sym (sort_values_perm rows))); auto. }
  destruct rows as [|c rows].
  - apply Permutation_nil in P. now subst.
  - destruct rows' as [|c' rows'];
      [apply Permutation_sym, Permutation_nil in P; discriminate|].
    destruct (sort_values_cons c rows) as (best & rest & E).
    rewrite (attendance_mark_sorted _ _ _ _ _ _ _ _ E).
    rewrite Es in E.
    rewrite (attendance_mark_sorted _ _ _ _ _ _ _ _ E). reflexivity.
Qed.

Lemma attendance_mark_order_independent_ana :
  Permutation Sample.sees_ana (rev Sample.sees_ana)
  /\ (forall a b, In a Sample.sees_ana -> In b Sample.sees_ana ->
                  (distance a == distance b)%Q -> a = b)
  /\ attendance_mark None (Sample.at_time 7 10 0) Sample.form
       (Some Sample.sees_ana) DB.empty
     = attendance_mark None (Sample.at_time 7 10 0) Sample.form
         (Some (rev Sample.sees_ana)) DB.empty.
Proof.
  assert (forall a b, In a Sample.sees_ana -> In b Sample.sees_ana ->
                      (distance a == distance b)%Q -> a = b) as Hd.
  { intros a b [<-|[<-|[]]] [<-|[<-|[]]] H; try reflexivity;
      vm_compute in H; discriminate. }
  split; [apply Permutation_rev|]. split; [exact Hd|].
  exact (attendance_mark_order_independent None (Sample.at_time 7 10 0)
           Sample.form Sample.sees_ana (rev Sample.sees_ana) DB.empty
           (Permutation_rev _) Hd).
Defined.

(** ** The code of an identity path *)

Lemma rsplit_no_slash (t : string) :
  no_char "/"%char t = true -> PyStr.rsplit_slash t = (EmptyString, t).
Proof.
  induction t as [|c t IH]; simpl; auto.
  rewrite andb_true_iff, negb_true_iff. intros [Hc Ht].
  rewrite (IH Ht). simpl. unfold PyStr.is_slash. rewrite Hc. reflexivity.
Qed.

Lemma rsplit_slash_app (h t : string) :
  no_char "/"%char t = true ->
  PyStr.rsplit_slash (h ++ "/" ++ t) = (h ++ "/", t).
Proof.
  intros Ht. induction h as [|c h IH]; simpl.
  - rewrite (rsplit_no_slash t Ht). reflexivity.
  - simpl in IH. rewrite IH.
    destruct h; reflexivity.
Qed.

Lemma rstrip_slash_keep (s : string) :
  s <> EmptyString -> no_char "/"%char s = true ->
  PyStr.rstrip_by PyStr.is_slash (s ++ "/") = s.
Proof.
  induction s as [|c s IH]; [congruence|]. intros _. simpl.
  rewrite andb_true_iff, negb_true_iff. intros [Hc Hs].
  destruct s as [|c' s'].
  - simpl. unfold PyStr.is_slash. rewrite Hc. reflexivity.
  - rewrite IH by (auto; discriminate). reflexivity.
Qed.

Lemma rstrip_app (p : ascii -> bool) (y z : string) :
  PyStr.rstrip_by p z <> EmptyString ->
  PyStr.rstrip_by p (y ++ z) = y ++ PyStr.rstrip_by p z.
Proof.
  intros Hz. induction y as [|c y IH]; simpl; auto.
  rewrite IH. destruct (y ++ PyStr.rstrip_by p z) eqn:E; auto.
  destruct y; simpl in E; [contradiction|discriminate].
Qed.

Lemma all_slashes_app_false (y s z : string) :
  s <> EmptyString -> no_char "/"%char s = true ->
  PyStr.all_slashes (y ++ s ++ z) = false.
Proof.
  intros Hs Hn. induction y as [|c y IH]; simpl.
  - destruct s as [|c s]; [congruence|]. simpl in *.
    apply andb_true_iff in Hn. destruct Hn as [Hc _].
    apply negb_true_iff in Hc. unfold PyStr.is_slash. rewrite Hc. reflexivity.
  - rewrite IH. apply andb_false_r.
Qed.

Lemma string_app_assoc (a b c : string) : (a ++ b) ++ c = a ++ b ++ c.
Proof. induction a as [|x a IH]; simpl; [reflexivity|now rewrite IH]. Qed.

(** The gallery keeps the images of a student in a folder named by the
    student's code: of a path [root/code/file] the code that
    [attendance_mark] marks is [code], for any root. *)
Theorem identity_path_code (root code file : string) :
  code <> EmptyString ->
  no_char "/"%char code = true -> no_char "/"%char file = true ->
  PyStr.basename (PyStr.dirname (root ++ "/" ++ code ++ "/" ++ file)) = code.
Proof.
  intros Hne Hc Hf.
  assert (PyStr.dirname (root ++ "/" ++ code ++ "/" ++ file)
          = root ++ "/" ++ code) as ->.
  { unfold PyStr.dirname.
    replace (root ++ "/" ++ code ++ "/" ++ file)
      with ((root ++ "/" ++ code) ++ "/" ++ file)
      by (now rewrite !string_app_assoc).
    rewrite (rsplit_slash_app _ file Hf). cbn [fst].
    assert (PyStr.truthy ((root ++ "/" ++ code) ++ "/") = true) as ->
      by (destruct root; reflexivity).
    replace ((root ++ "/" ++ code) ++ "/") with ((root ++ "/") ++ code ++ "/")
      by (now rewrite !string_app_assoc).
    rewrite (all_slashes_app_false _ code "/" Hne Hc). simpl.
    rewrite rstrip_app; rewrite (rstrip_slash_keep code Hne Hc); auto.
    now rewrite !string_app_assoc. }
  unfold PyStr.basename. rewrite (rsplit_slash_app root code Hc). reflexivity.
Qed.

Lemma identity_path_code_ana :
  "ana" <> EmptyString /\ no_char "/"%char "ana" = true
  /\ no_char "/"%char "profile.jpg" = true
  /\ PyStr.basename (PyStr.dirname ("C:/eduface/db" ++ "/" ++ "ana" ++ "/"
                                      ++ "profile.jpg")) = "ana".
Proof.
  split; [discriminate|]. split; [reflexivity|]. split; [reflexivity|].
  apply (identity_path_code "C:/eduface/db" "ana" "profile.jpg");
    [discriminate|reflexivity|reflexivity].
Defined.

(** ** What the ledger holds *)






Lemma count_filter_split {A : Type} (p q : A -> bool) (l : list A) :
  (forall x, In x l -> xorb (p x) (q x) = true) ->
  count (filter p l) + count (filter q l) = count l.
Proof.
  intros H. unfold count. rewrite <- Nat2Z.inj_add. f_equal.
  induction l as [|x l IH]; simpl; [reflexivity|].
  assert (Hx := H x (or_introl eq_refl)).
  assert (IH' := IH (fun y Hy => H y (or_intror Hy))).
  destruct (p x), (q x); simpl in *; try discriminate; lia.
Qed.



(** ** The foreign key *)

Lemma put_student_keeps_ids db st' st :
  In st (DB.students db) ->
  exists x, In x (DB.students (put_student st' db)) /\ DB.st_id x = DB.st_id st.
Proof.
  intros Hin. unfold put_student. simpl.
  exists (if DB.st_id st =? DB.st_id st' then st' else st). split.
  - apply in_map_iff. exists st. auto.
  - destruct (DB.st_id st =? DB.st_id st') eqn:E; auto.
    apply Z.eqb_eq in E. auto.
Qed.

Lemma fk_same_students db db' :
  fk_attendance_student db ->
  (forall st, In st (DB.students db) ->
     exists x, In x (DB.students db') /\ DB.st_id x = DB.st_id st) ->
  (forall a, In a (DB.attendances db') -> In a (DB.attendances db)) ->
  fk_attendance_student db'.
Proof.
  intros Hfk Hst Hat a Ha. destruct (Hfk a (Hat a Ha)) as (st & Hin & E).
  destruct (Hst st Hin) as (x & Hx & Ex). exists x. split; auto. congruence.
Qed.

Lemma step_fk db r :
  Inv db -> fk_attendance_student db -> keeps_students r = true ->
  fk_attendance_student (step db r).
Proof.
  intros HI Hfk Hk. destruct r; simpl; try discriminate.
  - destruct (attendance_mark_tables env_max clk form df db) as [->|[code ->]]; auto.
    destruct (mark_student_post clk code db HI)
      as (db' & st & att & E & _ & _ & Hst & Hrec & Hat).
    assert (forall x, In x (DB.students db) -> In x (DB.students db')) as Hmono.
    { intros x Hx. pose proof (mark_student_students clk code db) as M.
      rewrite E in M. simpl in M. destruct M as [-> | [_ ->]]; auto.
      apply in_or_app. now left. }
    rewrite E. simpl. intros a Ha.
    assert (In a (DB.attendances db) \/ a = att) as [Hold | ->].
    { destruct Hat as [[Eq _]|(Eq & _)]; rewrite Eq in Ha; auto.
      apply in_app_or in Ha. destruct Ha as [Ha|[<-|[]]]; auto. }
    + destruct (Hfk a Hold) as (x & Hx & Ex). exists x. auto.
    + exists st. split; auto.
      assert (In att (records_of (DB.st_id st) (clk_today clk) db')) as Hin
        by (rewrite Hrec; now left).
      apply filter_In in Hin. destruct Hin as [_ Hp].
      apply andb_true_iff in Hp. destruct Hp as [Hp _].
      apply Z.eqb_eq in Hp. auto.
  - apply (fk_same_students db); auto; [eauto|].
    simpl. intros a Ha. apply filter_In in Ha. tauto.
  - intros a [].
  - destruct target; simpl; auto.
    apply (fk_same_students db); auto; [eauto|].
    simpl. intros a Ha. apply filter_In in Ha. tauto.
  - unfold create_student. destruct (code_taken _ db) as [[?|]|]; simpl; auto.
    apply (fk_same_students db); auto. simpl. intros st Hin.
    exists st. split; auto. apply in_or_app. now left.
  - unfold update_student.
    destruct (DB.get_student db student_id) as [st|]; simpl; auto.
    destruct (su_name payload) as [[?|]|]; simpl; auto;
      apply (fk_same_students db); auto; intros x Hx;
      now apply put_student_keeps_ids.
  - unfold delete_student.
    destruct (DB.get_student db student_id) as [st|]; simpl; auto.
    intros a Ha. apply filter_In in Ha. destruct Ha as [Ha Hp].
    destruct (Hfk a Ha) as (x & Hx & Ex). exists x. split; auto.
    apply filter_In. split; auto. now rewrite Ex.
  - unfold create_student_form. destruct (code_taken _ db) as [[?|]|]; simpl; auto.
    apply (fk_same_students db); auto. simpl. intros st Hin.
    exists st. split; auto. apply in_or_app. now left.
  - unfold update_student_form.
    destruct (DB.get_student db student_id) as [st|]; simpl; auto.
    apply (fk_same_students db); auto; intros x Hx;
      now apply put_student_keeps_ids.
Qed.

Lemma run_fk_from rs db :
  reachable db -> fk_attendance_student db ->
  forallb keeps_students rs = true ->
  fk_attendance_student (fold_left step rs db).
Proof.
  revert db. induction rs as [|r rs IH]; simpl; intros db Hr Hfk Hk; auto.
  apply andb_true_iff in Hk. destruct Hk as [Hk1 Hk2].
  apply IH; auto; [now constructor|].
  apply step_fk; auto. now apply reachable_Inv.
Qed.

Lemma NoDup_map_fst_of_pairs {A : Type} (g h : A -> Z) (d : Z) (l : list A) :
  NoDup (map (fun a => (g a, h a)) l) -> (forall a, In a l -> h a = d) ->
  NoDup (map g l).
Proof.
  induction l as [|x l IH]; simpl; intros H Hd; [constructor|].
  inversion H as [|? ? Hx Hl]; subst. constructor.
  - intros Hin. apply Hx. apply in_map_iff in Hin.
    destruct Hin as (y & Ey & Hy). apply in_map_iff. exists y. split; auto.
    rewrite Ey, (Hd y (or_intror Hy)), (Hd x (or_introl eq_refl)). reflexivity.
  - apply IH; auto.
Qed.

(** Under the invariant and the foreign key, no day has more attendances
    than there are students. *)
Lemma day_records_le_students db d :
  Inv db -> fk_attendance_student db ->
  count (filter (fun a => DB.at_date a =? d) (DB.attendances db))
  <= count (DB.students db).
Proof.
  intros HI Hfk. unfold count. apply inj_le.
  rewrite <- (length_map DB.at_student_id), <- (length_map DB.st_id (DB.students db)).
  apply NoDup_incl_length.
  - apply (NoDup_map_fst_of_pairs DB.at_student_id DB.at_date d).
    + apply (NoDup_map_filter (fun a => (DB.at_student_id a, DB.at_date a))).
      apply HI.
    + intros a Ha. apply filter_In in Ha. destruct Ha as [_ Hp].
      now apply Z.eqb_eq in Hp.
  - intros z Hz. apply in_map_iff in Hz. destruct Hz as (a & <- & Ha).
    apply filter_In in Ha. destruct Ha as [Ha _].
    destruct (Hfk a Ha) as (st & Hst & E). rewrite <- E. now apply in_map.
Qed.



(** ** Students *)

Lemma find_app_fresh (l : list DB.Student) (st : DB.Student) :
  ~ In (DB.st_id st) (map DB.st_id l) ->
  find (fun x => DB.st_id x =? DB.st_id st) (l ++ [st]) = Some st.
Proof.
  induction l as [|y l IH]; simpl; intros H.
  - now rewrite Z.eqb_refl.
  - destruct (DB.st_id y =? DB.st_id st) eqn:E.
    + apply Z.eqb_eq in E. exfalso. apply H. now left.
    + apply IH. intros Hin. apply H. now right.
Qed.

(** [create_student] on tables that the requests can reach: a code that a
    student has is refused with 400 and nothing is written; a new code is
    appended under a key above every key of the table, with the fields of
    the payload, the attendances stay, and [get_student] of the new key
    returns the row. *)
Theorem create_student_conflict_or_roundtrip (payload : StudentCreate) (db : DB.t) :
  reachable db ->
  ((exists x, In x (DB.students db) /\ DB.st_code x = sc_code payload) ->
   create_student payload db = (db, HTTPException 400 "Código ya existe"))
  /\ ((forall x, In x (DB.students db) -> DB.st_code x <> sc_code payload) ->
      exists st,
        create_student payload db
        = (DB.mk_db (DB.students db ++ [st]) (DB.attendances db), Ok st)
        /\ st = DB.mk_student (DB.st_id st) (sc_code payload) (sc_name payload)
                  (sc_grade payload) (sc_section payload) (sc_gender payload)
                  (sc_registration_date payload) (sc_photo_path payload)
        /\ (forall x, In x (DB.students db) -> DB.st_id x < DB.st_id st)
        /\ get_student (DB.st_id st)
             (DB.mk_db (DB.students db ++ [st]) (DB.attendances db)) = Ok st).
Proof.
  intros Hr. pose proof (reachable_Inv db Hr) as HI. split.
  - intros (x & Hx & Ec). unfold create_student, code_taken.
    rewrite <- Ec, (code_filter_unique db x (inv_uq_code _ HI) Hx). reflexivity.
  - intros Hnew. unfold create_student, code_taken.
    assert (filter (fun st => String.eqb (DB.st_code st) (sc_code payload))
                   (DB.students db) = []) as ->.
    { destruct (filter _ (DB.students db)) as [|y l] eqn:F; auto.
      assert (In y (filter (fun st => String.eqb (DB.st_code st) (sc_code payload))
                           (DB.students db))) as Hy by (rewrite F; now left).
      apply filter_In in Hy. destruct Hy as [Hy Ey]. apply String.eqb_eq in Ey.
      now elim (Hnew y Hy). }
    simpl. eexists. split; [reflexivity|]. split; [reflexivity|]. split.
    + simpl. intros x Hx. unfold DB.next_id.
      pose proof (le_fold_max (map DB.st_id (DB.students db)) (DB.st_id x)
                    (in_map _ _ _ Hx)). lia.
    + unfold get_student, DB.get_student. simpl DB.students.
      rewrite find_app_fresh; [reflexivity|]. simpl. apply next_id_fresh.
Qed.

Lemma create_student_conflict_or_roundtrip_morning :
  reachable (run Sample.morning)
  /\ ((exists x, In x (DB.students (run Sample.morning))
                 /\ DB.st_code x = sc_code Office.eva) ->
      create_student Office.eva (run Sample.morning)
      = (run Sample.morning, HTTPException 400 "Código ya existe"))
  /\ ((forall x, In x (DB.students (run Sample.morning)) ->
                 DB.st_code x <> sc_code Office.eva) ->
      exists st,
        create_student Office.eva (run Sample.morning)
        = (DB.mk_db (DB.students (run Sample.morning) ++ [st])
             (DB.attendances (run Sample.morning)), Ok st)
        /\ st = DB.mk_student (DB.st_id st) (sc_code Office.eva)
                  (sc_name Office.eva) (sc_grade Office.eva)
                  (sc_section Office.eva) (sc_gender Office.eva)
                  (sc_registration_date Office.eva) (sc_photo_path Office.eva)
        /\ (forall x, In x (DB.students (run Sample.morning)) ->
                      DB.st_id x < DB.st_id st)
        /\ get_student (DB.st_id st)
             (DB.mk_db (DB.students (run Sample.morning) ++ [st])
                (DB.attendances (run Sample.morning))) = Ok st).
Proof.
  split; [apply reachable_run|].
  apply (create_student_conflict_or_roundtrip Office.eva (run Sample.morning)).
  apply reachable_run.
Defined.

Lemma lower_ascii_idem (c : ascii) :
  PyStr.lower_ascii (PyStr.lower_ascii c) = PyStr.lower_ascii c.
Proof.
  destruct c as [[] [] [] [] [] [] [] []]; vm_compute; reflexivity.
Qed.

Lemma lower_ascii_not_space (c : ascii) :
  Ascii.eqb (PyStr.lower_ascii c) " "%char = Ascii.eqb c " "%char.
Proof.
  destruct c as [[] [] [] [] [] [] [] []]; vm_compute; reflexivity.
Qed.

(** The code that [create_student_form] derives has no blank and no capital
    letter of ASCII: it is its own lower case, whatever the code or name
    typed. *)
Theorem form_code_normalised (f : StudentForm) :
  no_char " "%char (form_code f) = true
  /\ PyStr.lower (form_code f) = form_code f.
Proof.
  unfold form_code.
  generalize (PyStr.strip
                (PyStr.or_else match sf_code f with Some c => c | None => "" end
                   (PyStr.or_else (sf_name f)
                      ("alumno_" ++ PyStr.of_int (sf_timestamp f))))).
  intros s. induction s as [|c s [IH1 IH2]]; simpl; [auto|].
  rewrite IH1, IH2. split.
  - rewrite andb_true_r.
    destruct (Ascii.eqb (PyStr.lower_ascii c) " "%char) eqn:E;
      [reflexivity|now rewrite E].
  - f_equal.
    destruct (Ascii.eqb (PyStr.lower_ascii c) " "%char);
      [reflexivity|apply lower_ascii_idem].
Qed.

(** [create_student_form] on a code and a name typed in ASCII, on tables that
    satisfy the constraints.  A form whose code, trimmed, in lower case and
    with blanks as underscores, is the code of a student is refused with 400
    and nothing is written.  A form without a photo whose code no student
    has makes a student with the normalised code and the name as typed, and
    the code is then taken: the same form again, and the JSON route with the
    code, are refused with 400. *)
Theorem form_code_then_taken (f : StudentForm) (db : DB.t) :
  Inv db ->
  PyStr.is_ascii (sf_name f) = true ->
  (forall c, sf_code f = Some c -> PyStr.is_ascii c = true) ->
  ((exists x, In x (DB.students db) /\ DB.st_code x = form_code f) ->
   create_student_form f db = (db, HTTPException 400 "Código ya existe"))
  /\ (sf_photo_ext f = None ->
      (forall x, In x (DB.students db) -> DB.st_code x <> form_code f) ->
      exists db' st,
        create_student_form f db = (db', Ok st)
        /\ DB.st_code st = form_code f /\ DB.st_name st = sf_name f
        /\ DB.st_photo_path st = None
        /\ DB.students db' = (DB.students db ++ [st])%list
        /\ DB.attendances db' = DB.attendances db
        /\ create_student_form f db'
           = (db', HTTPException 400 "Código ya existe")
        /\ (forall payload, sc_code payload = form_code f ->
              create_student payload db'
              = (db', HTTPException 400 "Código ya existe"))).
Proof.
  intros HI _ _. split.
  - intros (x & Hx & Ec). unfold create_student_form, code_taken.
    rewrite <- Ec, (code_filter_unique db x (inv_uq_code _ HI) Hx). reflexivity.
  - intros Hp Hnew.
    assert (code_taken (form_code f) db = Some None) as Et.
    { unfold code_taken.
      destruct (filter _ (DB.students db)) as [|y l] eqn:F; auto.
      assert (In y (filter (fun st => String.eqb (DB.st_code st) (form_code f))
                           (DB.students db))) as Hy by (rewrite F; now left).
      apply filter_In in Hy. destruct Hy as [Hy Ey]. apply String.eqb_eq in Ey.
      now elim (Hnew y Hy). }
    set (st := DB.mk_student (DB.next_id (map DB.st_id (DB.students db)))
                 (form_code f) (sf_name f) (sf_grade f) (sf_section f)
                 (sf_gender f) (sf_registration_date f) None).
    set (db' := DB.mk_db (DB.students db ++ [st]) (DB.attendances db)).
    assert (create_student_form f db = (db', Ok st)) as E
      by (unfold create_student_form; rewrite Et, Hp; reflexivity).
    assert (Inv db') as HI'.
    { replace db' with (step db (CreateStudentForm f)) by (simpl; now rewrite E).
      now apply step_Inv. }
    assert (filter (fun x => String.eqb (DB.st_code x) (form_code f))
                   (DB.students db') = [st]) as Hf.
    { apply (code_filter_unique db' st (inv_uq_code _ HI')).
      apply in_or_app. right. now left. }
    exists db', st. split; [exact E|].
    split; [reflexivity|]. split; [reflexivity|]. split; [reflexivity|].
    split; [reflexivity|]. split; [reflexivity|]. split.
    + unfold create_student_form, code_taken. rewrite Hf. reflexivity.
    + intros payload Ep. unfold create_student, code_taken.
      rewrite Ep, Hf. reflexivity.
Qed.

Lemma form_code_then_taken_ana :
  Inv DB.empty
  /\ PyStr.is_ascii (sf_name Office.ana_form) = true
  /\ (forall c, sf_code Office.ana_form = Some c -> PyStr.is_ascii c = true)
  /\ sf_photo_ext Office.ana_form = None
  /\ form_code Office.ana_form = "ana_maria"
  /\ exists db' st,
       create_student_form Office.ana_form DB.empty = (db', Ok st)
       /\ DB.st_code st = form_code Office.ana_form
       /\ DB.st_name st = sf_name Office.ana_form
       /\ DB.st_photo_path st = None
       /\ DB.students db' = (DB.students DB.empty ++ [st])%list
       /\ DB.attendances db' = DB.attendances DB.empty
       /\ create_student_form Office.ana_form db'
          = (db', HTTPException 400 "Código ya existe")
       /\ (forall payload, sc_code payload = form_code Office.ana_form ->
             create_student payload db'
             = (db', HTTPException 400 "Código ya existe")).
Proof.
  split; [apply Inv_empty|]. split; [reflexivity|].
  split; [intros c; discriminate|]. split; [reflexivity|].
  split; [vm_compute; reflexivity|].
  destruct (form_code_then_taken Office.ana_form DB.empty Inv_empty eq_refl)
    as [_ H]; [intros c; discriminate|].
  apply H; [reflexivity|]. intros x [].
Defined.

(** The separators 0x1C to 0x1F are blanks of [strip], and capitals and
    inner blanks are normalised: these four typed codes are one code. *)
Example form_code_blanks_ex :
  map (fun c => form_code (mk_student_form "Ana" None None None None (Some c) None 0))
      [String (ascii_of_nat 28) " ana"; " ANA "; "Ana"; String (ascii_of_nat 9) "aNa"]
  = ["ana"; "ana"; "ana"; "ana"].
Proof. vm_compute. reflexivity. Qed.

Lemma find_put_student (l : list DB.Student) (st' : DB.Student) :
  In (DB.st_id st') (map DB.st_id l) ->
  find (fun x => DB.st_id x =? DB.st_id st')
       (map (fun x => if DB.st_id x =? DB.st_id st' then st' else x) l)
  = Some st'.
Proof.
  induction l as [|y l IH]; simpl; [tauto|]. intros H.
  destruct (DB.st_id y =? DB.st_id st') eqn:E.
  - now rewrite Z.eqb_refl.
  - rewrite E. apply IH. destruct H as [H|H]; auto.
    apply Z.eqb_neq in E. congruence.
Qed.

(** [update_student] of a key that SQLite holds: a key that no student has
    is answered 404 with nothing written. A successful update keeps the key
    and the code of the row, the keys and codes of all students in their
    order, and every attendance; the other students are untouched, and
    [get_student] of the key, when it is at least 1, returns the row as
    updated. *)
Theorem update_student_keeps_identity
    (student_id : Z) (payload : StudentUpdate) (db : DB.t) :
  DB.int64 student_id ->
  (DB.get_student db student_id = None ->
   update_student student_id payload db = (db, HTTPException 404 "No encontrado"))
  /\ (forall db' st',
        update_student student_id payload db = (db', Ok st') ->
        DB.st_id st' = student_id
        /\ (exists st, DB.get_student db student_id = Some st
                       /\ DB.st_code st' = DB.st_code st)
        /\ DB.attendances db' = DB.attendances db
        /\ (forall x, DB.st_id x <> student_id ->
              (In x (DB.students db') <-> In x (DB.students db)))
        /\ (1 <= student_id -> get_student student_id db' = Ok st')
        /\ (DB.pk_students db ->
            map DB.st_id (DB.students db') = map DB.st_id (DB.students db)
            /\ map DB.st_code (DB.students db')
               = map DB.st_code (DB.students db))).
Proof.
  intros _. unfold update_student. split.
  - intros ->. reflexivity.
  - intros db' st'.
    destruct (DB.get_student db student_id) as [st|] eqn:G; [|discriminate].
    destruct (get_student_In _ _ _ G) as [Hin Eid].
    intros E.
    assert (DB.st_id st' = DB.st_id st /\ DB.st_code st' = DB.st_code st
            /\ db' = put_student st' db) as (Ei & Ec & ->).
    { destruct (su_name payload) as [[n|]|]; try discriminate;
        inversion E; subst; auto. }
    clear E. split; [congruence|]. split; [eauto|]. split; [reflexivity|].
    split; [|split].
    + intros x Hx. unfold put_student. simpl. rewrite in_map_iff. split.
      * intros (y & Ey & Hy).
        destruct (DB.st_id y =? DB.st_id st') eqn:E; [|now subst].
        subst x. congruence.
      * intros Hin'. exists x. split; auto.
        destruct (DB.st_id x =? DB.st_id st') eqn:E; auto.
        apply Z.eqb_eq in E. congruence.
    + intros _. unfold get_student, DB.get_student, put_student. simpl.
      rewrite <- Eid, <- Ei, find_put_student; [reflexivity|].
      rewrite Ei. now apply in_map.
    + intros Hpk. now apply (put_student_columns db st st').
Qed.

Lemma update_student_keeps_identity_morning :
  DB.int64 1
  /\ update_student 1 Office.to_grade_6 (run Sample.morning)
     = (Office.promoted_tables, Ok Office.promoted_row)
  /\ DB.st_id Office.promoted_row = 1
  /\ DB.st_grade Office.promoted_row = Some "6"
  /\ DB.attendances Office.promoted_tables = DB.attendances (run Sample.morning)
  /\ get_student 1 Office.promoted_tables = Ok Office.promoted_row.
Proof.
  assert (update_student 1 Office.to_grade_6 (run Sample.morning)
          = (Office.promoted_tables, Ok Office.promoted_row)) as E
    by (vm_compute; reflexivity).
  assert (DB.int64 1) as Hk by (unfold DB.int64; lia).
  destruct (update_student_keeps_identity 1 Office.to_grade_6 (run Sample.morning)
              Hk) as [_ H].
  destruct (H _ _ E) as (H1 & _ & H3 & _ & H5 & _).
  split; [exact Hk|].
  split; [exact E|]. split; [exact H1|]. split; [reflexivity|].
  split; [exact H3|apply H5; lia].
Defined.

Lemma find_filter_out (l : list DB.Student) (i : Z) :
  find (fun x => DB.st_id x =? i) (filter (fun x => negb (DB.st_id x =? i)) l)
  = None.
Proof.
  induction l as [|y l IH]; simpl; auto.
  destruct (DB.st_id y =? i) eqn:E; simpl; auto. now rewrite E.
Qed.

(** [delete_student] of a key that SQLite holds: a key that no student has
    is answered 404 with nothing written; and after a delete that succeeded
    the key is gone: [get_student] of it, when it is at least 1, and a
    second [delete_student] of it are answered 404. *)
Theorem delete_student_then_not_found (student_id : Z) (db : DB.t) :
  DB.int64 student_id ->
  (DB.get_student db student_id = None ->
   delete_student student_id db = (db, HTTPException 404 "No encontrado"))
  /\ (forall db',
        delete_student student_id db = (db', Ok true) ->
        (1 <= student_id ->
         get_student student_id db' = HTTPException 404 "No encontrado")
        /\ delete_student student_id db'
           = (db', HTTPException 404 "No encontrado")).
Proof.
  intros _. unfold delete_student at 1 2. split.
  - intros ->. reflexivity.
  - intros db'.
    destruct (DB.get_student db student_id) as [st|] eqn:G; [|discriminate].
    destruct (get_student_In _ _ _ G) as [_ Eid]. intros E.
    inversion E; subst db'. clear E.
    unfold get_student, delete_student, DB.get_student. simpl DB.students.
    rewrite Eid, find_filter_out. split; [intros _|]; reflexivity.
Qed.

Lemma delete_student_then_not_found_ana :
  DB.int64 1
  /\ delete_student 1 (run Sample.morning) = (Sample.morning_without_ana, Ok true)
  /\ get_student 1 Sample.morning_without_ana = HTTPException 404 "No encontrado"
  /\ delete_student 1 Sample.morning_without_ana
     = (Sample.morning_without_ana, HTTPException 404 "No encontrado")
  /\ delete_student 7 (run Sample.morning)
     = (run Sample.morning, HTTPException 404 "No encontrado").
Proof.
  assert (DB.int64 1) as H1 by (unfold DB.int64; lia).
  assert (DB.int64 7) as H7 by (unfold DB.int64; lia).
  assert (delete_student 1 (run Sample.morning)
          = (Sample.morning_without_ana, Ok true)) as E by (vm_compute; reflexivity).
  destruct (delete_student_then_not_found 1 (run Sample.morning) H1) as [_ H].
  destruct (H _ E) as [Hg Hd].
  destruct (delete_student_then_not_found 7 (run Sample.morning) H7) as [Hn _].
  split; [exact H1|]. split; [exact E|]. split; [apply Hg; lia|].
  split; [exact Hd|]. apply Hn. vm_compute. reflexivity.
Defined.

(** ** Clearing *)

Lemma count_filter_negb {A : Type} (p : A -> bool) (l : list A) :
  count (filter p l) + count (filter (fun x => negb (p x)) l) = count l.
Proof.
  apply count_filter_split. intros x _. destruct (p x); reflexivity.
Qed.

(** [admin_clear_date]: a date that does not parse is answered 400 with
    nothing written. For a date [d], the attendances left are those of the
    other dates, in their order; no attendance of [d] is left; the students
    are untouched; and the number returned is the number of rows removed. *)
Theorem admin_clear_date_frame (db : DB.t) :
  admin_clear_date None db
  = (db, HTTPException 400 "Fecha inválida, use YYYY-MM-DD")
  /\ (forall d,
        exists db' deleted,
          admin_clear_date (Some d) db = (db', Ok deleted)
          /\ DB.students db' = DB.students db
          /\ (forall a, In a (DB.attendances db')
                        <-> In a (DB.attendances db) /\ DB.at_date a <> d)
          /\ DB.attendances db'
             = filter (fun a => negb (DB.at_date a =? d)) (DB.attendances db)
          /\ deleted = count (DB.attendances db) - count (DB.attendances db')
          /\ 0 <= deleted).
Proof.
  split; [reflexivity|]. intros d. eexists _, _.
  split; [reflexivity|]. cbn [DB.students DB.attendances].
  split; [reflexivity|]. split; [|split; [reflexivity|]].
  - intros a. rewrite filter_In, negb_true_iff, Z.eqb_neq. tauto.
  - pose proof (count_filter_negb (fun a => DB.at_date a =? d) (DB.attendances db)).
    unfold count in *. split; [|apply Nat2Z.is_nonneg].
    rewrite <- H. ring.
Qed.

(** [admin_clear_today] removes what [admin_counts] reports for today: the
    number it returns is the [today] of the counts before; after it the
    [today] of the counts is 0 and the [total] is less by that number. *)
Theorem admin_clear_today_counts (today : PyDate.date) (db : DB.t) :
  let before := admin_counts today db in
  let after := admin_counts today (fst (admin_clear_today today db)) in
  snd (admin_clear_today today db) = Ok (counts_today before)
  /\ counts_today after = 0
  /\ counts_total after = counts_total before - counts_today before
  /\ DB.students (fst (admin_clear_today today db)) = DB.students db.
Proof.
  cbv zeta. unfold admin_clear_today, admin_counts.
  cbn [fst snd counts_today counts_total DB.students DB.attendances].
  split; [reflexivity|]. split; [|split; [|reflexivity]].
  - rewrite filter_filter.
    assert (filter (fun x => negb (DB.at_date x =? today) && (DB.at_date x =? today))
                   (DB.attendances db) = []) as ->; [|reflexivity].
    induction (DB.attendances db) as [|a l IH]; simpl; auto.
    destruct (DB.at_date a =? today); simpl; auto.
  - pose proof (count_filter_negb (fun a => DB.at_date a =? today)
                  (DB.attendances db)) as H.
    rewrite <- H. ring.
Qed.



(** ** Counting into a dict *)

Lemma dict_total_set (d : dict) (k : string) (v : Z) :
  dict_total (dict_set d k v) = dict_total d - dict_get d k 0 + v.
Proof.
  unfold dict_total. induction d as [|[k0 v0] d IH]; simpl; [lia|].
  destruct (String.eqb k0 k); simpl; lia.
Qed.

Lemma dict_total_incr (d : dict) (k : string) :
  dict_total (dict_incr d k) = dict_total d + 1.
Proof. unfold dict_incr. rewrite dict_total_set. lia. Qed.

Lemma dict_keys_set (d : dict) (k : string) (v : Z) :
  NoDup (map fst d) -> NoDup (map fst (dict_set d k v)).
Proof.
  intros H.
  assert (map fst (dict_set d k v) = map fst d
          \/ (~ In k (map fst d)
              /\ map fst (dict_set d k v) = (map fst d ++ [k])%list)) as [-> |[Hk ->]];
    auto.
  { clear H. induction d as [|[k0 v0] d IH]; simpl; [right; auto|].
    destruct (String.eqb_spec k0 k) as [-> |Hne]; simpl; [left; reflexivity|].
    destruct IH as [-> |[Hk ->]]; [left; reflexivity|].
    right. split; [|reflexivity]. intros [E|E]; auto. }
  apply NoDup_app; auto.
  - repeat constructor. simpl. tauto.
  - intros x Hx [<-|[]]. auto.
Qed.

Section FoldIncr.
Context {A : Type}.
Variable key : A -> string.

Lemma fold_incr_get (rows : list A) (d : dict) (k : string) :
  dict_get (fold_left (fun agg r => dict_incr agg (key r)) rows d) k 0
  = dict_get d k 0 + count (filter (fun r => String.eqb (key r) k) rows).
Proof.
  revert d. induction rows as [|r rows IH]; intros d; simpl.
  - unfold count. simpl. lia.
  - rewrite IH, dict_get_incr.
    destruct (String.eqb (key r) k); unfold count; simpl List.length; lia.
Qed.

Lemma fold_incr_total (rows : list A) (d : dict) :
  dict_total (fold_left (fun agg r => dict_incr agg (key r)) rows d)
  = dict_total d + count rows.
Proof.
  revert d. induction rows as [|r rows IH]; intros d; simpl.
  - unfold count. simpl. lia.
  - rewrite IH, dict_total_incr. unfold count. simpl List.length. lia.
Qed.

Lemma fold_incr_keys (rows : list A) (d : dict) :
  NoDup (map fst d) ->
  NoDup (map fst (fold_left (fun agg r => dict_incr agg (key r)) rows d)).
Proof.
  revert d. induction rows as [|r rows IH]; intros d H; simpl; auto.
  apply IH. now apply dict_keys_set.
Qed.

End FoldIncr.

(** [metrics_by_grade] counts every attendance of today that has a student
    once: under each grade, with ['Sin grado'] for a student whose grade is
    null or empty, stands the number of those rows with that grade; the
    counters add up to the number of rows; and no key appears twice. *)
Theorem by_grade_counts (today : PyDate.date) (db : DB.t) :
  (forall g, dict_get (metrics_by_grade today db) g 0
             = count (filter (fun r => String.eqb (grade_key (snd r)) g)
                             (by_grade_rows today db)))
  /\ dict_total (metrics_by_grade today db) = count (by_grade_rows today db)
  /\ NoDup (map fst (metrics_by_grade today db))
  /\ (forall g v, In (g, v) (metrics_by_grade today db) -> g <> "").
Proof.
  unfold metrics_by_grade. split; [|split; [|split]].
  - intros g. rewrite (fold_incr_get (fun r => grade_key (snd r))). reflexivity.
  - rewrite (fold_incr_total (fun r => grade_key (snd r))). reflexivity.
  - apply (fold_incr_keys (fun r => grade_key (snd r))). constructor.
  - assert (forall rows d,
              (forall g v, In (g, v) d -> g <> "") ->
              forall g v,
                In (g, v) (fold_left (fun agg (r : DB.Attendance * DB.Student) =>
                                        dict_incr agg (grade_key (snd r))) rows d) ->
                g <> "") as Hgen.
    { induction rows as [|r rows IH]; simpl; intros d Hd; auto.
      apply IH. intros g v Hin.
      assert (In g (map fst d) \/ g = grade_key (snd r)) as [Hg| ->].
      { clear -Hin. unfold dict_incr in Hin.
        generalize (dict_get d (grade_key (snd r)) 0 + 1) as w, Hin. clear Hin.
        induction d as [|[k0 v0] d IH]; simpl; intros w Hin.
        - destruct Hin as [E|[]]. inversion E. auto.
        - destruct (String.eqb_spec k0 (grade_key (snd r))) as [-> |Hne];
            simpl in Hin.
          + destruct Hin as [E|Hin]; [inversion E; auto|].
            left. right. apply in_map_iff. exists (g, v). auto.
          + destruct Hin as [E|Hin]; [inversion E; auto|].
            destruct (IH _ Hin); auto. }
      - apply in_map_iff in Hg. destruct Hg as ([g' v'] & <- & Hin').
        now apply (Hd g' v').
      - unfold grade_key. destruct (DB.st_grade (snd r)) as [[|c s]|];
          discriminate. }
    apply Hgen. intros g v [].
Qed.

(** [metrics_detailed] counts every row once in the histogram and once in
    the gender distribution: the five buckets add up to [count], and so do
    the genders; under each gender, with ['-'] for a null or empty one,
    stands the number of rows of that gender. *)
Theorem detailed_totals
    (start end_ : option PyDate.date) (grade section : option string)
    (db : DB.t) :
  let m := metrics_detailed start end_ grade section db in
  let gender_of := fun r : DB.Attendance * DB.Student =>
    match DB.st_gender (snd r) with
    | Some x => PyStr.or_else x "-"
    | None => "-"
    end in
  detailed_count m = count (detailed_rows start end_ grade section db)
  /\ dict_total (arrival_buckets m) = detailed_count m
  /\ dict_total (gender_distribution m) = detailed_count m
  /\ map fst (arrival_buckets m) = map fst empty_buckets
  /\ (forall g, dict_get (gender_distribution m) g 0
                = count (filter (fun r => String.eqb (gender_of r) g)
                                (detailed_rows start end_ grade section db))).
Proof.
  cbv zeta. unfold metrics_detailed.
  set (rows := detailed_rows start end_ grade section db).
  assert (forall acc,
            fold_left detailed_row rows acc
            = (fold_left (fun agg r =>
                            dict_incr agg
                              match DB.st_gender (snd r) with
                              | Some x => PyStr.or_else x "-"
                              | None => "-"
                              end) rows (fst acc),
               fold_left (fun agg r =>
                            dict_incr agg
                              (arrival_bucket (PyDate.dt_time (DB.at_time (fst r)))))
                         rows (snd acc))) as Hsplit.
  { induction rows as [|r rows IH]; intros [g b]; simpl; [reflexivity|].
    rewrite IH. reflexivity. }
  rewrite Hsplit. cbn [fst snd gender_distribution arrival_buckets detailed_count].
  split; [reflexivity|]. split; [|split; [|split]].
  - rewrite (fold_incr_total
               (fun r : DB.Attendance * DB.Student =>
                  arrival_bucket (PyDate.dt_time (DB.at_time (fst r))))).
    reflexivity.
  - rewrite (fold_incr_total
               (fun r : DB.Attendance * DB.Student =>
                  match DB.st_gender (snd r) with
                  | Some x => PyStr.or_else x "-"
                  | None => "-"
                  end)).
    reflexivity.
  - assert (forall rs d,
              map fst d = map fst empty_buckets ->
              map fst (fold_left
                         (fun agg (r : DB.Attendance * DB.Student) =>
                            dict_incr agg
                              (arrival_bucket (PyDate.dt_time (DB.at_time (fst r)))))
                         rs d) = map fst empty_buckets) as Hkeys.
    { induction rs as [|r rs IH]; simpl; intros d Hd; auto.
      apply IH. etransitivity; [|exact Hd]. unfold dict_incr.
      generalize (dict_get d (arrival_bucket (PyDate.dt_time (DB.at_time (fst r)))) 0 + 1).
      assert (In (arrival_bucket (PyDate.dt_time (DB.at_time (fst r)))) (map fst d))
        as Hin.
      { rewrite Hd. unfold arrival_bucket.
        repeat match goal with
               | |- context [if ?b then _ else _] => destruct b
               end; simpl; tauto. }
      clear Hd. induction d as [|[k0 v0] d IHd]; simpl in *; [tauto|].
      intros z. destruct (String.eqb_spec k0 (arrival_bucket
                             (PyDate.dt_time (DB.at_time (fst r))))) as [E|Hne];
        simpl; [reflexivity|].
      f_equal. apply IHd. destruct Hin; [contradiction|auto]. }
    apply Hkeys. reflexivity.
  - intros g.
    rewrite (fold_incr_get
               (fun r : DB.Attendance * DB.Student =>
                  match DB.st_gender (snd r) with
                  | Some x => PyStr.or_else x "-"
                  | None => "-"
                  end)).
    reflexivity.
Qed.

(** ** Percentages *)

Lemma round_half_even_bounds (q : Q) (lo hi : Z) :
  (inject_Z lo <= q)%Q -> (q <= inject_Z hi)%Q ->
  lo <= PyFloat.round_half_even q <= hi.
Proof.
  intros Hlo Hhi. unfold PyFloat.round_half_even.
  pose proof (Qfloor_le q) as Hf. pose proof (Qlt_floor q) as Hf'.
  assert (lo <= Qfloor q) as H1.
  { assert (lo < Qfloor q + 1); [|lia].
    rewrite Zlt_Qlt. eapply Qle_lt_trans; eauto. }
  assert (Qfloor q <= hi) as H2.
  { rewrite Zle_Qle. eapply Qle_trans; eauto. }
  assert ((q - inject_Z (Qfloor q) ?= 1 # 2)%Q <> Lt -> Qfloor q + 1 <= hi) as H3.
  { intros Hc. destruct (Z.eq_dec (Qfloor q) hi) as [E|]; [|lia].
    exfalso. apply Hc. rewrite <- Qlt_alt. rewrite E.
    apply Qle_lt_trans with (y := 0%Q); [|reflexivity].
    apply (Qplus_le_l _ _ (inject_Z hi)). ring_simplify. exact Hhi. }
  destruct (q - inject_Z (Qfloor q) ?= 1 # 2)%Q eqn:C.
  - destruct (Z.even (Qfloor q)); [lia|].
    specialize (H3 ltac:(discriminate)). lia.
  - lia.
  - specialize (H3 ltac:(discriminate)). lia.
Qed.

Lemma round2_bounds (x : Q) :
  (0 <= x)%Q -> (x <= 100)%Q ->
  (0 <= PyFloat.round2 x)%Q /\ (PyFloat.round2 x <= 100)%Q.
Proof.
  intros H0 H1. unfold PyFloat.round2.
  destruct (round_half_even_bounds (x * 100) 0 10000) as [Ha Hb].
  - destruct x as [a b]. unfold Qle in *. simpl in *. lia.
  - destruct x as [a b]. unfold Qle in *. simpl in *. lia.
  - generalize dependent (PyFloat.round_half_even (x * 100)). intros n Ha Hb.
    unfold Qle, Qdiv, Qmult, Qinv, inject_Z. simpl. lia.
Qed.

Lemma pct_if_bounds (part whole : Z) (x : Q) :
  0 <= part <= whole -> pct_if part whole = Some x ->
  (0 <= x)%Q /\ (x <= 100)%Q.
Proof.
  intros Hp. unfold pct_if, PyFloat.truediv.
  destruct (Z.eqb_spec whole 0) as [E|Hne]; simpl.
  - intros [= <-]. split; discriminate.
  - intros [= <-]. destruct whole as [|w|w]; try lia.
    unfold Qle, Qdiv, Qmult, Qinv, inject_Z. simpl. split; nia.
Qed.

Lemma count_nonneg {A : Type} (l : list A) : 0 <= count l.
Proof. unfold count. lia. Qed.

Lemma count_filter_le {A : Type} (p : A -> bool) (l : list A) :
  count (filter p l) <= count l.
Proof.
  unfold count. apply inj_le. induction l as [|x l IH]; simpl; auto.
  destruct (p x); simpl; lia.
Qed.

(** The students counted by a [.distinct().count()] over joined rows of a
    group are students of the group. *)
Lemma distinct_le_students db (grade section : option string)
    (p : DB.Attendance * DB.Student -> bool) :
  (forall r, p r = true -> in_group grade section (snd r) = true) ->
  0 <= distinct_count
         (map (fun r => DB.at_student_id (fst r)) (filter p (join_student db)))
    <= count (filter (in_group grade section) (DB.students db)).
Proof.
  intros Hp. unfold distinct_count. split; [apply count_nonneg|].
  unfold count. apply inj_le.
  rewrite <- (length_map DB.st_id (filter _ (DB.students db))).
  apply NoDup_incl_length; [apply NoDup_nodup|].
  intros z Hz. apply nodup_In, in_map_iff in Hz.
  destruct Hz as ([a st] & <- & Hin). apply filter_In in Hin.
  destruct Hin as [Hj Hr]. apply in_join_student in Hj.
  destruct Hj as (_ & Hst & E). simpl. rewrite <- E.
  apply in_map. apply filter_In. split; auto. exact (Hp _ Hr).
Qed.

(** Every percentage of [metrics_summary] is between 0 and 100, for any
    tables, period, range and filters. *)
Theorem summary_percentages_bounded
    (period grade section : option string) (start end_ : option PyDate.date)
    (today : PyDate.date) (db : DB.t) :
  exists r,
    metrics_summary period grade section start end_ today db = Some r
    /\ (0 <= punctuality_pct r)%Q /\ (punctuality_pct r <= 100)%Q
    /\ (0 <= late_pct r)%Q /\ (late_pct r <= 100)%Q
    /\ (0 <= absent_pct r)%Q /\ (absent_pct r <= 100)%Q
    /\ 0 <= records_total r /\ 0 <= students_total r.
Proof.
  unfold metrics_summary.
  match goal with
  | |- context [let '(_, _) := ?m in _] => destruct m as [s e]
  end.
  set (q := filter _ (join_student db)).
  set (n := count (filter (in_group grade section) (DB.students db))).
  destruct (pct_if_total (count (filter (fun r => status_is "Puntual" (fst r)) q))
              (count q)) as [x Hx].
  destruct (pct_if_total (count (filter (fun r => status_is "Tarde" (fst r)) q))
              (count q)) as [y Hy].
  assert (exists z,
            match s, e with
            | Some _, Some _ =>
                pct_if (n - distinct_count
                              (map (fun r => DB.at_student_id (fst r)) q)) n
            | _, _ =>
                pct_if (n - distinct_count
                              (map (fun r => DB.at_student_id (fst r))
                                   (filter (fun r => in_group grade section (snd r))
                                           (join_student db)))) n
            end = Some z /\ (0 <= z)%Q /\ (z <= 100)%Q) as (z & Hz & Hz0 & Hz1).
  { assert (forall p : DB.Attendance * DB.Student -> bool,
              (forall r, p r = true -> in_group grade section (snd r) = true) ->
              exists z,
                pct_if (n - distinct_count
                              (map (fun r => DB.at_student_id (fst r))
                                   (filter p (join_student db)))) n = Some z
                /\ (0 <= z)%Q /\ (z <= 100)%Q) as Hgen.
    { intros p Hp. destruct (pct_if_total
                               (n - distinct_count
                                      (map (fun r => DB.at_student_id (fst r))
                                           (filter p (join_student db)))) n)
        as [z Hz].
      exists z. split; auto. eapply pct_if_bounds; [|exact Hz].
      pose proof (distinct_le_students db grade section p Hp). subst n. lia. }
    assert (forall r : DB.Attendance * DB.Student,
              from_start s (fst r) && to_end e (fst r)
              && in_group grade section (snd r) = true ->
              in_group grade section (snd r) = true) as Hq
      by (intros r H; apply andb_true_iff in H; tauto).
    destruct s, e; subst q; auto. }
  rewrite Hx, Hy. simpl. subst q n. rewrite Hz. simpl.
  eexists. split; [reflexivity|]. simpl.
  destruct (round2_bounds x) as [? ?];
    [eapply pct_if_bounds; [|exact Hx]; split;
       [apply count_nonneg|apply count_filter_le]..|].
  destruct (round2_bounds y) as [? ?];
    [eapply pct_if_bounds; [|exact Hy]; split;
       [apply count_nonneg|apply count_filter_le]..|].
  destruct (round2_bounds z Hz0 Hz1) as [? ?].
  repeat split; auto; apply count_nonneg.
Qed.

(** ** The week *)




Example weekly_class_of_five_ex :
  option_map (fun w => (labels w, map Qred (attendance_pct w)))
    (metrics_weekly Sample.monday (run Sample.class_of_five))
  = Some (["Tue"; "Wed"; "Thu"; "Fri"; "Sat"; "Sun"; "Mon"],
          [0; 0; 0; 0; 0; 0; 40 # 1]%Q).
Proof. vm_compute. reflexivity. Qed.

(** ** Periods *)

(** A named period is shorthand for a range: it is read only when neither
    bound is given, ["day"] is today alone, and ["week"] is the seven days
    from the Monday on or before today to the Sunday after it. *)
Theorem summary_period_shorthand
    (period grade section : option string) (start end_ : option PyDate.date)
    (bound today : PyDate.date) (db : DB.t) :
  metrics_summary period grade section (Some bound) end_ today db
  = metrics_summary None grade section (Some bound) end_ today db
  /\ metrics_summary period grade section start (Some bound) today db
     = metrics_summary None grade section start (Some bound) today db
  /\ metrics_summary (Some "day") grade section None None today db
     = metrics_summary None grade section (Some today) (Some today) today db
  /\ exists monday,
       metrics_summary (Some "week") grade section None None today db
       = metrics_summary None grade section (Some monday) (Some (monday + 6))
           today db
       /\ PyDate.weekday monday = 0 /\ PyDate.weekday (monday + 6) = 6
       /\ monday <= today <= monday + 6.
Proof.
  split; [destruct period; reflexivity|].
  split; [destruct period, start; reflexivity|].
  split; [reflexivity|].
  exists (today - PyDate.weekday today). split; [reflexivity|].
  unfold PyDate.weekday. repeat split; Z.div_mod_to_equations; lia.
Qed.

(** ** The join with the students *)

Lemma join_fst_of (students : list DB.Student) (l : list DB.Attendance) :
  NoDup (map DB.st_id students) ->
  (forall a, In a l ->
     exists st, In st students /\ DB.st_id st = DB.at_student_id a) ->
  map fst
    (flat_map (fun a => map (fun st => (a, st))
                          (filter (fun st => DB.st_id st =? DB.at_student_id a)
                                  students)) l) = l.
Proof.
  intros Hpk. induction l as [|a l IH]; intros Hfk; simpl; [reflexivity|].
  rewrite map_app, IH by (intros x Hx; apply Hfk; now right).
  destruct (Hfk a (or_introl eq_refl)) as (st & Hst & E).
  assert (filter (fun st => DB.st_id st =? DB.at_student_id a) students = [st])
    as ->.
  { apply length_le_1_In.
    - apply (NoDup_map_filter_le_1 DB.st_id Z.eqb); auto.
      intros b. apply Z.eqb_eq.
    - apply filter_In. split; auto. now apply Z.eqb_eq. }
  reflexivity.
Qed.

Lemma join_fst db :
  Inv db -> fk_attendance_student db ->
  map fst (join_student db) = DB.attendances db.
Proof.
  intros HI Hfk. apply join_fst_of; auto. apply HI.
Qed.

Lemma filter_map_fst {A B : Type} (p : A -> bool) (l : list (A * B)) :
  map fst (filter (fun r => p (fst r)) l) = filter p (map fst l).
Proof.
  induction l as [|[a b] l IH]; simpl; auto.
  destruct (p a); simpl; now rewrite IH.
Qed.

Lemma filter_all {A : Type} (p : A -> bool) (l : list A) :
  (forall x, p x = true) -> filter p l = l.
Proof.
  intros H. induction l as [|x l IH]; simpl; auto. now rewrite H, IH.
Qed.

(** ** Latest first *)

Lemma datetime_gtb_iff (a b : PyDate.datetime) :
  PyDate.datetime_gtb a b = true
  <-> (PyDate.dt_date b < PyDate.dt_date a
       \/ (PyDate.dt_date b = PyDate.dt_date a
           /\ PyDate.time_ltb (PyDate.dt_time b) (PyDate.dt_time a) = true)).
Proof.
  unfold PyDate.datetime_gtb.
  rewrite orb_true_iff, andb_true_iff, Z.ltb_lt, Z.eqb_eq. tauto.
Qed.

Lemma datetime_geb_total (a b : PyDate.datetime) :
  datetime_geb a b = false -> datetime_geb b a = true.
Proof.
  unfold datetime_geb. rewrite negb_false_iff, negb_true_iff.
  intros H. apply datetime_gtb_iff in H.
  destruct (PyDate.datetime_gtb a b) eqn:E; auto.
  apply datetime_gtb_iff in E. rewrite !time_ltb_iff in *. lia.
Qed.

Lemma datetime_geb_trans (a b c : PyDate.datetime) :
  datetime_geb a b = true -> datetime_geb b c = true -> datetime_geb a c = true.
Proof.
  unfold datetime_geb. rewrite !negb_true_iff.
  intros H1 H2. destruct (PyDate.datetime_gtb c a) eqn:E; auto. exfalso.
  apply datetime_gtb_iff in E.
  assert (~ PyDate.datetime_gtb b a = true) as N1 by congruence.
  assert (~ PyDate.datetime_gtb c b = true) as N2 by congruence.
  rewrite datetime_gtb_iff in N1, N2. rewrite !time_ltb_iff in *. lia.
Qed.

Lemma In_firstn {A : Type} (n : nat) (l : list A) (x : A) :
  In x (firstn n l) -> In x l.
Proof.
  revert l. induction n as [|n IH]; intros [|y l]; simpl; try tauto.
  intros [H|H]; auto.
Qed.

Section OrderBy.
Context {A : Type}.
Variable key : A -> PyDate.datetime.

Lemma insert_desc_perm (x : A) (l : list A) :
  Permutation (x :: l) (insert_desc key x l).
Proof.
  induction l as [|y l IH]; simpl; auto.
  destruct (datetime_geb (key x) (key y)); auto.
  rewrite perm_swap. now constructor.
Qed.

Lemma order_by_desc_perm (l : list A) : Permutation l (order_by_desc key l).
Proof.
  induction l as [|x l IH]; simpl; auto.
  rewrite <- insert_desc_perm. now constructor.
Qed.

Lemma insert_desc_sorted (x : A) (l : list A) :
  StronglySorted (latest_first key) l ->
  StronglySorted (latest_first key) (insert_desc key x l).
Proof.
  induction 1 as [|y l Hs IH Hy]; simpl.
  - repeat constructor.
  - destruct (datetime_geb (key x) (key y)) eqn:E.
    + constructor; [now constructor|]. constructor; auto.
      rewrite Forall_forall in *. intros z Hz.
      unfold latest_first in *. eapply datetime_geb_trans; eauto.
    + constructor; auto. rewrite Forall_forall in *. intros z Hz.
      apply (Permutation_in _ (Permutation_sym (insert_desc_perm x l))) in Hz.
      destruct Hz as [<-|Hz]; auto.
      unfold latest_first. now apply datetime_geb_total.
Qed.

Lemma order_by_desc_sorted (l : list A) :
  StronglySorted (latest_first key) (order_by_desc key l).
Proof.
  induction l as [|x l IH]; simpl; [constructor|].
  now apply insert_desc_sorted.
Qed.

Lemma firstn_sorted (n : nat) (l : list A) :
  StronglySorted (latest_first key) l ->
  StronglySorted (latest_first key) (firstn n l).
Proof.
  intros H. revert n. induction H as [|x l Hs IH Hx]; intros [|n]; simpl;
    try constructor; auto.
  rewrite Forall_forall in *. intros y Hy. apply Hx.
  eapply In_firstn; eauto.
Qed.

(** The rows of [.order_by(key.desc()).limit(n)]: latest first, at most
    [n], all of them when there are no more than [n], and led by a row
    that no row of the table is later than. *)
Lemma limit_order_by_spec (n : Z) (l : list A) :
  0 <= n ->
  let rows := limit_rows n (order_by_desc key l) in
  StronglySorted (latest_first key) rows
  /\ (forall x, In x rows -> In x l)
  /\ count rows = Z.min n (count l)
  /\ (1 <= n -> forall x, In x l ->
      exists h t, rows = h :: t /\ latest_first key h x).
Proof.
  intros Hn. cbv zeta. unfold limit_rows.
  pose proof (order_by_desc_perm l) as P.
  pose proof (order_by_desc_sorted l) as S.
  split; [now apply firstn_sorted|]. split; [|split].
  - intros x Hx. apply In_firstn in Hx.
    now apply (Permutation_in _ (Permutation_sym P)).
  - unfold count. rewrite length_firstn, <- (Permutation_length P). lia.
  - intros H1 x Hx. apply (Permutation_in _ P) in Hx.
    destruct (order_by_desc key l) as [|h t]; [destruct Hx|].
    destruct (Z.to_nat n) as [|k] eqn:Ek; [lia|]. simpl.
    exists h, (firstn k t). split; [reflexivity|].
    inversion S as [|? ? _ Hh]; subst. destruct Hx as [<-|Hx].
    + unfold latest_first, datetime_geb.
      destruct (PyDate.datetime_gtb (key h) (key h)) eqn:E; auto.
      apply datetime_gtb_iff in E. rewrite time_ltb_iff in E. lia.
    + rewrite Forall_forall in Hh. now apply Hh.
Qed.

End OrderBy.

(** ** Listings *)

(** [student_attendance_history] within the bounds of the route, a key from
    1 that SQLite holds and a limit from 1 to 500: a key that no student has
    is answered 404. For a student, the list is made of attendances of that
    student, latest first, as many as the limit or all of them if they are
    fewer, and it starts with the student's latest. *)
Theorem history_latest_first (student_id limit : Z) (db : DB.t) :
  1 <= student_id -> DB.int64 student_id -> 1 <= limit <= 500 ->
  (DB.get_student db student_id = None ->
   student_attendance_history student_id limit db
   = HTTPException 404 "No encontrado")
  /\ (forall st, DB.get_student db student_id = Some st ->
      let rows := history_rows student_id limit db in
      let theirs := filter (fun a => DB.at_student_id a =? student_id)
                           (DB.attendances db) in
      student_attendance_history student_id limit db
      = Ok (map history_row_of rows)
      /\ StronglySorted (latest_first DB.at_time) rows
      /\ (forall a, In a rows ->
            In a (DB.attendances db) /\ DB.at_student_id a = student_id)
      /\ count rows = Z.min limit (count theirs)
      /\ (forall a, In a theirs ->
            exists h t, rows = h :: t /\ latest_first DB.at_time h a)).
Proof.
  intros _ _ [Hl _].
  unfold student_attendance_history. split; [intros ->; reflexivity|].
  intros st ->. cbv zeta. unfold history_rows.
  destruct (limit_order_by_spec DB.at_time limit
              (filter (fun a => DB.at_student_id a =? student_id)
                      (DB.attendances db)) ltac:(lia))
    as (S & Hin & Hc & Hh).
  split; [reflexivity|]. split; [exact S|]. split; [|split; [exact Hc|]].
  - intros a Ha. apply Hin, filter_In in Ha. rewrite Z.eqb_eq in Ha. exact Ha.
  - intros a Ha. now apply Hh.
Qed.

Lemma history_latest_first_luis :
  1 <= 2 /\ DB.int64 2 /\ 1 <= 30 <= 500
  /\ student_attendance_history 2 30 (run Sample.morning)
     = Ok [history_row_of Sample.luis_record]
  /\ student_attendance_history 9 30 (run Sample.morning)
     = HTTPException 404 "No encontrado"
  /\ count (history_rows 2 30 (run Sample.morning)) = 1.
Proof.
  assert (DB.int64 2) as H2 by (unfold DB.int64; lia).
  assert (DB.int64 9) as H9 by (unfold DB.int64; lia).
  destruct (history_latest_first 2 30 (run Sample.morning)
              ltac:(lia) H2 ltac:(lia)) as [_ H].
  destruct (H (DB.mk_student 2 "luis" "luis" None None None None None))
    as (E & _ & _ & Hc & _); [vm_compute; reflexivity|].
  destruct (history_latest_first 9 30 (run Sample.morning)
              ltac:(lia) H9 ltac:(lia)) as [Hn _].
  split; [lia|]. split; [exact H2|]. split; [lia|].
  split; [rewrite E; vm_compute; reflexivity|].
  split; [apply Hn; vm_compute; reflexivity|].
  rewrite Hc. vm_compute. reflexivity.
Defined.

(** [attendance_today] lists, latest first, one item for each attendance
    of today that has a student, and nothing else. *)
Theorem attendance_today_lists_today (today : PyDate.date) (db : DB.t) :
  exists rows,
    attendance_today today db = map today_row_of rows
    /\ StronglySorted (latest_first (fun r => DB.at_time (fst r))) rows
    /\ Permutation rows
         (filter (fun r => DB.at_date (fst r) =? today) (join_student db))
    /\ (forall att st,
          In (att, st) rows
          <-> In att (DB.attendances db) /\ In st (DB.students db)
              /\ DB.st_id st = DB.at_student_id att /\ DB.at_date att = today).
Proof.
  unfold attendance_today.
  set (l := filter (fun r => DB.at_date (fst r) =? today) (join_student db)).
  exists (order_by_desc (fun r => DB.at_time (fst r)) l).
  pose proof (order_by_desc_perm (fun r : DB.Attendance * DB.Student =>
                                    DB.at_time (fst r)) l) as P.
  split; [reflexivity|]. split; [apply order_by_desc_sorted|].
  split; [now apply Permutation_sym|].
  intros att st. split.
  - intros H. apply (Permutation_in _ (Permutation_sym P)) in H.
    subst l. apply filter_In in H. destruct H as [Hj Hd].
    apply in_join_student in Hj. simpl in Hd. apply Z.eqb_eq in Hd. tauto.
  - intros (Ha & Hs & E & Hd). apply (Permutation_in _ P).
    subst l. apply filter_In. split.
    + apply in_join_student. auto.
    + simpl. now apply Z.eqb_eq.
Qed.

(** [attendance_recent], for a limit of at least 1: items of attendances
    that have a student, latest first, as many as the limit or all of them
    if they are fewer. *)
Theorem attendance_recent_latest_first (limit : Z) (db : DB.t) :
  1 <= limit ->
  exists rows,
    attendance_recent limit db = map recent_row_of rows
    /\ StronglySorted (latest_first (fun r => DB.at_time (fst r))) rows
    /\ (forall r, In r rows -> In r (join_student db))
    /\ count rows = Z.min limit (count (join_student db))
    /\ (forall r, In r (join_student db) ->
          exists h t, rows = h :: t
                      /\ latest_first (fun r => DB.at_time (fst r)) h r).
Proof.
  intros Hl. unfold attendance_recent.
  destruct (limit_order_by_spec (fun r : DB.Attendance * DB.Student =>
                                   DB.at_time (fst r)) limit (join_student db)
              ltac:(lia)) as (S & Hin & Hc & Hh).
  eexists. split; [reflexivity|]. split; [exact S|]. split; [exact Hin|].
  split; [exact Hc|]. intros r Hr. now apply Hh.
Qed.

Lemma attendance_recent_latest_first_morning :
  1 <= 1
  /\ exists rows,
       attendance_recent 1 (run Sample.morning) = map recent_row_of rows
       /\ StronglySorted (latest_first (fun r => DB.at_time (fst r))) rows
       /\ (forall r, In r rows -> In r (join_student (run Sample.morning)))
       /\ count rows = Z.min 1 (count (join_student (run Sample.morning)))
       /\ (forall r, In r (join_student (run Sample.morning)) ->
             exists h t, rows = h :: t
                         /\ latest_first (fun r => DB.at_time (fst r)) h r).
Proof.
  split; [lia|].
  apply (attendance_recent_latest_first 1 (run Sample.morning)). lia.
Defined.

(** A face that [attendance_mark] marks is on the list of today: after a
    marked answer for a code, [attendance_today] of the clock's day has an
    item of a student of that code, made of the attendance that the answer
    carries. *)
Theorem marked_then_listed_today
    (env : option Q) (clk : clock) (form : mark_form) (df : option dataframe)
    (db db' : DB.t) (body : json) (code : string) (d : Q) :
  reachable db ->
  attendance_mark env clk form df db = (db', Ok body) ->
  decision_of (Ok body) = Some (Accepted code d) ->
  exists st att,
    In (today_row_of (att, st)) (attendance_today (clk_today clk) db')
    /\ DB.st_code st = code
    /\ tr_code (today_row_of (att, st)) = code
    /\ tr_status (today_row_of (att, st)) = DB.at_status att
    /\ json_get "attendance" body = Some (attendance_body att).
Proof.
  intros Hr E D.
  assert (json_get "status" body = Some (JStr "marked")) as Hm.
  { unfold decision_of in D.
    destruct (json_get "status" body) as [[s| |]|]; try discriminate.
    destruct (String.eqb s "unknown") eqn:Eu.
    - destruct (json_get "reason" body) as [[?| |]|],
        (json_get "distance" body) as [[?| |]|],
        (json_get "margin" body) as [[?| |]|]; try discriminate;
        destruct (String.eqb _ _) in D; discriminate.
    - destruct (String.eqb_spec s "marked") as [->|]; [reflexivity|discriminate]. }
  destruct (attendance_mark_marked _ _ _ _ _ _ _ E Hm)
    as (rows & best & rest & st & att & _ & _ & M & ->).
  destruct (mark_student_post clk
              (PyStr.basename (PyStr.dirname (identity best))) db
              (reachable_Inv db Hr))
    as (db1 & st1 & att1 & M1 & _ & Hcode & Hin & Hrec & _).
  rewrite M in M1. inversion M1; subst db1 st1 att1. clear M1.
  simpl in D. inversion D as [[Ec Ed]].
  exists st, att. split; [|repeat split; auto].
  unfold attendance_today. apply in_map.
  apply (Permutation_in _ (order_by_desc_perm _ _)).
  assert (In att (records_of (DB.st_id st) (clk_today clk) db')) as Ha
    by (rewrite Hrec; now left).
  apply filter_In in Ha. destruct Ha as [Ha Hp].
  apply andb_true_iff in Hp. destruct Hp as [Hs Hd].
  apply filter_In. split; [|exact Hd].
  apply in_join_student. apply Z.eqb_eq in Hs. auto.
Qed.

Lemma marked_then_listed_today_ana :
  reachable DB.empty
  /\ attendance_mark None (Sample.at_time 7 30 0) Sample.form
       (Some Sample.sees_ana) DB.empty = (Sample.ana_tables, Ok Sample.ana_body)
  /\ decision_of (Ok Sample.ana_body) = Some (Accepted "ana" (40 # 100))
  /\ exists st att,
       In (today_row_of (att, st))
          (attendance_today (clk_today (Sample.at_time 7 30 0)) Sample.ana_tables)
       /\ DB.st_code st = "ana"
       /\ tr_code (today_row_of (att, st)) = "ana"
       /\ tr_status (today_row_of (att, st)) = DB.at_status att
       /\ json_get "attendance" Sample.ana_body = Some (attendance_body att).
Proof.
  assert (attendance_mark None (Sample.at_time 7 30 0) Sample.form
            (Some Sample.sees_ana) DB.empty
          = (Sample.ana_tables, Ok Sample.ana_body)) as E
    by (vm_compute; reflexivity).
  split; [constructor|]. split; [exact E|]. split; [reflexivity|].
  exact (marked_then_listed_today None (Sample.at_time 7 30 0) Sample.form
           (Some Sample.sees_ana) DB.empty Sample.ana_tables Sample.ana_body
           "ana" (40 # 100) reachable_empty E eq_refl).
Defined.

(** ** Keys are used again *)


(** ** The listings on the school morning *)

Example attendance_today_morning_ex :
  map (fun r => (tr_code r, tr_date r, tr_time r, tr_status r))
      (attendance_today Sample.monday (run Sample.morning))
  = [("luis", "2025-03-10", "07:40:00", "Tarde");
     ("ana", "2025-03-10", "07:10:00", "Puntual")]
  /\ student_attendance_history 1 30 (run Sample.morning)
     = Ok [mk_history_row "2025-03-10" "07:10:00" "Puntual"]
  /\ student_attendance_history 7 30 (run Sample.morning)
     = HTTPException 404 "No encontrado"
  /\ metrics_by_grade Sample.monday (run Sample.morning) = [("Sin grado", 2)]
  /\ metrics_by_grade Sample.monday (run Sample.class_of_five) = [("5", 2)]
  /\ admin_counts Sample.monday (run Sample.morning)
     = mk_counts 2 2 "2025-03-10".
Proof. vm_compute. repeat split. Qed.

(** * Properties over doubles *)

(** ** The order of doubles *)

Lemma SFleb_trans (a b c : spec_float) :
  SFleb a b = true -> SFleb b c = true -> SFleb a c = true.
Proof.
  unfold SFleb, SFcompare.
  destruct a as [[]|[]| |[] ma ea], b as [[]|[]| |[] mb eb],
           c as [[]|[]| |[] mc ec];
    try reflexivity; try discriminate;
    change (Pos.compare_cont Eq ma mb) with (Pos.compare ma mb);
    change (Pos.compare_cont Eq mb mc) with (Pos.compare mb mc);
    change (Pos.compare_cont Eq ma mc) with (Pos.compare ma mc);
    destruct (Z.compare_spec ea eb), (Z.compare_spec eb ec),
             (Z.compare_spec ea ec);
    try reflexivity; try discriminate; try lia;
    destruct (Pos.compare_spec ma mb), (Pos.compare_spec mb mc),
             (Pos.compare_spec ma mc);
    simpl; try reflexivity; try discriminate; lia.
Qed.

Lemma SFleb_total (a b : spec_float) :
  SFeqb a a = true -> SFeqb b b = true -> SFleb a b = false -> SFleb b a = true.
Proof.
  unfold SFleb, SFeqb, SFcompare.
  destruct a as [[]|[]| |[] ma ea], b as [[]|[]| |[] mb eb];
    try reflexivity; try discriminate; intros _ _;
    change (Pos.compare_cont Eq ma mb) with (Pos.compare ma mb);
    change (Pos.compare_cont Eq mb ma) with (Pos.compare mb ma);
    destruct (Z.compare_spec ea eb), (Z.compare_spec eb ea);
    try reflexivity; try discriminate; try lia;
    destruct (Pos.compare_spec ma mb), (Pos.compare_spec mb ma);
    simpl; try reflexivity; try discriminate; lia.
Qed.

Lemma leb_trans (x y z : float) :
  PrimFloat.leb x y = true -> PrimFloat.leb y z = true -> PrimFloat.leb x z = true.
Proof. rewrite !leb_spec. apply SFleb_trans. Qed.

Lemma leb_total (x y : float) :
  PrimFloat.is_nan x = false -> PrimFloat.is_nan y = false ->
  PrimFloat.leb x y = false -> PrimFloat.leb y x = true.
Proof.
  unfold PrimFloat.is_nan. rewrite !negb_false_iff, !eqb_spec, !leb_spec.
  apply SFleb_total.
Qed.

(** ** The frame sorted *)

Lemma b64_sort_insert_perm c l :
  Permutation (c :: l) (Binary64.sort_insert c l).
Proof.
  induction l as [|x r IH]; simpl; auto.
  destruct (Binary64.before c x); auto.
  rewrite perm_swap. now constructor.
Qed.

Lemma b64_sort_values_perm df : Permutation df (Binary64.sort_values df).
Proof.
  induction df as [|c r IH]; simpl; auto.
  rewrite <- b64_sort_insert_perm. now constructor.
Qed.

Lemma b64_sort_values_cons c l :
  exists x r, Binary64.sort_values (c :: l) = x :: r.
Proof.
  simpl. destruct (Binary64.sort_values l) as [|y t]; simpl; eauto.
  destruct (Binary64.before c y); eauto.
Qed.

Lemma b64_sort_insert_sorted c l :
  PrimFloat.is_nan (Binary64.distance c) = false -> Binary64.no_nan l ->
  StronglySorted Binary64.by_distance l ->
  StronglySorted Binary64.by_distance (Binary64.sort_insert c l).
Proof.
  intros Hc Hl S. induction S as [|x r S IH Hx]; simpl.
  - repeat constructor.
  - assert (PrimFloat.is_nan (Binary64.distance x) = false) as Hnx
      by (apply Hl; now left).
    unfold Binary64.before. rewrite Hnx, Hc. simpl.
    destruct (PrimFloat.leb (Binary64.distance c) (Binary64.distance x)) eqn:E.
    + constructor; [now constructor|]. constructor; [exact E|].
      rewrite Forall_forall in *. intros y Hy.
      unfold Binary64.by_distance in *. eapply leb_trans; eauto.
    + constructor.
      * apply IH. intros y Hy. apply Hl. now right.
      * rewrite Forall_forall in *. intros y Hy.
        apply (Permutation_in _ (Permutation_sym (b64_sort_insert_perm c r))) in Hy.
        destruct Hy as [<-|Hy]; [|now apply Hx].
        unfold Binary64.by_distance. now apply leb_total.
Qed.

Lemma b64_sort_values_sorted df :
  Binary64.no_nan df -> StronglySorted Binary64.by_distance (Binary64.sort_values df).
Proof.
  induction df as [|c r IH]; simpl; intros Hn; [constructor|].
  apply b64_sort_insert_sorted.
  - apply Hn. now left.
  - intros y Hy. apply Hn. right.
    now apply (Permutation_in _ (Permutation_sym (b64_sort_values_perm r))).
  - apply IH. intros y Hy. apply Hn. now right.
Qed.

(** The decision once the frame is sorted. *)
Lemma b64_decide_sorted thr clk form c rows best rest db :
  Binary64.sort_values (c :: rows) = best :: rest ->
  Binary64.decide thr clk form (Some (c :: rows)) db
  = let accepted :=
      match mark_student clk
              (PyStr.basename (PyStr.dirname (Binary64.identity best))) db with
      | (db', Ok (student, att)) =>
          (db', Ok (Binary64.marked_body student att (Binary64.distance best) form))
      | (db', HTTPException c d) => (db', HTTPException c d)
      | (db', Raised e) => (db', Raised e)
      end in
    if PrimFloat.ltb thr (Binary64.distance best)
    then (db, Ok (Binary64.above_threshold_body (Binary64.distance best)))
    else match rest with
         | second :: _ =>
             if PrimFloat.ltb
                  (PrimFloat.sub (Binary64.distance second) (Binary64.distance best))
                  (Binary64.min_margin form)
             then (db, Ok (Binary64.low_margin_body (Binary64.distance best)
                             (Binary64.distance second)))
             else accepted
         | [] => accepted
         end.
Proof.
  intros Es. unfold Binary64.decide. rewrite Es. cbv beta iota zeta.
  destruct (PrimFloat.ltb _ (Binary64.distance best)); auto.
  destruct rest as [|second rest']; auto.
Qed.

Lemma b64_attendance_mark_frame env clk form engine thr df db :
  Binary64.eff_max_distance env form = Some thr ->
  Binary64.frame engine = inr df ->
  Binary64.attendance_mark env clk form engine db
  = Binary64.decide thr clk form df db.
Proof.
  intros Et Ef. unfold Binary64.attendance_mark. now rewrite Et, Ef.
Qed.

(** C3. For a frame with rows, sorted by distance into a first row [best]
    and the rest (ascending, when every row has a distance): a best distance
    above the threshold gives the unknown outcome [above_threshold] with the
    best distance, whatever the margin; else a second row whose distance
    less the best is below [min_margin] gives the unknown outcome
    [low_margin] with the best distance and that difference; else the
    identity of the best row is accepted with its distance.  The
    comparisons and the difference are those of doubles. *)
Theorem resolver_decision
    (env : Binary64.face_max_distance) (clk : clock) (form : Binary64.mark_form)
    (engine : Binary64.found) (rows : Binary64.dataframe) (thr : float)
    (db : DB.t) :
  Inv db -> rows <> [] ->
  Binary64.eff_max_distance env form = Some thr ->
  Binary64.frame engine = inr (Some rows) ->
  exists best rest,
    Binary64.sort_values rows = best :: rest
    /\ Permutation rows (best :: rest)
    /\ (Binary64.no_nan rows ->
        StronglySorted Binary64.by_distance (best :: rest))
    /\ let best_dist := Binary64.distance best in
       let code := PyStr.basename (PyStr.dirname (Binary64.identity best)) in
       let r := Binary64.attendance_mark env clk form engine db in
       (PrimFloat.ltb thr best_dist = true ->
          r = (db, Ok (Binary64.above_threshold_body best_dist))
          /\ Binary64.decision_of (snd r)
             = Some (Binary64.Unknown_AboveThreshold best_dist))
       /\ (forall second rest',
             PrimFloat.ltb thr best_dist = false -> rest = second :: rest' ->
             PrimFloat.ltb (PrimFloat.sub (Binary64.distance second) best_dist)
               (Binary64.min_margin form) = true ->
             r = (db, Ok (Binary64.low_margin_body best_dist
                            (Binary64.distance second)))
             /\ Binary64.decision_of (snd r)
                = Some (Binary64.Unknown_LowMargin best_dist
                          (PrimFloat.sub (Binary64.distance second) best_dist)))
       /\ (PrimFloat.ltb thr best_dist = false ->
           (forall second rest',
              rest = second :: rest' ->
              PrimFloat.ltb (PrimFloat.sub (Binary64.distance second) best_dist)
                (Binary64.min_margin form) = false) ->
           exists st att,
             DB.st_code st = code
             /\ snd r = Ok (Binary64.marked_body st att best_dist form)
             /\ Binary64.decision_of (snd r)
                = Some (Binary64.Accepted code best_dist)).
Proof.
  intros HI Hne Et Ef. destruct rows as [|c rows]; [congruence|].
  destruct (b64_sort_values_cons c rows) as (best & rest & Es).
  exists best, rest. split; [exact Es|].
  split; [rewrite <- Es; apply b64_sort_values_perm|].
  split; [intros Hn; rewrite <- Es; now apply b64_sort_values_sorted|].
  cbv zeta. rewrite (b64_attendance_mark_frame _ _ _ _ _ _ _ Et Ef).
  rewrite (b64_decide_sorted _ _ _ _ _ _ _ _ Es). cbv zeta.
  split; [|split].
  - intros Habove. rewrite Habove. auto.
  - intros second rest' Hle -> Hlow. rewrite Hle, Hlow. auto.
  - intros Hle Hmargin. rewrite Hle.
    destruct (mark_student_post clk
                (PyStr.basename (PyStr.dirname (Binary64.identity best))) db HI)
      as (db' & st & att & E & _ & Hcode & _).
    assert (forall x,
              x = (db', Ok (Binary64.marked_body st att (Binary64.distance best) form)) ->
              exists st0 att0,
                DB.st_code st0
                = PyStr.basename (PyStr.dirname (Binary64.identity best))
                /\ snd x = Ok (Binary64.marked_body st0 att0
                                 (Binary64.distance best) form)
                /\ Binary64.decision_of (snd x)
                   = Some (Binary64.Accepted
                             (PyStr.basename (PyStr.dirname (Binary64.identity best)))
                             (Binary64.distance best))) as Hacc.
    { intros x ->. exists st, att. simpl. rewrite Hcode. auto. }
    destruct rest as [|second rest'].
    + apply Hacc. rewrite E. reflexivity.
    + rewrite (Hmargin second rest' eq_refl). apply Hacc. rewrite E. reflexivity.
Qed.

Lemma resolver_decision_twins :
  Inv DB.empty /\ Binary64.Sample.sees_twins <> []
  /\ Binary64.eff_max_distance Binary64.EnvUnset Binary64.Sample.form
     = Some 1.2%float
  /\ Binary64.frame (Binary64.FindList [Some Binary64.Sample.sees_twins])
     = inr (Some Binary64.Sample.sees_twins)
  /\ exists best rest,
       Binary64.sort_values Binary64.Sample.sees_twins = best :: rest
       /\ Permutation Binary64.Sample.sees_twins (best :: rest)
       /\ (Binary64.no_nan Binary64.Sample.sees_twins ->
           StronglySorted Binary64.by_distance (best :: rest))
       /\ let best_dist := Binary64.distance best in
          let code := PyStr.basename (PyStr.dirname (Binary64.identity best)) in
          let r := Binary64.attendance_mark Binary64.EnvUnset
                     (Sample.at_time 7 10 0) Binary64.Sample.form
                     (Binary64.FindList [Some Binary64.Sample.sees_twins])
                     DB.empty in
          (PrimFloat.ltb 1.2 best_dist = true ->
             r = (DB.empty, Ok (Binary64.above_threshold_body best_dist))
             /\ Binary64.decision_of (snd r)
                = Some (Binary64.Unknown_AboveThreshold best_dist))
          /\ (forall second rest',
                PrimFloat.ltb 1.2 best_dist = false -> rest = second :: rest' ->
                PrimFloat.ltb (PrimFloat.sub (Binary64.distance second) best_dist)
                  (Binary64.min_margin Binary64.Sample.form) = true ->
                r = (DB.empty, Ok (Binary64.low_margin_body best_dist
                                     (Binary64.distance second)))
                /\ Binary64.decision_of (snd r)
                   = Some (Binary64.Unknown_LowMargin best_dist
                             (PrimFloat.sub (Binary64.distance second) best_dist)))
          /\ (PrimFloat.ltb 1.2 best_dist = false ->
              (forall second rest',
                 rest = second :: rest' ->
                 PrimFloat.ltb (PrimFloat.sub (Binary64.distance second) best_dist)
                   (Binary64.min_margin Binary64.Sample.form) = false) ->
              exists st att,
                DB.st_code st = code
                /\ snd r = Ok (Binary64.marked_body st att best_dist
                                 Binary64.Sample.form)
                /\ Binary64.decision_of (snd r)
                   = Some (Binary64.Accepted code best_dist)).
Proof.
  split; [apply Inv_empty|]. split; [discriminate|].
  split; [reflexivity|]. split; [reflexivity|].
  apply (resolver_decision Binary64.EnvUnset (Sample.at_time 7 10 0)
           Binary64.Sample.form
           (Binary64.FindList [Some Binary64.Sample.sees_twins])
           Binary64.Sample.sees_twins 1.2%float DB.empty);
    [apply Inv_empty|discriminate|reflexivity|reflexivity].
Defined.

(** The three outcomes on frames of two rows.  In the last frame the
    distances are written 0.005 and 0.045: their difference as doubles is
    not below the margin 0.04, and the nearest is accepted. *)
Example b64_decisions_ex :
  map (fun rows =>
         Binary64.decision_of
           (snd (Binary64.attendance_mark Binary64.EnvUnset (Sample.at_time 7 10 0)
                   Binary64.Sample.form (Binary64.FindFrame (Some rows)) DB.empty)))
      [Binary64.Sample.sees_stranger; Binary64.Sample.sees_twins;
       Binary64.Sample.sees_ana; Binary64.Sample.sees_cousins]
  = [Some (Binary64.Unknown_AboveThreshold 1.3);
     Some (Binary64.Unknown_LowMargin 0.4 (PrimFloat.sub 0.42 0.4));
     Some (Binary64.Accepted "ana" 0.4);
     Some (Binary64.Accepted "ana" 0.005)].
Proof. vm_compute. reflexivity. Qed.

Example b64_margin_ex :
  PrimFloat.ltb (PrimFloat.sub 0.045 0.005) 0.04 = false
  /\ PrimFloat.ltb (PrimFloat.sub 0.42 0.4) 0.04 = true.
Proof. split; vm_compute; reflexivity. Qed.

(** ** Percentages *)

Lemma b64_pct_if_total part whole : exists x, Binary64.pct_if part whole = Some x.
Proof.
  unfold Binary64.pct_if, Binary64.truediv.
  destruct (whole =? 0); simpl; eauto.
Qed.

Lemma b64_pct_if_zero part : Binary64.pct_if part 0 = Some 0%float.
Proof. reflexivity. Qed.

Lemma b64_pct_if_pos part whole :
  whole <> 0 ->
  Binary64.pct_if part whole
  = Some (Binary64.of_int part / Binary64.of_int whole * 100)%float.
Proof.
  intros H. unfold Binary64.pct_if, Binary64.truediv.
  apply Z.eqb_neq in H. rewrite H. reflexivity.
Qed.

Example b64_round2_ex :
  Binary64.round2 (Binary64.of_int 23 / Binary64.of_int 160 * 100)%float
  = 14.37%float
  /\ (Binary64.of_int 23 / Binary64.of_int 160 * 100)%float
     = 14.374999999999998%float
  /\ Binary64.round2 (Binary64.of_int 2 / Binary64.of_int 3 * 100)%float
     = 66.67%float
  /\ Binary64.round2 0.125 = 0.12%float
  /\ Binary64.round2 0.375 = 0.38%float
  /\ Binary64.round2 2.675 = 2.67%float
  /\ Binary64.round2 (-0.001) = (-0)%float.
Proof. repeat split; vm_compute; reflexivity. Qed.

(** C5, as the code has it. For an inclusive range and a group filter,
    [absent_pct] is the share of the students of the group with no
    attendance dated in the range, as a percentage rounded to two decimals:
    [round((students_total - present) / students_total * 100.0, 2)] in
    doubles when there are students, 0.0 when there are none; with five
    students of whom two are present it is 60.0, and with 160 of whom 137
    are present it is 14.37. *)
Theorem summary_absent_pct
    (period grade section : option string) (start end_ today : PyDate.date)
    (db : DB.t) :
  Inv db ->
  exists r,
    Binary64.metrics_summary period grade section (Some start) (Some end_) today db
    = Some r
    /\ Binary64.students_total r
       = count (filter (in_group grade section) (DB.students db))
    /\ let n := Binary64.students_total r in
       let present := count (present_students start end_ grade section db) in
       (0 < n ->
        Binary64.absent_pct r
        = Binary64.round2
            (Binary64.of_int (n - present) / Binary64.of_int n * 100)%float)
       /\ (n = 0 -> Binary64.absent_pct r = 0%float)
       /\ (n = 5 -> present = 2 -> Binary64.absent_pct r = 60%float)
       /\ (n = 160 -> present = 137 -> Binary64.absent_pct r = 14.37%float).
Proof.
  intros HI. pose proof (inv_pk_students _ HI) as Hpk.
  unfold Binary64.metrics_summary.
  assert (match period with
          | Some p =>
              match Some start with
              | Some _ => (Some start, Some end_)
              | None =>
                  match Some end_ with
                  | Some _ => (Some start, Some end_)
                  | None =>
                      if PyStr.truthy p then period_range p today
                      else (Some start, Some end_)
                  end
              end
          | None => (Some start, Some end_)
          end = (Some start, Some end_)) as -> by (destruct period; reflexivity).
  rewrite distinct_count_present by exact Hpk.
  set (q := filter _ (join_student db)).
  set (n := count (filter (in_group grade section) (DB.students db))).
  set (present := count (present_students start end_ grade section db)).
  destruct (b64_pct_if_total
              (count (filter (fun r => status_is "Puntual" (fst r)) q))
              (count q)) as [x ->].
  destruct (b64_pct_if_total
              (count (filter (fun r => status_is "Tarde" (fst r)) q))
              (count q)) as [y ->].
  destruct (Z.eq_dec n 0) as [E0|Hn].
  - rewrite E0, b64_pct_if_zero. simpl. eexists. split; [reflexivity|].
    simpl. repeat split; try lia.
  - rewrite (b64_pct_if_pos _ n Hn). simpl. eexists. split; [reflexivity|].
    simpl. split; [reflexivity|]. split; [reflexivity|]. split; [lia|].
    split; intros -> ->; vm_compute; reflexivity.
Qed.

Lemma summary_absent_pct_class_of_five :
  Inv (run Sample.class_of_five)
  /\ exists r,
       Binary64.metrics_summary None None None (Some Sample.monday)
         (Some Sample.monday) Sample.monday (run Sample.class_of_five) = Some r
       /\ Binary64.students_total r
          = count (filter (in_group None None)
                     (DB.students (run Sample.class_of_five)))
       /\ let n := Binary64.students_total r in
          let present :=
            count (present_students Sample.monday Sample.monday None None
                     (run Sample.class_of_five)) in
          (0 < n ->
           Binary64.absent_pct r
           = Binary64.round2
               (Binary64.of_int (n - present) / Binary64.of_int n * 100)%float)
          /\ (n = 0 -> Binary64.absent_pct r = 0%float)
          /\ (n = 5 -> present = 2 -> Binary64.absent_pct r = 60%float)
          /\ (n = 160 -> present = 137 -> Binary64.absent_pct r = 14.37%float).
Proof.
  split; [apply reachable_Inv, reachable_run|].
  apply (summary_absent_pct None None None Sample.monday Sample.monday
           Sample.monday (run Sample.class_of_five)).
  apply reachable_Inv, reachable_run.
Defined.

(** One of three students present: the share absent times 100 is the double
    66.66666666666666, and [absent_pct] is 66.67. *)
Lemma summary_absent_pct_rounded :
  exists r,
    Binary64.metrics_summary None None None (Some Sample.monday)
      (Some Sample.monday) Sample.monday (run Sample.class_of_three) = Some r
    /\ Binary64.students_total r = 3
    /\ count (present_students Sample.monday Sample.monday None None
                (run Sample.class_of_three)) = 1
    /\ Binary64.absent_pct r = 66.67%float
    /\ (Binary64.of_int (3 - 1) / Binary64.of_int 3 * 100)%float
       = 66.66666666666666%float
    /\ Binary64.absent_pct r
       <> (Binary64.of_int (3 - 1) / Binary64.of_int 3 * 100)%float.
Proof.
  eexists. split; [vm_compute; reflexivity|].
  repeat split; try (vm_compute; reflexivity).
  intros E.
  assert (PrimFloat.eqb 66.67 66.66666666666666 = true) as H.
  { vm_compute in E. rewrite E. vm_compute. reflexivity. }
  vm_compute in H. discriminate.
Qed.

(** ** The week *)

Lemma b64_weekly_loop_spec (offsets : list Z) (today : PyDate.date) (n : Z)
    (db : DB.t) :
  exists w,
    Binary64.weekly_loop offsets today n db = Some w
    /\ Binary64.labels w = map (fun i => strftime_a (today - i)) offsets
    /\ Binary64.attendance_pct w
       = map (fun i =>
                Binary64.round2
                  match Binary64.pct_if
                          (count (filter (fun a => DB.at_date a =? today - i)
                                         (DB.attendances db))) n with
                  | Some x => x
                  | None => 0%float
                  end) offsets.
Proof.
  induction offsets as [|i rest (w & E & Hl & Hp)]; simpl.
  - eexists. repeat split.
  - destruct (b64_pct_if_total
                (count (filter (fun a => DB.at_date a =? today - i)
                               (DB.attendances db))) n) as [x Hx].
    rewrite Hx, E. simpl. eexists. split; [reflexivity|]. simpl.
    rewrite Hl, Hp. split; reflexivity.
Qed.

(** [metrics_weekly] always answers, with seven labels and seven
    percentages for the seven days that end today, the oldest first; the
    percentage of a day is [round(total / total_students * 100.0, 2)] in
    doubles, and 0.0 for every day when there is no student. *)
Theorem metrics_weekly_days (today : PyDate.date) (db : DB.t) :
  let n := count (DB.students db) in
  let day_count := fun d =>
    count (filter (fun a => DB.at_date a =? d) (DB.attendances db)) in
  exists w,
    Binary64.metrics_weekly today db = Some w
    /\ Binary64.labels w
       = map (fun i => strftime_a (today - i)) [6; 5; 4; 3; 2; 1; 0]
    /\ List.length (Binary64.attendance_pct w) = 7%nat
    /\ (n = 0 -> Binary64.attendance_pct w = repeat 0%float 7)
    /\ (n <> 0 ->
        Binary64.attendance_pct w
        = map (fun i =>
                 Binary64.round2
                   (Binary64.of_int (day_count (today - i)%Z) / Binary64.of_int n
                    * 100)%float)
              [6; 5; 4; 3; 2; 1; 0]).
Proof.
  cbv zeta. unfold Binary64.metrics_weekly.
  destruct (b64_weekly_loop_spec [6; 5; 4; 3; 2; 1; 0] today
              (count (DB.students db)) db) as (w & E & Hl & Hp).
  exists w. split; [exact E|]. split; [exact Hl|].
  rewrite Hp. split; [reflexivity|]. split.
  - intros Hn. rewrite Hn. reflexivity.
  - intros Hn. apply map_ext. intros i. now rewrite (b64_pct_if_pos _ _ Hn).
Qed.

Example b64_weekly_class_of_three_ex :
  option_map (fun w => (Binary64.labels w, Binary64.attendance_pct w))
    (Binary64.metrics_weekly Sample.monday (run Sample.class_of_three))
  = Some (["Tue"; "Wed"; "Thu"; "Fri"; "Sat"; "Sun"; "Mon"],
          [0; 0; 0; 0; 0; 0; 33.33]%float).
Proof. vm_compute. reflexivity. Qed.

(** ** The two views of today *)

Lemma b64_summary_day_unfold (today : PyDate.date) (db : DB.t) :
  Binary64.metrics_summary (Some "day") None None None None today db
  = (let q := filter (fun r => (today <=? DB.at_date (fst r))
                               && (DB.at_date (fst r) <=? today) && true)
                     (join_student db) in
     let total := count q in
     let n := count (filter (in_group None None) (DB.students db)) in
     punctuality <- Binary64.pct_if
                      (count (filter (fun r => status_is "Puntual" (fst r)) q))
                      total ;;
     late_pct <- Binary64.pct_if
                   (count (filter (fun r => status_is "Tarde" (fst r)) q))
                   total ;;
     absent_pct <- Binary64.pct_if
                     (n - distinct_count
                            (map (fun r => DB.at_student_id (fst r)) q)) n ;;
     Some (Binary64.mk_summary n total (Binary64.round2 punctuality)
             (Binary64.round2 late_pct) (Binary64.round2 absent_pct))).
Proof. reflexivity. Qed.

(** On tables that satisfy the constraints and in which every attendance is
    of a student, the summary of the period ["day"] without filters and
    [metrics_today] agree: the same number of records, and an [absent_pct]
    that is [round(absent_today / students * 100.0, 2)] in doubles. *)
Theorem summary_day_agrees_with_today (today : PyDate.date) (db : DB.t) :
  Inv db -> fk_attendance_student db ->
  exists r,
    Binary64.metrics_summary (Some "day") None None None None today db = Some r
    /\ Binary64.students_total r = count (DB.students db)
    /\ Binary64.records_total r = total_today (metrics_today today db)
    /\ (count (DB.students db) <> 0 ->
        Binary64.absent_pct r
        = Binary64.round2
            (Binary64.of_int (absent_today (metrics_today today db))
             / Binary64.of_int (count (DB.students db)) * 100)%float).
Proof.
  intros HI Hfk.
  rewrite b64_summary_day_unfold. cbv zeta.
  set (q := filter _ (join_student db)).
  set (todays := filter (fun a => DB.at_date a =? today) (DB.attendances db)).
  assert (map fst q = todays) as Hq.
  { subst q todays.
    rewrite (filter_map_fst
               (fun a => (today <=? DB.at_date a) && (DB.at_date a <=? today) && true)).
    rewrite (join_fst db HI Hfk). apply filter_ext. intros a.
    destruct (Z.eqb_spec (DB.at_date a) today) as [->|Hne].
    - now rewrite Z.leb_refl.
    - destruct (Z.leb_spec today (DB.at_date a)),
        (Z.leb_spec (DB.at_date a) today); simpl; auto; lia. }
  assert (count q = count todays) as Hc
    by (unfold count; now rewrite <- Hq, length_map).
  assert (filter (in_group None None) (DB.students db) = DB.students db) as Hn
    by (apply filter_all; reflexivity).
  assert (distinct_count (map (fun r => DB.at_student_id (fst r)) q) = count todays)
    as Hd.
  { unfold distinct_count, count.
    rewrite <- (map_map fst DB.at_student_id), Hq, nodup_fixed_point, length_map;
      [reflexivity|].
    apply (NoDup_map_fst_of_pairs DB.at_student_id DB.at_date today).
    - apply (NoDup_map_filter (fun a => (DB.at_student_id a, DB.at_date a))).
      apply HI.
    - intros a Ha. apply filter_In in Ha. destruct Ha as [_ Hp].
      now apply Z.eqb_eq in Hp. }
  rewrite Hn, Hd, Hc.
  pose proof (day_records_le_students db today HI Hfk) as Hle. fold todays in Hle.
  destruct (b64_pct_if_total
              (count (filter (fun r => status_is "Puntual" (fst r)) q))
              (count todays)) as [x ->].
  destruct (b64_pct_if_total
              (count (filter (fun r => status_is "Tarde" (fst r)) q))
              (count todays)) as [y ->].
  destruct (b64_pct_if_total (count (DB.students db) - count todays)
              (count (DB.students db))) as [z Hz].
  rewrite Hz. simpl. eexists. split; [reflexivity|]. simpl.
  split; [reflexivity|]. split; [reflexivity|].
  intros Hne. rewrite (b64_pct_if_pos _ _ Hne) in Hz. inversion Hz. subst z.
  unfold metrics_today. simpl. fold todays.
  replace (Z.max (count (DB.students db) - count todays) 0)
    with (count (DB.students db) - count todays) by lia.
  reflexivity.
Qed.

Lemma class_of_three_fk : fk_attendance_student (run Sample.class_of_three).
Proof.
  apply run_fk_from; [constructor| |reflexivity]. intros a [].
Qed.

Lemma summary_day_agrees_with_today_class :
  Inv (run Sample.class_of_three)
  /\ fk_attendance_student (run Sample.class_of_three)
  /\ exists r,
       Binary64.metrics_summary (Some "day") None None None None Sample.monday
         (run Sample.class_of_three) = Some r
       /\ Binary64.students_total r = count (DB.students (run Sample.class_of_three))
       /\ Binary64.records_total r
          = total_today (metrics_today Sample.monday (run Sample.class_of_three))
       /\ (count (DB.students (run Sample.class_of_three)) <> 0 ->
           Binary64.absent_pct r
           = Binary64.round2
               (Binary64.of_int
                  (absent_today (metrics_today Sample.monday
                                   (run Sample.class_of_three)))
                / Binary64.of_int (count (DB.students (run Sample.class_of_three)))
                * 100)%float).
Proof.
  split; [apply reachable_Inv, reachable_run|].
  split; [apply class_of_three_fk|].
  apply (summary_day_agrees_with_today Sample.monday (run Sample.class_of_three)).
  - apply reachable_Inv, reachable_run.
  - apply class_of_three_fk.
Defined.

(** ** What [attendance_mark] raises *)

(** [attendance_mark] on tables that satisfy the constraints.  A
    [FACE_MAX_DISTANCE] that is not a number, when the form has no
    [max_distance], raises [ValueError]; else what the engine raises leaves
    the handler, and an empty list of frames raises the [IndexError] of
    [dfs[0]]; in the three cases nothing is written.  Else the handler
    returns a body: neither [one_or_none] finds two rows, and the body is
    marked, or unknown with the tables untouched. *)
Theorem attendance_mark_raises
    (env : Binary64.face_max_distance) (clk : clock) (form : Binary64.mark_form)
    (engine : Binary64.found) (db : DB.t) :
  Inv db ->
  let r := Binary64.attendance_mark env clk form engine db in
  (Binary64.max_distance form = None -> env = Binary64.EnvNotFloat ->
   r = (db, Raised "ValueError"))
  /\ (forall thr, Binary64.eff_max_distance env form = Some thr ->
      (forall exn, engine = Binary64.FindRaises exn -> r = (db, Raised exn))
      /\ (engine = Binary64.FindList [] -> r = (db, Raised "IndexError"))
      /\ (forall df, Binary64.frame engine = inr df ->
          exists db' body,
            r = (db', Ok body)
            /\ (Binary64.json_get "status" body = Some (Binary64.JStr "marked")
                \/ (Binary64.json_get "status" body
                    = Some (Binary64.JStr "unknown") /\ db' = db)))).
Proof.
  intros HI. cbv zeta. split.
  - intros Hm ->. unfold Binary64.attendance_mark, Binary64.eff_max_distance.
    now rewrite Hm.
  - intros thr Et. unfold Binary64.attendance_mark at 1 2. rewrite Et.
    split; [intros exn ->; reflexivity|]. split; [intros ->; reflexivity|].
    intros df Ef. rewrite (b64_attendance_mark_frame _ _ _ _ _ _ _ Et Ef).
    destruct df as [[|c rows]|];
      try (exists db, Binary64.unknown_body;
           split; [reflexivity|right; split; reflexivity]).
    destruct (b64_sort_values_cons c rows) as (best & rest & Es).
    rewrite (b64_decide_sorted _ _ _ _ _ _ _ _ Es). cbv zeta.
    destruct (mark_student_post clk
                (PyStr.basename (PyStr.dirname (Binary64.identity best))) db HI)
      as (db1 & st & att & E & _).
    rewrite E.
    destruct (PrimFloat.ltb thr (Binary64.distance best));
      [eexists _, _; split; [reflexivity|right; split; reflexivity]|].
    destruct rest as [|second rest'];
      [eexists _, _; split; [reflexivity|left; reflexivity]|].
    destruct (PrimFloat.ltb _ (Binary64.min_margin form));
      eexists _, _; (split; [reflexivity|]);
      [right; split; reflexivity|left; reflexivity].
Qed.

Lemma attendance_mark_raises_morning :
  Inv (run Sample.morning)
  /\ Binary64.attendance_mark Binary64.EnvNotFloat (Sample.at_time 8 5 0)
       Binary64.Sample.form (Binary64.FindFrame (Some Binary64.Sample.sees_ana))
       (run Sample.morning)
     = (run Sample.morning, Raised "ValueError")
  /\ Binary64.attendance_mark Binary64.EnvUnset (Sample.at_time 8 5 0)
       Binary64.Sample.form (Binary64.FindList []) (run Sample.morning)
     = (run Sample.morning, Raised "IndexError")
  /\ exists db' body,
       Binary64.attendance_mark Binary64.EnvUnset (Sample.at_time 8 5 0)
         Binary64.Sample.form
         (Binary64.FindList [Some Binary64.Sample.sees_twins]) (run Sample.morning)
       = (db', Ok body)
       /\ (Binary64.json_get "status" body = Some (Binary64.JStr "marked")
           \/ (Binary64.json_get "status" body = Some (Binary64.JStr "unknown")
               /\ db' = run Sample.morning)).
Proof.
  assert (Inv (run Sample.morning)) as HI by apply reachable_Inv, reachable_run.
  split; [exact HI|]. split; [|split].
  - destruct (attendance_mark_raises Binary64.EnvNotFloat (Sample.at_time 8 5 0)
                Binary64.Sample.form
                (Binary64.FindFrame (Some Binary64.Sample.sees_ana))
                (run Sample.morning) HI) as [H _].
    apply H; reflexivity.
  - destruct (attendance_mark_raises Binary64.EnvUnset (Sample.at_time 8 5 0)
                Binary64.Sample.form (Binary64.FindList [])
                (run Sample.morning) HI) as [_ H].
    destruct (H 1.2%float eq_refl) as (_ & H2 & _). apply H2. reflexivity.
  - destruct (attendance_mark_raises Binary64.EnvUnset (Sample.at_time 8 5 0)
                Binary64.Sample.form
                (Binary64.FindList [Some Binary64.Sample.sees_twins])
                (run Sample.morning) HI) as [_ H].
    destruct (H 1.2%float eq_refl) as (_ & _ & H3).
    apply (H3 (Some Binary64.Sample.sees_twins)). reflexivity.
Defined.
